(** * Meta scoring aggregator: a shallow embedding of
    [meta_scorer/scoring_aggregator.py] and the properties of its
    scoring rules, its validation and its aggregation loop.

    The dictionaries the program reads are records of optional fields
    ([d.get(k, default)] is [get], [d[k]] is [item] and may raise
    [KeyError]) and finite maps from names; numbers that are only compared
    are extended rationals; scores are Python [int]s.  Code that may raise
    returns a [result]; the methods of the aggregator run over an explicit
    store with a heap of objects, the log and the file system.

    That embedding follows the data model of the specification.  A second
    one, [General], is the same program over what YAML can give besides:
    scores that are floats, configurations and sections that are not
    mappings, files that cannot be read. *)

From Stdlib Require Import ZArith QArith Qcanon Lqa String Ascii Bool.
From Stdlib Require Import DecimalString.
From Stdlib Require Floats.
From stdpp Require Import gmap strings list fin_maps.

Local Open Scope Z_scope.
Local Open Scope string_scope.

(** ** Python values used by the program *)

Module Py.

(** Numbers read from the module records and from the thresholds are only
    ever compared.  A Python [int] or a finite [float] is the rational it
    denotes, and comparison between them is exact, so such a number is a
    [Q]; [float('inf')] (the default of several lookups) and its negative
    are the two infinities.  NaN is not represented. *)
Inductive num : Type :=
| NegInf
| Fin (q : Q)
| PosInf.

Definition of_Z (z : Z) : num := Fin (inject_Z z).

Definition Qlt_bool (x y : Q) : bool := negb (Qle_bool y x).

(** [a < b] *)
Definition ltb (a b : num) : bool :=
  match a, b with
  | NegInf, NegInf => false
  | NegInf, _ => true
  | Fin _, NegInf => false
  | Fin x, Fin y => Qlt_bool x y
  | Fin _, PosInf => true
  | PosInf, _ => false
  end.

(** [a <= b] *)
Definition leb (a b : num) : bool :=
  match a, b with
  | NegInf, _ => true
  | Fin _, NegInf => false
  | Fin x, Fin y => Qle_bool x y
  | Fin _, PosInf => true
  | PosInf, PosInf => true
  | PosInf, _ => false
  end.

(** [a == b] *)
Definition eqb (a b : num) : bool :=
  match a, b with
  | NegInf, NegInf => true
  | Fin x, Fin y => Qeq_bool x y
  | PosInf, PosInf => true
  | _, _ => false
  end.

(** [a > b] and [a >= b] are the mirrored comparisons. *)
Definition gtb (a b : num) : bool := ltb b a.
Definition geb (a b : num) : bool := leb b a.

(** The two-argument [min(a, b)]: the first argument is kept unless the
    second is strictly smaller. *)
Definition min (a b : num) : num := if ltb b a then b else a.

(** The integer a number is equal to, if any: the key under which a
    dictionary with [int] keys finds it ([2.0] finds the key [2]). *)
Definition to_key (a : num) : option Z :=
  match a with
  | Fin q =>
      let r := Qred q in
      if Pos.eqb (Qden r) 1 then Some (Qnum r) else None
  | _ => None
  end.

(** [sum(l)] of Python [int]s. *)
Definition sum (l : list Z) : Z := fold_left Z.add l 0.

(** [int(z)] of a Python [int]. *)
Definition int (z : Z) : Z := z.

(** [str(z)] for a Python [int]. *)
Definition str (z : Z) : string := NilZero.string_of_int (Z.to_int z).

(** [s.lower()] for text in ASCII: the letters A to Z become a to z.
    Text with other cased letters is outside the model. *)
Definition lower_ascii (c : ascii) : ascii :=
  let n := nat_of_ascii c in
  if (Nat.leb 65 n && Nat.leb n 90)%bool then ascii_of_nat (n + 32) else c.

Fixpoint lower (s : string) : string :=
  match s with
  | EmptyString => EmptyString
  | String c s' => String (lower_ascii c) (lower s')
  end.

(** [sep.join(l)] *)
Fixpoint join (sep : string) (l : list string) : string :=
  match l with
  | [] => ""
  | [x] => x
  | x :: l' => x +:+ sep +:+ join sep l'
  end.

(** [repr(l)] for a list of strings without quotes or escapes, as in
    ['toxicity', 'off_target']. *)
Definition repr_list (l : list string) : string :=
  "[" +:+ join ", " (map (fun s => "'" +:+ s +:+ "'") l) +:+ "]".

(** [x in l] for strings. *)
Definition str_in (x : string) (l : list string) : bool :=
  existsb (String.eqb x) l.

(** Truth value of an optional string: [None] and [""] are false. *)
Definition truthy (o : option string) : bool :=
  match o with
  | None => false
  | Some s => negb (String.eqb s "")
  end.

(** Exceptions the program raises or lets escape. *)
Inductive exn : Type :=
| ScoringError (msg : string)
| FileNotFoundError (msg : string)
| YAMLError (msg : string)
| KeyError (key : string)
| IndexError
| ValueError
| TypeError
| AttributeError
| OverflowError
| OSError (msg : string).

(** [str(e)], the text an f-string inserts for an exception. *)
Definition exn_str (e : exn) : string :=
  match e with
  | ScoringError m | FileNotFoundError m | YAMLError m | OSError m => m
  | KeyError k => "'" +:+ k +:+ "'"
  | IndexError => "list index out of range"
  | ValueError => "max() arg is an empty sequence"
  | TypeError => "unsupported operand"
  | AttributeError => "no such attribute"
  | OverflowError => "int too large to convert to float"
  end.

Inductive result (A : Type) : Type :=
| Ok (a : A)
| Err (e : exn).
Arguments Ok {A} a.
Arguments Err {A} e.

Definition bind {A B} (r : result A) (k : A -> result B) : result B :=
  match r with
  | Ok a => k a
  | Err e => Err e
  end.

(** [d.get(k, default)] on an optional field. *)
Definition get {A} (field : option A) (default : A) : A :=
  match field with Some v => v | None => default end.

(** [d[k]] on an optional field. *)
Definition item {A} (field : option A) (k : string) : result A :=
  match field with Some v => Ok v | None => Err (KeyError k) end.

(** [l[i]] for a non-negative constant index. *)
Definition index {A} (l : list A) (i : nat) : result A :=
  match l !! i with Some v => Ok v | None => Err IndexError end.

End Py.

Import Py.

Notation "'let*' x ':=' c1 'in' c2" := (Py.bind c1 (fun x => c2))
  (at level 10, x pattern, c1 at level 100, c2 at level 200).

(** ** Data model *)

(** A module record of the input bundle: a dictionary whose fields are all
    optional.  A record of any module may carry any of the fields; each rule
    reads its own and ignores the rest.  A field that is present holds a
    value of the type its rule expects; a field that holds null or a value
    of another type is outside the model. *)
Record module_record : Type := {
  affinity_kcal : option num;
  rmsd : option num;
  num_converged_poses : option num;
  logP : option num;
  HIA : option string;
  half_life_hr : option num;
  clearance : option string;
  CYP_inhibition : option bool;
  num_models_flagged : option num;
  high_risk_models : option (list string);
  pocket_score : option num;
  volume : option num;
  hydrophobicity : option num;
  num_violations : option num;
  selectivity_index : option num;
  num_off_targets : option num
}.

(** The empty dictionary [{}]. *)
Definition empty_record : module_record :=
  {| affinity_kcal := None; rmsd := None; num_converged_poses := None;
     logP := None; HIA := None; half_life_hr := None; clearance := None;
     CYP_inhibition := None; num_models_flagged := None;
     high_risk_models := None; pocket_score := None; volume := None;
     hydrophobicity := None; num_violations := None;
     selectivity_index := None; num_off_targets := None |}.

(** [config["affinity"]] *)
Record affinity_thresholds : Type := {
  high : option num;
  medium : option num;
  low : option num
}.

(** [thresholds[module]]: the threshold dictionary of one module.  The keys
    are those the six rules read; a key that is absent raises [KeyError]
    where the rule reads it.  Values that enter a score are Python [int]s,
    as the rules' [-> int] annotations say. *)
Record module_config : Type := {
  affinity : option affinity_thresholds;
  rmsd_max : option num;
  min_poses : option num;
  logP_range : option (list num);
  half_life_min : option num;
  clearance_acceptable : option (list string);
  cyp_inhibition_penalty : option Z;
  max_flags_allowed : option Z;
  override_models : option (list string);
  high_score : option num;
  mid_score : option num;
  bonus_volume_min : option num;
  bonus_hydrophobicity_min : option num;
  volume_hydrophobicity_bonus : option Z;
  score_by_violations : option (gmap Z Z);
  si_thresholds : option (list num);
  low_target_bonus_threshold : option num;
  low_target_bonus : option Z
}.

(** The parsed configuration, the [Dict] that [_load_config] returns: a
    non-empty mapping, of which the program reads the sections [weights]
    and [thresholds], themselves mappings from module names. *)
Record config : Type := {
  weights : option (gmap string num);
  thresholds : option (gmap string module_config)
}.

(** What [yaml.safe_load] returns for a well-formed document: a value that
    is false ([None] for an empty document, an empty mapping, ...) or a
    non-empty mapping.  A document that is neither (a number, a list) is
    not represented. *)
Inductive yaml_doc : Type :=
| YEmpty
| YMapping (c : config).

(** [AggregationResult], the dictionary a scoring call returns, with the
    [score_breakdown] dictionary (in insertion order) and the
    [failure_rationale] list it holds. *)
Record AggregationResult : Type := {
  svs_score : Z;
  go_decision : string;
  score_breakdown : list (string * Z);
  failure_rationale : list string
}.

(** ** The store *)

Definition loc : Type := nat.

(** Arguments a caller can pass. *)
Inductive value : Type :=
| VNone
| VInt (z : Z)
| VStr (s : string)
| VRef (l : loc).

(** Objects with identity. *)
Inductive obj : Type :=
| OAggregator (config : option config)
    (* a MetaScoringAggregator; [None] before [self.config] is assigned *)
| ODict (d : gmap string module_record)
    (* a bundle of module records *)
| OResult (r : AggregationResult)
    (* a result dictionary with the two containers it holds *)
| OList (l : list value).

Record world : Type := {
  heap : list obj;
  log : list (string * string);      (* records handed to the logger *)
  files : gmap string string;        (* the file system: path to text *)
  basic_config : bool                (* logging.basicConfig has run *)
}.

(** Computations that read and write the store and may raise. *)
Definition M (A : Type) : Type := world -> result A * world.

Definition ret {A} (a : A) : M A := fun w => (Ok a, w).
Definition raise {A} (e : exn) : M A := fun w => (Err e, w).
Definition mbind {A B} (m : M A) (k : A -> M B) : M B :=
  fun w =>
    match m w with
    | (Ok a, w') => k a w'
    | (Err e, w') => (Err e, w')
    end.
Definition lift {A} (r : result A) : M A := fun w => (r, w).

(** [try: body except Exception as e: raise handler(e)] *)
Definition try_except {A} (body : M A) (handler : exn -> exn) : M A :=
  fun w =>
    match body w with
    | (Ok a, w') => (Ok a, w')
    | (Err e, w') => (Err (handler e), w')
    end.

Notation "'do' x '<-' c1 ';' c2" := (mbind c1 (fun x => c2))
  (at level 10, x name, c1 at level 100, c2 at level 200).
Notation "'run' c1 ';' c2" := (mbind c1 (fun _ => c2))
  (at level 10, c1 at level 100, c2 at level 200).

Definition with_heap (w : world) (h : list obj) : world :=
  {| heap := h; log := w.(log); files := w.(files);
     basic_config := w.(basic_config) |}.

Definition with_log (w : world) (entries : list (string * string)) : world :=
  {| heap := w.(heap); log := entries; files := w.(files);
     basic_config := w.(basic_config) |}.

(** [logger.info(msg)], [logger.warning(msg)], [logger.error(msg)] *)
Definition logger (level msg : string) : M unit :=
  fun w => (Ok tt, with_log w (w.(log) ++ [(level, msg)])).

(** A new object, at the next free location. *)
Definition alloc (o : obj) : M loc :=
  fun w => (Ok (length w.(heap)), with_heap w (w.(heap) ++ [o])).

(** Assignment to an attribute of the object at [l]. *)
Definition store (l : loc) (o : obj) : M unit :=
  fun w => (Ok tt, with_heap w (<[l:=o]> w.(heap))).

Definition deref (l : loc) : M (option obj) := fun w => (Ok (w.(heap) !! l), w).

(** [os.path.exists(path)] and the text [open(path)] gives: a path that
    exists names a readable text file. *)
Definition read_file (path : string) : M (option string) :=
  fun w => (Ok (w.(files) !! path), w).

(** [logging.basicConfig(...)] *)
Definition basicConfig : M unit :=
  fun w =>
    (Ok tt, {| heap := w.(heap); log := w.(log);
               files := w.(files); basic_config := true |}).

(** What the caller reads from a call: the exception, or the object the
    returned reference points to. *)
Definition outcome (r : result value * world) : result (option obj) :=
  match r with
  | (Ok (VRef l), w') => Ok (w'.(heap) !! l)
  | (Ok _, _) => Ok None
  | (Err e, _) => Err e
  end.

(** ** The six scoring rules *)

Module MetaScoringAggregator.

Definition _score_docking (docking_data : module_record) (config : module_config)
  : result Z :=
  let affinity_v := get docking_data.(affinity_kcal) (of_Z 0) in
  let rmsd_v := get docking_data.(rmsd) PosInf in
  let poses := get docking_data.(num_converged_poses) (of_Z 0) in
  let score := 0 in
  let* score :=
    (let* a := item config.(affinity) "affinity" in
     let* hi := item a.(high) "high" in
     if ltb affinity_v hi then Ok 25 else
     let* a := item config.(affinity) "affinity" in
     let* med := item a.(medium) "medium" in
     if ltb affinity_v med then Ok 20 else
     let* a := item config.(affinity) "affinity" in
     let* lo := item a.(low) "low" in
     if ltb affinity_v lo then Ok 10 else Ok score) in
  let* penalised :=
    (let* rmax := item config.(rmsd_max) "rmsd_max" in
     if gtb rmsd_v rmax then Ok true else
     let* minp := item config.(min_poses) "min_poses" in
     Ok (ltb poses minp)) in
  let score := if penalised : bool then score - 5 else score in
  Ok (Z.max score 0).

Definition _score_adme_pk (adme_data : module_record) (config : module_config)
  : result Z :=
  let score := 0 in
  let* in_range :=
    (let* r := item config.(logP_range) "logP_range" in
     let* lo := index r 0 in
     let x := get adme_data.(logP) (of_Z (-1)) in
     if leb lo x then
       let* r := item config.(logP_range) "logP_range" in
       let* hi := index r 1 in
       Ok (leb x hi)
     else Ok false) in
  let score := if in_range : bool then score + 5 else score in
  let score :=
    if String.eqb (lower (get adme_data.(HIA) "")) "high" then score + 5 else score in
  let* long_lived :=
    (let* hmin := item config.(half_life_min) "half_life_min" in
     Ok (gtb (get adme_data.(half_life_hr) (of_Z 0)) hmin)) in
  let score := if long_lived : bool then score + 5 else score in
  let* cleared :=
    (let c := lower (get adme_data.(clearance) "") in
     let* acc := item config.(clearance_acceptable) "clearance_acceptable" in
     Ok (str_in c (map lower acc))) in
  let score := if cleared : bool then score + 5 else score in
  let* score :=
    (if get adme_data.(CYP_inhibition) false then
       let* p := item config.(cyp_inhibition_penalty) "cyp_inhibition_penalty" in
       Ok (score + p)
     else Ok score) in
  Ok (Z.max score 0).

(** The list comprehension
    [[m for m in high_risk_models if m in config["override_models"]]]:
    the configuration is read once per element, so not at all for the
    empty list. *)
Definition high_risk_hits (models : list string) (config : module_config)
  : result (list string) :=
  match models with
  | [] => Ok []
  | _ =>
      let* ov := item config.(override_models) "override_models" in
      Ok (List.filter (fun m => str_in m ov) models)
  end.

Definition _score_toxicity (tox_data : module_record) (config : module_config)
  : result (Z * option string) :=
  let score := 0 in
  let failure_reason : option string := None in
  let num_flagged := get tox_data.(num_models_flagged) (of_Z 0) in
  let* base :=
    (if eqb num_flagged (of_Z 0) then Ok (20, failure_reason)
     else if eqb num_flagged (of_Z 1) then Ok (10, failure_reason)
     else
       let* mx := item config.(max_flags_allowed) "max_flags_allowed" in
       if gtb num_flagged (of_Z mx) then
         Ok (score, Some (">" +:+ str mx +:+ " toxicity models flagged"))
       else Ok (score, failure_reason)) in
  let '(score, failure_reason) := base in
  let* high_risk_penalties :=
    high_risk_hits (get tox_data.(high_risk_models) []) config in
  let '(score, failure_reason) :=
    match high_risk_penalties with
    | [] => (score, failure_reason)
    | _ =>
        let score := score - 10 * Z.of_nat (length high_risk_penalties) in
        let penalty_reason :=
          "High-risk models flagged: " +:+ join ", " high_risk_penalties in
        (score,
         Some (if truthy failure_reason
               then get failure_reason "None" +:+ "; " +:+ penalty_reason
               else penalty_reason))
    end in
  Ok (Z.max score 0, failure_reason).

Definition _score_druggability (drugg_data : module_record) (config : module_config)
  : result Z :=
  let score := 0 in
  let* score :=
    (let* hs := item config.(high_score) "high_score" in
     if gtb (get drugg_data.(pocket_score) (of_Z 0)) hs then Ok (score + 10) else
     let* ms := item config.(mid_score) "mid_score" in
     if geb (get drugg_data.(pocket_score) (of_Z 0)) ms then Ok (score + 5)
     else Ok score) in
  let* bonus :=
    (let* vmin := item config.(bonus_volume_min) "bonus_volume_min" in
     if geb (get drugg_data.(volume) (of_Z 0)) vmin then
       let* hmin := item config.(bonus_hydrophobicity_min) "bonus_hydrophobicity_min" in
       Ok (geb (get drugg_data.(hydrophobicity) (of_Z 0)) hmin)
     else Ok false) in
  let* score :=
    (if bonus : bool then
       let* b := item config.(volume_hydrophobicity_bonus) "volume_hydrophobicity_bonus" in
       Ok (score + b)
     else Ok score) in
  Ok score.

(** [max(score_table.keys())] *)
Definition max_key (score_table : gmap Z Z) : result Z :=
  match (map_to_list score_table).*1 with
  | [] => Err ValueError
  | k :: ks => Ok (foldl Z.max k ks)
  end.

(** [score_table.get(violations, 0)]: a number finds the [int] key it is
    equal to. *)
Definition table_get (score_table : gmap Z Z) (violations : num) (default : Z) : Z :=
  match to_key violations with
  | Some k => get (score_table !! k) default
  | None => default
  end.

Definition _score_drug_likeness (dl_data : module_record) (config : module_config)
  : result Z :=
  let violations := get dl_data.(num_violations) PosInf in
  let* score_table := item config.(score_by_violations) "score_by_violations" in
  let* largest := max_key score_table in
  let violations := min violations (of_Z largest) in
  Ok (table_get score_table violations 0).

Definition _score_off_target (ot_data : module_record) (config : module_config)
  : result Z :=
  let si := get ot_data.(selectivity_index) (of_Z 0) in
  let* thresholds := item config.(si_thresholds) "si_thresholds" in
  let score := 0 in
  let* score :=
    (let* t2 := index thresholds 2 in
     if gtb si t2 then Ok 15 else
     let* t1 := index thresholds 1 in
     if gtb si t1 then Ok 10 else
     let* t0 := index thresholds 0 in
     if gtb si t0 then Ok 5 else Ok score) in
  let* score :=
    (let* thr := item config.(low_target_bonus_threshold) "low_target_bonus_threshold" in
     if ltb (get ot_data.(num_off_targets) PosInf) thr then
       let* b := item config.(low_target_bonus) "low_target_bonus" in
       Ok (score + b)
     else Ok score) in
  Ok score.

(** *** Input validation *)

Definition required_modules : list string :=
  ["docking"; "adme_pk"; "toxicity"; "druggability"; "drug_likeness"; "off_target"].

Definition result_keys : list string :=
  ["svs_score"; "go_decision"; "score_breakdown"; "failure_rationale"].

(** The object an argument refers to, if it is a reference. *)
Definition target (v : value) : M (option obj) :=
  match v with
  | VRef l => deref l
  | _ => ret None
  end.

(** [isinstance(o, dict)] *)
Definition is_dict (o : option obj) : bool :=
  match o with
  | Some (ODict _) | Some (OResult _) => true
  | _ => false
  end.

(** [len(o)] of a dictionary *)
Definition dict_len (o : option obj) : nat :=
  match o with
  | Some (ODict d) => size d
  | Some (OResult _) => length result_keys
  | _ => O
  end.

(** [k in o] for a dictionary *)
Definition dict_contains (o : option obj) (k : string) : bool :=
  match o with
  | Some (ODict d) => bool_decide (is_Some (d !! k))
  | Some (OResult _) => str_in k result_keys
  | _ => false
  end.

Definition _validate_input (module_outputs : value) : M unit :=
  do o <- target module_outputs;
  if negb (is_dict o) then
    raise (ScoringError "Input must be a dictionary")
  else if Nat.eqb (dict_len o) 0 then
    raise (ScoringError "Input dictionary cannot be empty")
  else
    let missing :=
      List.filter (fun m => negb (dict_contains o m)) required_modules in
    match missing with
    | [] => ret tt
    | _ => raise (ScoringError ("Missing required modules: " +:+ repr_list missing))
    end.

(** *** Aggregation *)

(** What a scoring function returns: a score, or for toxicity the pair of
    a score and an optional failure reason. *)
Inductive rule_output : Type :=
| Score (score : Z)
| ScoreReason (score : Z) (failure : option string).

Definition scoring_func : Type := module_record -> module_config -> result rule_output.

Definition as_score (rule : module_record -> module_config -> result Z) : scoring_func :=
  fun data config => let* s := rule data config in Ok (Score s).

Definition as_pair (rule : module_record -> module_config -> result (Z * option string))
  : scoring_func :=
  fun data config => let* p := rule data config in Ok (ScoreReason (fst p) (snd p)).

(** The dispatcher of [aggregate_scores], in its insertion order. *)
Definition scoring_functions : list (string * scoring_func) :=
  [ ("docking", as_score _score_docking);
    ("adme_pk", as_score _score_adme_pk);
    ("toxicity", as_pair _score_toxicity);
    ("druggability", as_score _score_druggability);
    ("drug_likeness", as_score _score_drug_likeness);
    ("off_target", as_score _score_off_target) ].

(** [module_outputs.get(module_name, {})].  Only a bundle of records gets
    here: validation has found the six module keys in it. *)
Definition get_record (module_outputs : value) (module_name : string) : M module_record :=
  do o <- target module_outputs;
  match o with
  | Some (ODict d) => ret (get (d !! module_name) empty_record)
  | _ => raise AttributeError
  end.

(** [self.config] *)
Definition self_config (self : loc) : M config :=
  do o <- deref self;
  match o with
  | Some (OAggregator (Some c)) => ret c
  | _ => raise AttributeError
  end.

(** [d[k] = v] on an insertion-ordered dictionary. *)
Fixpoint dict_set (d : list (string * Z)) (k : string) (v : Z) : list (string * Z) :=
  match d with
  | [] => [(k, v)]
  | (k', v') :: d' =>
      if String.eqb k' k then (k', v) :: d' else (k', v') :: dict_set d' k v
  end.

(** The local variables the loop updates:
    [score_breakdown], [failure_rationale], [total_score]. *)
Definition locals : Type := list (string * Z) * list string * Z.

(** One iteration of the loop over the dispatcher. *)
Definition score_module (module_outputs : value)
    (thresholds : gmap string module_config)
    (entry : string * scoring_func) (vars : locals) : M locals :=
  let '(module_name, scoring_func) := entry in
  let '(score_breakdown, failure_rationale, total_score) := vars in
  do module_data <- get_record module_outputs module_name;
  do module_config <- lift (item (thresholds !! module_name) module_name);
  do scored <-
    (if String.eqb module_name "toxicity" then
       do out <- lift (scoring_func module_data module_config);
       match out with
       | ScoreReason score failure =>
           if truthy failure then
             run logger "WARNING"
                   ("Toxicity override triggered: " +:+ get failure "None");
             ret (score,
                  (failure_rationale ++
                     ["Toxicity override triggered: " +:+ get failure "None"])%list)
           else ret (score, failure_rationale)
       | Score _ => raise TypeError
       end
     else
       do out <- lift (scoring_func module_data module_config);
       match out with
       | Score score => ret (score, failure_rationale)
       | ScoreReason _ _ => raise TypeError
       end);
  ret (dict_set score_breakdown module_name (fst scored), snd scored,
       total_score + fst scored).

Fixpoint score_modules (module_outputs : value)
    (thresholds : gmap string module_config)
    (dispatcher : list (string * scoring_func)) (vars : locals) : M locals :=
  match dispatcher with
  | [] => ret vars
  | entry :: rest =>
      do vars' <- score_module module_outputs thresholds entry vars;
      score_modules module_outputs thresholds rest vars'
  end.

(** [aggregate_scores] for a given dispatcher table. *)
Definition aggregate_scores_with (dispatcher : list (string * scoring_func))
    (self : loc) (module_outputs : value) : M value :=
  run logger "INFO" "Aggregating scores for compound.";
  run _validate_input module_outputs;
  do cfg <- self_config self;
  do thresholds <- lift (item cfg.(thresholds) "thresholds");
  do vars <- score_modules module_outputs thresholds dispatcher ([], [], 0);
  let '(score_breakdown, failure_rationale, total_score) := vars in
  let svs_score := Z.min (Z.max (int total_score) 0) 100 in
  let go_decision :=
    if (70 <=? svs_score)%Z && (Nat.eqb (length failure_rationale) 0)
    then "go" else "no-go" in
  do l <- alloc (OResult {| svs_score := svs_score;
                            go_decision := go_decision;
                            score_breakdown := score_breakdown;
                            failure_rationale := failure_rationale |});
  ret (VRef l).

Definition aggregate_scores : loc -> value -> M value :=
  aggregate_scores_with scoring_functions.

(** *** Construction *)

Section Construction.

(** [yaml.safe_load], on the text of a file. *)
Variable safe_load : string -> result yaml_doc.

Definition _load_config (config_path : string) : M config :=
  try_except
    (do f <- read_file config_path;
     match f with
     | None =>
         run logger "ERROR" ("Configuration file not found: " +:+ config_path);
         raise (FileNotFoundError ("Configuration file not found: " +:+ config_path))
     | Some text =>
         do doc <- lift (safe_load text);
         match doc with
         | YEmpty => raise (ScoringError "Configuration file is empty or invalid")
         | YMapping c =>
             run logger "INFO" "Configuration loaded successfully.";
             ret c
         end
     end)
    (fun e =>
       match e with
       | YAMLError m => ScoringError ("Invalid YAML format: " +:+ m)
       | _ => ScoringError ("Error loading configuration: " +:+ exn_str e)
       end).

(** [section in self.config] *)
Definition has_section (c : config) (section : string) : bool :=
  if String.eqb section "weights" then bool_decide (is_Some c.(weights))
  else if String.eqb section "thresholds" then bool_decide (is_Some c.(thresholds))
  else false.

Fixpoint check_sections (c : config) (required_sections : list string) : result unit :=
  match required_sections with
  | [] => Ok tt
  | section :: rest =>
      if negb (has_section c section) then
        Err (ScoringError ("Missing required config section: " +:+ section))
      else check_sections c rest
  end.

Fixpoint check_modules (c : config) (required_modules : list string) : result unit :=
  match required_modules with
  | [] => Ok tt
  | module :: rest =>
      let* w := item c.(weights) "weights" in
      if negb (bool_decide (is_Some (w !! module))) then
        Err (ScoringError ("Missing weight for module: " +:+ module))
      else
        let* t := item c.(thresholds) "thresholds" in
        if negb (bool_decide (is_Some (t !! module))) then
          Err (ScoringError ("Missing thresholds for module: " +:+ module))
        else check_modules c rest
  end.

Definition _validate_config (self : loc) : M unit :=
  let required_sections := ["weights"; "thresholds"] in
  do c <- self_config self;
  run lift (check_sections c required_sections);
  lift (check_modules c required_modules).

Definition __init__ (self : loc) (config_path : string) : M unit :=
  run logger "INFO"
        ("Initializing MetaScoringAggregator with config: " +:+ config_path);
  do c <- _load_config config_path;
  run store self (OAggregator (Some c));
  _validate_config self.

(** The call [MetaScoringAggregator(config_path)]: a new instance, then
    its initialiser. *)
Definition new (config_path : string) : M loc :=
  do self <- alloc (OAggregator None);
  run __init__ self config_path;
  ret self.

End Construction.

End MetaScoringAggregator.

(** The functions of the module itself. *)
Module scoring_aggregator.

(** The public function [aggregate_scores(module_outputs)]: it sets up
    logging and builds an aggregator from the default configuration file
    on every call. *)
Definition aggregate_scores (safe_load : string -> result yaml_doc)
    (module_outputs : value) : M value :=
  run basicConfig;
  do aggregator <- MetaScoringAggregator.new safe_load "score_config.yaml";
  MetaScoringAggregator.aggregate_scores aggregator module_outputs.

End scoring_aggregator.

(** ** Specification-level definitions *)

Import MetaScoringAggregator.

(** [w'] is [w] with [entries] appended to the log and nothing else changed. *)
Definition logged (w : world) (entries : list (string * string)) (w' : world) : Prop :=
  w'.(heap) = w.(heap) /\ w'.(files) = w.(files) /\
  w'.(basic_config) = w.(basic_config) /\
  w'.(log) = (w.(log) ++ entries)%list.

(** [sum(score_breakdown.values())] *)
Definition sum_values (d : list (string * Z)) : Z := Py.sum d.*2.

(** The text of the single entry the toxicity rule contributes. *)
Definition rationale_of (failure : option string) : list string :=
  if truthy failure then ["Toxicity override triggered: " +:+ get failure "None"]
  else [].

(** The object an argument denotes in a store. *)
Definition denotes (w : world) (v : value) : option obj :=
  match v with
  | VRef l => w.(heap) !! l
  | _ => None
  end.

(** The modules missing from a dictionary, in the order of
    [required_modules]. *)
Definition missing_modules (o : option obj) : list string :=
  List.filter (fun m => negb (dict_contains o m)) required_modules.

(** A computation is quiet when, whatever it returns, it leaves the heap,
    the files and the logging configuration as they were and only
    appends to the log. *)
Definition quiet {A} (m : M A) : Prop :=
  forall w, exists entries, logged w entries (snd (m w)).

(** What a scoring call does to the store: it either raises, having only
    written the log, or returns a reference to one new object, a result
    dictionary placed after everything that was in the heap. *)
Definition allocating (m : M value) : Prop :=
  forall w,
    (exists e w' entries, m w = (Err e, w') /\ logged w entries w') \/
    (exists r w1 entries,
        m w = (Ok (VRef (length w.(heap))), with_heap w1 (w.(heap) ++ [OResult r])) /\
        logged w entries w1).

(** The outputs of the six rules. *)
Record rule_scores : Type := {
  s_docking : Z;
  s_adme_pk : Z;
  s_toxicity : Z;
  s_failure : option string;
  s_druggability : Z;
  s_drug_likeness : Z;
  s_off_target : Z
}.

(** The six rules return [rs] on the records of [d] under the thresholds [th]. *)
Definition rules_return (d : gmap string module_record)
    (th : gmap string module_config) (rs : rule_scores) : Prop :=
  (exists c, th !! "docking" = Some c /\
     _score_docking (get (d !! "docking") empty_record) c = Ok rs.(s_docking)) /\
  (exists c, th !! "adme_pk" = Some c /\
     _score_adme_pk (get (d !! "adme_pk") empty_record) c = Ok rs.(s_adme_pk)) /\
  (exists c, th !! "toxicity" = Some c /\
     _score_toxicity (get (d !! "toxicity") empty_record) c =
       Ok (rs.(s_toxicity), rs.(s_failure))) /\
  (exists c, th !! "druggability" = Some c /\
     _score_druggability (get (d !! "druggability") empty_record) c =
       Ok rs.(s_druggability)) /\
  (exists c, th !! "drug_likeness" = Some c /\
     _score_drug_likeness (get (d !! "drug_likeness") empty_record) c =
       Ok rs.(s_drug_likeness)) /\
  (exists c, th !! "off_target" = Some c /\
     _score_off_target (get (d !! "off_target") empty_record) c = Ok rs.(s_off_target)).

(** The dictionary the call builds from them. *)
Definition result_of (rs : rule_scores) : AggregationResult :=
  let total_score :=
    0 + rs.(s_docking) + rs.(s_adme_pk) + rs.(s_toxicity) + rs.(s_druggability)
      + rs.(s_drug_likeness) + rs.(s_off_target) in
  let svs := Z.min (Z.max (int total_score) 0) 100 in
  {| svs_score := svs;
     go_decision :=
       if (70 <=? svs)%Z && Nat.eqb (length (rationale_of rs.(s_failure))) 0
       then "go" else "no-go";
     score_breakdown :=
       [("docking", rs.(s_docking)); ("adme_pk", rs.(s_adme_pk));
        ("toxicity", rs.(s_toxicity)); ("druggability", rs.(s_druggability));
        ("drug_likeness", rs.(s_drug_likeness)); ("off_target", rs.(s_off_target))];
     failure_rationale := rationale_of rs.(s_failure) |}.

(** Every value a computation can return satisfies [P]. *)
Definition returns {A} (P : A -> Prop) (r : result A) : Prop :=
  forall a, r = Ok a -> P a.

(** A computation does not raise [ScoringError]. *)
Definition benign {A} (r : result A) : Prop :=
  forall msg, r <> Err (ScoringError msg).

(** The reason for the high-risk models [hits]. *)
Definition penalty_reason (hits : list string) : string :=
  "High-risk models flagged: " +:+ join ", " hits.

(** The base reason and the high-risk reason, merged as the rule does. *)
Definition merged_reason (base_reason : option string) (hits : list string)
  : option string :=
  match hits with
  | [] => base_reason
  | _ => Some match base_reason with
              | Some b => b +:+ "; " +:+ penalty_reason hits
              | None => penalty_reason hits
              end
  end.

(** [K] is the largest key of the table. *)
Definition is_largest_key (score_table : gmap Z Z) (K : Z) : Prop :=
  is_Some (score_table !! K) /\
  forall k, is_Some (score_table !! k) -> k <= K.

Section SideBySideDefinitions.

(** The aggregator and the argument of a first run, and of a second. *)
Variables (sa sb : loc) (va vb : value).

(** The two stores hold the same aggregator and the same bundle. *)
Definition agree (wa wb : world) : Prop :=
  wa.(heap) !! sa = wb.(heap) !! sb /\ denotes wa va = denotes wb vb.

(** Two computations return the same and keep the stores in agreement. *)
Definition sim {A} (ma mb : M A) : Prop :=
  forall wa wb, agree wa wb ->
    fst (ma wa) = fst (mb wb) /\ agree (snd (ma wa)) (snd (mb wb)).

(** Two computations end in the same outcome. *)
Definition sim_outcome (ma mb : M value) : Prop :=
  forall wa wb, agree wa wb -> outcome (ma wa) = outcome (mb wb).

End SideBySideDefinitions.

(** What the configuration must have, in the order the checks are made. *)
Inductive requirement : Type :=
| RSection (section : string)
| RWeight (module : string)
| RThresholds (module : string).

Definition validation_order : list requirement :=
  [RSection "weights"; RSection "thresholds"] ++
  flat_map (fun m => [RWeight m; RThresholds m]) required_modules.

Definition entry_present {V} (section : option (gmap string V)) (module : string) : bool :=
  match section with
  | Some s => bool_decide (is_Some (s !! module))
  | None => false
  end.

Definition met (c : config) (r : requirement) : bool :=
  match r with
  | RSection s => has_section c s
  | RWeight m => entry_present c.(weights) m
  | RThresholds m => entry_present c.(thresholds) m
  end.

(** The first requirement, in that order, that the configuration misses. *)
Definition first_unmet (c : config) : option requirement :=
  List.find (fun r => negb (met c r)) validation_order.

Definition complaint (r : requirement) : string :=
  match r with
  | RSection s => "Missing required config section: " +:+ s
  | RWeight m => "Missing weight for module: " +:+ m
  | RThresholds m => "Missing thresholds for module: " +:+ m
  end.

(** The outcome of constructing an aggregator, check by check. *)
Definition construction_outcome (safe_load : string -> result yaml_doc)
    (w : world) (config_path : string) : result loc :=
  match w.(files) !! config_path with
  | None =>
      Err (ScoringError ("Error loading configuration: " +:+
                         "Configuration file not found: " +:+ config_path))
  | Some text =>
      match safe_load text with
      | Err (YAMLError m) => Err (ScoringError ("Invalid YAML format: " +:+ m))
      | Err e => Err (ScoringError ("Error loading configuration: " +:+ exn_str e))
      | Ok YEmpty =>
          Err (ScoringError ("Error loading configuration: " +:+
                             "Configuration file is empty or invalid"))
      | Ok (YMapping c) =>
          match first_unmet c with
          | Some r => Err (ScoringError (complaint r))
          | None => Ok (length w.(heap))
          end
      end
  end.

(** A stateful computation never raises [ScoringError]. *)
Definition benignM {A} (m : M A) : Prop :=
  forall w msg, fst (m w) <> Err (ScoringError msg).

(** Every function of the dispatcher is free of [ScoringError]. *)
Definition benign_dispatcher (dispatcher : list (string * scoring_func)) : Prop :=
  forall name f, In (name, f) dispatcher -> forall data c, benign (f data c).

(** The configured bonuses and table entries are not negative. *)
Definition nonnegative_bonuses (th : gmap string module_config) : Prop :=
  (forall c b, th !! "druggability" = Some c ->
               c.(volume_hydrophobicity_bonus) = Some b -> 0 <= b) /\
  (forall c b, th !! "off_target" = Some c ->
               c.(low_target_bonus) = Some b -> 0 <= b) /\
  (forall c tbl k s, th !! "drug_likeness" = Some c ->
                     c.(score_by_violations) = Some tbl ->
                     tbl !! k = Some s -> 0 <= s).

(** The argument is not an acceptable bundle: it is not a dictionary, it is
    an empty dictionary, or it misses one of the six module keys. *)
Definition invalid_input (o : option obj) : Prop :=
  is_dict o = false \/ dict_len o = 0%nat \/
  exists m, In m required_modules /\ dict_contains o m = false.

(** The configuration source is defective: the file does not exist, its
    text does not parse, it parses to an empty value, or the mapping it
    parses to misses a section or a module entry. *)
Definition config_defect (safe_load : string -> result yaml_doc)
    (w : world) (config_path : string) : Prop :=
  match w.(files) !! config_path with
  | None => True
  | Some text =>
      match safe_load text with
      | Err _ => True
      | Ok YEmpty => True
      | Ok (YMapping c) =>
          c.(weights) = None \/ c.(thresholds) = None \/
          exists m, In m required_modules /\
                    (entry_present c.(weights) m = false \/
                     entry_present c.(thresholds) m = false)
      end
  end.

(** ** Definitions for the further properties *)

(** The score of the affinity alone, by the chain of tests of the docking
    rule. *)
Definition docking_base (affinity hi med lo : num) : Z :=
  if ltb affinity hi then 25
  else if ltb affinity med then 20
  else if ltb affinity lo then 10
  else 0.

(** [k in d] for an optional field. *)
Definition present {A} (field : option A) : bool :=
  match field with Some _ => true | None => false end.

(** The threshold dictionary of a module has the keys its rule reads,
    each with a value the rule can use: two bounds in [logP_range], three
    entries in [si_thresholds], a score table that is not empty. *)
Definition docking_keys (c : module_config) : bool :=
  match c.(affinity) with
  | Some a => present a.(high) && present a.(medium) && present a.(low)
  | None => false
  end && present c.(rmsd_max) && present c.(min_poses).

Definition adme_pk_keys (c : module_config) : bool :=
  match c.(logP_range) with
  | Some r => Nat.leb 2 (length r)
  | None => false
  end && present c.(half_life_min) && present c.(clearance_acceptable)
      && present c.(cyp_inhibition_penalty).

Definition toxicity_keys (c : module_config) : bool :=
  present c.(max_flags_allowed) && present c.(override_models).

Definition druggability_keys (c : module_config) : bool :=
  present c.(high_score) && present c.(mid_score) && present c.(bonus_volume_min)
    && present c.(bonus_hydrophobicity_min) && present c.(volume_hydrophobicity_bonus).

Definition drug_likeness_keys (c : module_config) : bool :=
  match c.(score_by_violations) with
  | Some tbl => negb (Nat.eqb (size tbl) 0)
  | None => false
  end.

Definition off_target_keys (c : module_config) : bool :=
  match c.(si_thresholds) with
  | Some ths => Nat.leb 3 (length ths)
  | None => false
  end && present c.(low_target_bonus_threshold) && present c.(low_target_bonus).

Definition module_keys (th : gmap string module_config) (name : string)
    (keys : module_config -> bool) : bool :=
  match th !! name with
  | Some c => keys c
  | None => false
  end.

(** The thresholds have the six modules, each with the keys of its rule. *)
Definition complete_thresholds (th : gmap string module_config) : bool :=
  module_keys th "docking" docking_keys
  && module_keys th "adme_pk" adme_pk_keys
  && module_keys th "toxicity" toxicity_keys
  && module_keys th "druggability" druggability_keys
  && module_keys th "drug_likeness" drug_likeness_keys
  && module_keys th "off_target" off_target_keys.

(** The records of the six modules in a bundle, in the order of
    [required_modules]. *)
Definition module_records (d : gmap string module_record) : list (option module_record) :=
  map (fun m => d !! m) required_modules.

(** The thresholds of the six modules, in the same order. *)
Definition module_thresholds (th : gmap string module_config)
  : list (option module_config) :=
  map (fun m => th !! m) required_modules.

(** The records a returning call hands to the logger. *)
Definition call_records (failure_rationale : list string) : list (string * string) :=
  ("INFO", "Aggregating scores for compound.")
    :: map (fun m => ("WARNING", m)) failure_rationale.



(** ** Example data *)

Module Examples.

Import MetaScoringAggregator.

Definition fin (x : Q) : option num := Some (Fin x).

(** Threshold dictionaries, one per module. *)
Definition docking_thresholds (hi med lo rmax minp : Q) : module_config :=
  {| affinity := Some {| high := fin hi; medium := fin med; low := fin lo |};
     rmsd_max := fin rmax; min_poses := fin minp;
     logP_range := None; half_life_min := None; clearance_acceptable := None;
     cyp_inhibition_penalty := None; max_flags_allowed := None;
     override_models := None; high_score := None; mid_score := None;
     bonus_volume_min := None; bonus_hydrophobicity_min := None;
     volume_hydrophobicity_bonus := None; score_by_violations := None;
     si_thresholds := None; low_target_bonus_threshold := None;
     low_target_bonus := None |}.

Definition adme_thresholds (lo hi hmin : Q) (acceptable : list string) (penalty : Z)
  : module_config :=
  {| affinity := None; rmsd_max := None; min_poses := None;
     logP_range := Some [Fin lo; Fin hi]; half_life_min := fin hmin;
     clearance_acceptable := Some acceptable;
     cyp_inhibition_penalty := Some penalty; max_flags_allowed := None;
     override_models := None; high_score := None; mid_score := None;
     bonus_volume_min := None; bonus_hydrophobicity_min := None;
     volume_hydrophobicity_bonus := None; score_by_violations := None;
     si_thresholds := None; low_target_bonus_threshold := None;
     low_target_bonus := None |}.

Definition toxicity_thresholds (mx : Z) (override : list string) : module_config :=
  {| affinity := None; rmsd_max := None; min_poses := None;
     logP_range := None; half_life_min := None; clearance_acceptable := None;
     cyp_inhibition_penalty := None; max_flags_allowed := Some mx;
     override_models := Some override; high_score := None; mid_score := None;
     bonus_volume_min := None; bonus_hydrophobicity_min := None;
     volume_hydrophobicity_bonus := None; score_by_violations := None;
     si_thresholds := None; low_target_bonus_threshold := None;
     low_target_bonus := None |}.

Definition druggability_thresholds (hs ms vmin hmin : Q) (bonus : Z) : module_config :=
  {| affinity := None; rmsd_max := None; min_poses := None;
     logP_range := None; half_life_min := None; clearance_acceptable := None;
     cyp_inhibition_penalty := None; max_flags_allowed := None;
     override_models := None; high_score := fin hs; mid_score := fin ms;
     bonus_volume_min := fin vmin; bonus_hydrophobicity_min := fin hmin;
     volume_hydrophobicity_bonus := Some bonus; score_by_violations := None;
     si_thresholds := None; low_target_bonus_threshold := None;
     low_target_bonus := None |}.

Definition drug_likeness_thresholds (table : gmap Z Z) : module_config :=
  {| affinity := None; rmsd_max := None; min_poses := None;
     logP_range := None; half_life_min := None; clearance_acceptable := None;
     cyp_inhibition_penalty := None; max_flags_allowed := None;
     override_models := None; high_score := None; mid_score := None;
     bonus_volume_min := None; bonus_hydrophobicity_min := None;
     volume_hydrophobicity_bonus := None; score_by_violations := Some table;
     si_thresholds := None; low_target_bonus_threshold := None;
     low_target_bonus := None |}.

Definition off_target_thresholds (t0 t1 t2 thr : Q) (bonus : Z) : module_config :=
  {| affinity := None; rmsd_max := None; min_poses := None;
     logP_range := None; half_life_min := None; clearance_acceptable := None;
     cyp_inhibition_penalty := None; max_flags_allowed := None;
     override_models := None; high_score := None; mid_score := None;
     bonus_volume_min := None; bonus_hydrophobicity_min := None;
     volume_hydrophobicity_bonus := None; score_by_violations := None;
     si_thresholds := Some [Fin t0; Fin t1; Fin t2];
     low_target_bonus_threshold := fin thr;
     low_target_bonus := Some bonus |}.

Definition violations_table : gmap Z Z :=
  {[ 0 := 10; 1 := 8; 2 := 6; 3 := 4; 4 := 2; 5 := 1 ]}.

Definition thresholds_with (druggability_bonus : Z) : gmap string module_config :=
  {[ "docking" := docking_thresholds (-9) (-8) (-7) 3 3;
     "adme_pk" := adme_thresholds 0 5 2 ["acceptable"; "moderate"] (-5);
     "toxicity" := toxicity_thresholds 3 ["DILIrank"; "ProTox-II"];
     "druggability" := druggability_thresholds 0.7 0.5 400 0.5 druggability_bonus;
     "drug_likeness" := drug_likeness_thresholds violations_table;
     "off_target" := off_target_thresholds 1 5 10 5 3 ]}.

Definition module_weights : gmap string num :=
  {[ "docking" := of_Z 25; "adme_pk" := of_Z 20; "toxicity" := of_Z 20;
     "druggability" := of_Z 10; "drug_likeness" := of_Z 10;
     "off_target" := of_Z 15 ]}.

Definition config_with (druggability_bonus : Z) : config :=
  {| weights := Some module_weights;
     thresholds := Some (thresholds_with druggability_bonus) |}.

(** Module records. *)
Definition docking_record (a r p : Q) : module_record :=
  {| affinity_kcal := fin a; rmsd := fin r; num_converged_poses := fin p;
     logP := None; HIA := None; half_life_hr := None; clearance := None;
     CYP_inhibition := None; num_models_flagged := None;
     high_risk_models := None; pocket_score := None; volume := None;
     hydrophobicity := None; num_violations := None;
     selectivity_index := None; num_off_targets := None |}.

Definition adme_record (lp : Q) (hia : string) (hl : Q) (cyp : bool) (cl : string)
  : module_record :=
  {| affinity_kcal := None; rmsd := None; num_converged_poses := None;
     logP := fin lp; HIA := Some hia; half_life_hr := fin hl;
     clearance := Some cl; CYP_inhibition := Some cyp;
     num_models_flagged := None; high_risk_models := None;
     pocket_score := None; volume := None; hydrophobicity := None;
     num_violations := None; selectivity_index := None;
     num_off_targets := None |}.

Definition toxicity_record (flagged : Q) (models : list string) : module_record :=
  {| affinity_kcal := None; rmsd := None; num_converged_poses := None;
     logP := None; HIA := None; half_life_hr := None; clearance := None;
     CYP_inhibition := None; num_models_flagged := fin flagged;
     high_risk_models := Some models; pocket_score := None; volume := None;
     hydrophobicity := None; num_violations := None;
     selectivity_index := None; num_off_targets := None |}.

Definition druggability_record (ps vol hyd : Q) : module_record :=
  {| affinity_kcal := None; rmsd := None; num_converged_poses := None;
     logP := None; HIA := None; half_life_hr := None; clearance := None;
     CYP_inhibition := None; num_models_flagged := None;
     high_risk_models := None; pocket_score := fin ps; volume := fin vol;
     hydrophobicity := fin hyd; num_violations := None;
     selectivity_index := None; num_off_targets := None |}.

Definition drug_likeness_record (violations : Q) : module_record :=
  {| affinity_kcal := None; rmsd := None; num_converged_poses := None;
     logP := None; HIA := None; half_life_hr := None; clearance := None;
     CYP_inhibition := None; num_models_flagged := None;
     high_risk_models := None; pocket_score := None; volume := None;
     hydrophobicity := None; num_violations := fin violations;
     selectivity_index := None; num_off_targets := None |}.

Definition off_target_record (n si : Q) : module_record :=
  {| affinity_kcal := None; rmsd := None; num_converged_poses := None;
     logP := None; HIA := None; half_life_hr := None; clearance := None;
     CYP_inhibition := None; num_models_flagged := None;
     high_risk_models := None; pocket_score := None; volume := None;
     hydrophobicity := None; num_violations := None;
     selectivity_index := fin si; num_off_targets := fin n |}.

(** A near-perfect compound. *)
Definition good_bundle : gmap string module_record :=
  {[ "docking" := docking_record (-9.5) 1.5 5;
     "adme_pk" := adme_record 3.0 "high" 5 false "acceptable";
     "toxicity" := toxicity_record 0 [];
     "druggability" := druggability_record 0.8 450 0.6;
     "drug_likeness" := drug_likeness_record 0;
     "off_target" := off_target_record 3 12 ]}.

(** A poor compound with a large pocket: only the druggability bonus and
    the drug-likeness table score. *)
Definition poor_bundle : gmap string module_record :=
  {[ "docking" := docking_record 0 10 0;
     "adme_pk" := adme_record 10 "low" 0 true "poor";
     "toxicity" := toxicity_record 4 ["DILIrank"; "ProTox-II"];
     "druggability" := druggability_record 0.1 450 0.6;
     "drug_likeness" := drug_likeness_record 99;
     "off_target" := off_target_record 50 0.5 ]}.

(** A compound whose six scores add up to 69, with no override. *)
Definition borderline_bundle : gmap string module_record :=
  {[ "docking" := docking_record (-9.5) 1.5 5;
     "adme_pk" := adme_record 3.0 "high" 5 false "acceptable";
     "toxicity" := toxicity_record 1 [];
     "druggability" := druggability_record 0.1 100 0.1;
     "drug_likeness" := drug_likeness_record 5;
     "off_target" := off_target_record 3 6.5 ]}.

(** A bundle without the [toxicity] and [off_target] records. *)
Definition partial_bundle : gmap string module_record :=
  {[ "docking" := docking_record (-8) 2 4;
     "adme_pk" := adme_record 2 "high" 3 false "acceptable";
     "druggability" := druggability_record 0.8 450 0.6;
     "drug_likeness" := drug_likeness_record 0 ]}.

(** A store with an aggregator at location 0 and bundles after it. *)
Definition store_with (druggability_bonus : Z) : world :=
  {| heap := [OAggregator (Some (config_with druggability_bonus));
              ODict good_bundle; ODict poor_bundle; ODict partial_bundle;
              ODict borderline_bundle];
     log := [];
     files := ∅;
     basic_config := false |}.

Definition aggregator : loc := 0%nat.
Definition good : value := VRef 1%nat.
Definition poor : value := VRef 2%nat.
Definition partial : value := VRef 3%nat.
Definition borderline : value := VRef 4%nat.

(** The scoring calls used as examples. *)
Definition good_run : result value * world :=
  MetaScoringAggregator.aggregate_scores aggregator good (store_with 2).

Definition poor_run : result value * world :=
  MetaScoringAggregator.aggregate_scores aggregator poor (store_with 2).

(** The poor compound under a configuration whose druggability bonus
    is [-3]. *)
Definition negative_run : result value * world :=
  MetaScoringAggregator.aggregate_scores aggregator poor (store_with (-3)).

Definition borderline_run : result value * world :=
  MetaScoringAggregator.aggregate_scores aggregator borderline (store_with 2).

Definition borderline_result : AggregationResult :=
  {| svs_score := 69;
     go_decision := "no-go";
     score_breakdown :=
       [("docking", 25); ("adme_pk", 20); ("toxicity", 10);
        ("druggability", 0); ("drug_likeness", 1); ("off_target", 13)];
     failure_rationale := [] |}.

Definition good_result : AggregationResult :=
  {| svs_score := 100;
     go_decision := "go";
     score_breakdown :=
       [("docking", 25); ("adme_pk", 20); ("toxicity", 20);
        ("druggability", 12); ("drug_likeness", 10); ("off_target", 18)];
     failure_rationale := [] |}.

Definition poor_result : AggregationResult :=
  {| svs_score := 3;
     go_decision := "no-go";
     score_breakdown :=
       [("docking", 0); ("adme_pk", 0); ("toxicity", 0);
        ("druggability", 2); ("drug_likeness", 1); ("off_target", 0)];
     failure_rationale :=
       ["Toxicity override triggered: >3 toxicity models flagged; " +:+
        "High-risk models flagged: DILIrank, ProTox-II"] |}.

(** A parser that knows two documents. *)
Definition parse (text : string) : result yaml_doc :=
  if String.eqb text "" then Ok YEmpty
  else if String.eqb text "weights: ..." then
    Ok (YMapping {| weights := Some module_weights; thresholds := None |})
  else if String.eqb text "full" then Ok (YMapping (config_with 2))
  else Err (YAMLError "mapping values are not allowed here").

Definition disk (text : string) : world :=
  {| heap := []; log := []; files := {[ "score_config.yaml" := text ]};
     basic_config := false |}.

End Examples.

(** Further example data. *)
Module MoreExamples.

Import MetaScoringAggregator Examples.

(** A strongly binding docking record that reports no [rmsd]. *)
Definition docking_without_rmsd : module_record :=
  {| affinity_kcal := fin (-9.5); rmsd := None; num_converged_poses := fin 5;
     logP := None; HIA := None; half_life_hr := None; clearance := None;
     CYP_inhibition := None; num_models_flagged := None;
     high_risk_models := None; pocket_score := None; volume := None;
     hydrophobicity := None; num_violations := None;
     selectivity_index := None; num_off_targets := None |}.

(** An off-target record that reports only its selectivity index. *)
Definition off_target_without_count : module_record :=
  {| affinity_kcal := None; rmsd := None; num_converged_poses := None;
     logP := None; HIA := None; half_life_hr := None; clearance := None;
     CYP_inhibition := None; num_models_flagged := None;
     high_risk_models := None; pocket_score := None; volume := None;
     hydrophobicity := None; num_violations := None;
     selectivity_index := fin 12; num_off_targets := None |}.

(** Off-target thresholds with two selectivity thresholds in place of
    three. *)
Definition short_off_target_thresholds : module_config :=
  {| affinity := None; rmsd_max := None; min_poses := None;
     logP_range := None; half_life_min := None; clearance_acceptable := None;
     cyp_inhibition_penalty := None; max_flags_allowed := None;
     override_models := None; high_score := None; mid_score := None;
     bonus_volume_min := None; bonus_hydrophobicity_min := None;
     volume_hydrophobicity_bonus := None; score_by_violations := None;
     si_thresholds := Some [of_Z 1; of_Z 5];
     low_target_bonus_threshold := Some (of_Z 5);
     low_target_bonus := Some 3 |}.




(** The good compound with one more key in the bundle, scored by an
    aggregator whose weights are all different. *)
Definition annotated_bundle : gmap string module_record :=
  <["notes" := empty_record]> good_bundle.

Definition config_with_other_weights : config :=
  {| weights := Some (const (of_Z 1) <$> module_weights);
     thresholds := Some (thresholds_with 2) |}.

Definition other_store : world :=
  {| heap := [ODict annotated_bundle; OAggregator (Some config_with_other_weights)];
     log := [("INFO", "started")]; files := ∅; basic_config := true |}.

End MoreExamples.

(** * The program over the wider data model

    The embedding above fixes the data model of the specification: the
    configured penalty, bonuses and table entries are Python [int]s, the
    parsed configuration is a mapping whose sections are mappings, and a
    file that exists can be read.  YAML gives more: a bonus may be a
    [float]; a document may be a list, a string or a number, and so may a
    section; and [open] may fail.  [General] is the same program without
    those three restrictions.  Module records, the thresholds of one
    module (a mapping), the numbers that are only compared and the keys of
    the score table are typed as before. *)

(** ** Numbers that enter a score *)

Module Number.

(** A Python [int], or a [float]: a binary64 value with the arithmetic of
    the machine. *)
Inductive number : Type :=
| Int (z : Z)
| Float (f : PrimFloat.float).

(** The conversion of an [int] operand to [float] (rounding to nearest,
    ties to even); it raises [OverflowError] when the value is too large. *)
Definition float_of_int (z : Z) : result PrimFloat.float :=
  match SpecFloat.binary_normalize FloatOps.prec FloatOps.emax z 0 false with
  | SpecFloat.S754_infinity _ => Err OverflowError
  | s => Ok (FloatOps.SF2Prim s)
  end.

(** [a + b] *)
Definition add (a b : number) : result number :=
  match a, b with
  | Int x, Int y => Ok (Int (x + y))
  | Int x, Float g => let* f := float_of_int x in Ok (Float (PrimFloat.add f g))
  | Float f, Int y => let* g := float_of_int y in Ok (Float (PrimFloat.add f g))
  | Float f, Float g => Ok (Float (PrimFloat.add f g))
  end.

(** The extended rational a number denotes; NaN denotes none. *)
Definition to_num (a : number) : option num :=
  match a with
  | Int z => Some (of_Z z)
  | Float f =>
      match FloatOps.Prim2SF f with
      | SpecFloat.S754_zero _ => Some (of_Z 0)
      | SpecFloat.S754_infinity s => Some (if s then NegInf else PosInf)
      | SpecFloat.S754_nan => None
      | SpecFloat.S754_finite s m e =>
          let m' := if s then Zneg m else Zpos m in
          Some (Fin (if (0 <=? e)%Z then inject_Z (m' * 2 ^ e)
                     else Qmake m' (Z.to_pos (2 ^ (- e)))))
      end
  end.

(** [a < b], [a > b] and [a == b]: exact, also between an [int] and a
    [float]; every comparison with NaN is false. *)
Definition ltb (a b : number) : bool :=
  match a, b with
  | Int x, Int y => (x <? y)%Z
  | _, _ =>
      match to_num a, to_num b with
      | Some x, Some y => Py.ltb x y
      | _, _ => false
      end
  end.

Definition gtb (a b : number) : bool := ltb b a.

Definition eqb (a b : number) : bool :=
  match a, b with
  | Int x, Int y => (x =? y)%Z
  | _, _ =>
      match to_num a, to_num b with
      | Some x, Some y => Py.eqb x y
      | _, _ => false
      end
  end.

(** The two-argument [max(a, b)] and [min(a, b)]: the first argument is
    kept unless the second is strictly larger (smaller). *)
Definition max (a b : number) : number := if gtb b a then b else a.
Definition min (a b : number) : number := if ltb b a then b else a.

(** [int(a)]: truncation towards zero; it raises [OverflowError] on an
    infinity and [ValueError] on NaN. *)
Definition int (a : number) : result Z :=
  match a with
  | Int z => Ok z
  | Float f =>
      match FloatOps.Prim2SF f with
      | SpecFloat.S754_zero _ => Ok 0
      | SpecFloat.S754_infinity _ => Err OverflowError
      | SpecFloat.S754_nan => Err ValueError
      | SpecFloat.S754_finite s m e =>
          let v := if (0 <=? e)%Z then Zpos m * 2 ^ e else Zpos m / 2 ^ (- e) in
          Ok (if s then - v else v)
      end
  end.

(** [start + x1 + x2 + ...], from left to right. *)
Fixpoint sum_from (start : number) (l : list number) : result number :=
  match l with
  | [] => Ok start
  | x :: l' => let* s := add start x in sum_from s l'
  end.

(** [sum(l)] *)
Definition sum (l : list number) : result number := sum_from (Int 0) l.

(** Whether a number is an [int]. *)
Definition is_int (a : number) : bool :=
  match a with Int _ => true | Float _ => false end.

End Number.

(** ** The program *)

Module General.

Import Number.

(** [thresholds[module]], with the penalty, the bonuses and the table
    entries as numbers. *)
Record module_config : Type := {
  affinity : option affinity_thresholds;
  rmsd_max : option num;
  min_poses : option num;
  logP_range : option (list num);
  half_life_min : option num;
  clearance_acceptable : option (list string);
  cyp_inhibition_penalty : option number;
  max_flags_allowed : option Z;
  override_models : option (list string);
  high_score : option num;
  mid_score : option num;
  bonus_volume_min : option num;
  bonus_hydrophobicity_min : option num;
  volume_hydrophobicity_bonus : option number;
  score_by_violations : option (gmap Z number);
  si_thresholds : option (list num);
  low_target_bonus_threshold : option num;
  low_target_bonus : option number
}.

(** A value the validation applies [in] to, with a string on the left: a
    mapping (of which the string keys matter), a list or set (of which the
    string items matter), a string, or a value that is no container
    (null, a number, a boolean, a date), on which [in] raises. *)
Inductive container (V : Type) : Type :=
| Mapping (m : gmap string V)
| Sequence (items : list string)
| Text (s : string)
| Scalar.
Arguments Mapping {V} m.
Arguments Sequence {V} items.
Arguments Text {V} s.
Arguments Scalar {V}.

(** The two sections the program reads of a configuration mapping. *)
Record config : Type := {
  weights : option (container num);
  thresholds : option (container module_config)
}.

(** A parsed document that is true: a mapping, a list, a string, or a
    value that is no container. *)
Inductive document : Type :=
| DMapping (c : config)
| DSequence (items : list string)
| DText (s : string)
| DScalar.

(** What [yaml.safe_load] returns for a well-formed document: a value
    that is false (null, an empty mapping, list or string, zero), or
    another value. *)
Inductive yaml_doc : Type :=
| YEmpty
| YValue (v : document).

Record AggregationResult : Type := {
  svs_score : Z;
  go_decision : string;
  score_breakdown : list (string * number);
  failure_rationale : list string
}.

(** *** The store *)

Inductive obj : Type :=
| OAggregator (config : option document)
| ODict (d : gmap string module_record)
| OResult (r : AggregationResult)
| OList (l : list value).

(** A path that exists names a text file, or something [open] or the
    reading of it fails on (a directory, a file without permission, bytes
    that do not decode). *)
Inductive file : Type :=
| Readable (text : string)
| Unreadable (e : exn).

Record world : Type := {
  heap : list obj;
  log : list (string * string);
  files : gmap string file;
  basic_config : bool
}.

Definition M (A : Type) : Type := world -> result A * world.

Definition ret {A} (a : A) : M A := fun w => (Ok a, w).
Definition raise {A} (e : exn) : M A := fun w => (Err e, w).
Definition mbind {A B} (m : M A) (k : A -> M B) : M B :=
  fun w =>
    match m w with
    | (Ok a, w') => k a w'
    | (Err e, w') => (Err e, w')
    end.
Definition lift {A} (r : result A) : M A := fun w => (r, w).

Definition try_except {A} (body : M A) (handler : exn -> exn) : M A :=
  fun w =>
    match body w with
    | (Ok a, w') => (Ok a, w')
    | (Err e, w') => (Err (handler e), w')
    end.

#[local] Notation "'do' x '<-' c1 ';' c2" := (mbind c1 (fun x => c2))
  (at level 10, x name, c1 at level 100, c2 at level 200).
#[local] Notation "'run' c1 ';' c2" := (mbind c1 (fun _ => c2))
  (at level 10, c1 at level 100, c2 at level 200).

Definition with_heap (w : world) (h : list obj) : world :=
  {| heap := h; log := w.(log); files := w.(files);
     basic_config := w.(basic_config) |}.

Definition with_log (w : world) (entries : list (string * string)) : world :=
  {| heap := w.(heap); log := entries; files := w.(files);
     basic_config := w.(basic_config) |}.

Definition logger (level msg : string) : M unit :=
  fun w => (Ok tt, with_log w (w.(log) ++ [(level, msg)])).

Definition alloc (o : obj) : M loc :=
  fun w => (Ok (length w.(heap)), with_heap w (w.(heap) ++ [o])).

Definition store (l : loc) (o : obj) : M unit :=
  fun w => (Ok tt, with_heap w (<[l:=o]> w.(heap))).

Definition deref (l : loc) : M (option obj) := fun w => (Ok (w.(heap) !! l), w).

(** [os.path.exists(path)], with what is at the path. *)
Definition lookup_file (path : string) : M (option file) :=
  fun w => (Ok (w.(files) !! path), w).

Definition basicConfig : M unit :=
  fun w =>
    (Ok tt, {| heap := w.(heap); log := w.(log);
               files := w.(files); basic_config := true |}).

Definition outcome (r : result value * world) : result (option obj) :=
  match r with
  | (Ok (VRef l), w') => Ok (w'.(heap) !! l)
  | (Ok _, _) => Ok None
  | (Err e, _) => Err e
  end.

(** *** The six scoring rules *)

Definition _score_docking (docking_data : module_record) (config : module_config)
  : result Z :=
  let affinity_v := get docking_data.(affinity_kcal) (of_Z 0) in
  let rmsd_v := get docking_data.(rmsd) PosInf in
  let poses := get docking_data.(num_converged_poses) (of_Z 0) in
  let score := 0 in
  let* score :=
    (let* a := item config.(affinity) "affinity" in
     let* hi := item a.(high) "high" in
     if Py.ltb affinity_v hi then Ok 25 else
     let* a := item config.(affinity) "affinity" in
     let* med := item a.(medium) "medium" in
     if Py.ltb affinity_v med then Ok 20 else
     let* a := item config.(affinity) "affinity" in
     let* lo := item a.(low) "low" in
     if Py.ltb affinity_v lo then Ok 10 else Ok score) in
  let* penalised :=
    (let* rmax := item config.(rmsd_max) "rmsd_max" in
     if Py.gtb rmsd_v rmax then Ok true else
     let* minp := item config.(min_poses) "min_poses" in
     Ok (Py.ltb poses minp)) in
  let score := if penalised : bool then score - 5 else score in
  Ok (Z.max score 0).

Definition _score_adme_pk (adme_data : module_record) (config : module_config)
  : result number :=
  let score := 0 in
  let* in_range :=
    (let* r := item config.(logP_range) "logP_range" in
     let* lo := index r 0 in
     let x := get adme_data.(logP) (of_Z (-1)) in
     if leb lo x then
       let* r := item config.(logP_range) "logP_range" in
       let* hi := index r 1 in
       Ok (leb x hi)
     else Ok false) in
  let score := if in_range : bool then score + 5 else score in
  let score :=
    if String.eqb (lower (get adme_data.(HIA) "")) "high" then score + 5 else score in
  let* long_lived :=
    (let* hmin := item config.(half_life_min) "half_life_min" in
     Ok (Py.gtb (get adme_data.(half_life_hr) (of_Z 0)) hmin)) in
  let score := if long_lived : bool then score + 5 else score in
  let* cleared :=
    (let c := lower (get adme_data.(clearance) "") in
     let* acc := item config.(clearance_acceptable) "clearance_acceptable" in
     Ok (str_in c (map lower acc))) in
  let score := if cleared : bool then score + 5 else score in
  let* score :=
    (if get adme_data.(CYP_inhibition) false then
       let* p := item config.(cyp_inhibition_penalty) "cyp_inhibition_penalty" in
       add (Int score) p
     else Ok (Int score)) in
  Ok (max score (Int 0)).

Definition high_risk_hits (models : list string) (config : module_config)
  : result (list string) :=
  match models with
  | [] => Ok []
  | _ =>
      let* ov := item config.(override_models) "override_models" in
      Ok (List.filter (fun m => str_in m ov) models)
  end.

Definition _score_toxicity (tox_data : module_record) (config : module_config)
  : result (Z * option string) :=
  let score := 0 in
  let failure_reason : option string := None in
  let num_flagged := get tox_data.(num_models_flagged) (of_Z 0) in
  let* base :=
    (if Py.eqb num_flagged (of_Z 0) then Ok (20, failure_reason)
     else if Py.eqb num_flagged (of_Z 1) then Ok (10, failure_reason)
     else
       let* mx := item config.(max_flags_allowed) "max_flags_allowed" in
       if Py.gtb num_flagged (of_Z mx) then
         Ok (score, Some (">" +:+ str mx +:+ " toxicity models flagged"))
       else Ok (score, failure_reason)) in
  let '(score, failure_reason) := base in
  let* high_risk_penalties :=
    high_risk_hits (get tox_data.(high_risk_models) []) config in
  let '(score, failure_reason) :=
    match high_risk_penalties with
    | [] => (score, failure_reason)
    | _ =>
        let score := score - 10 * Z.of_nat (length high_risk_penalties) in
        let penalty_reason :=
          "High-risk models flagged: " +:+ join ", " high_risk_penalties in
        (score,
         Some (if truthy failure_reason
               then get failure_reason "None" +:+ "; " +:+ penalty_reason
               else penalty_reason))
    end in
  Ok (Z.max score 0, failure_reason).

Definition _score_druggability (drugg_data : module_record) (config : module_config)
  : result number :=
  let score := 0 in
  let* score :=
    (let* hs := item config.(high_score) "high_score" in
     if Py.gtb (get drugg_data.(pocket_score) (of_Z 0)) hs then Ok (score + 10) else
     let* ms := item config.(mid_score) "mid_score" in
     if geb (get drugg_data.(pocket_score) (of_Z 0)) ms then Ok (score + 5)
     else Ok score) in
  let* bonus :=
    (let* vmin := item config.(bonus_volume_min) "bonus_volume_min" in
     if geb (get drugg_data.(volume) (of_Z 0)) vmin then
       let* hmin := item config.(bonus_hydrophobicity_min) "bonus_hydrophobicity_min" in
       Ok (geb (get drugg_data.(hydrophobicity) (of_Z 0)) hmin)
     else Ok false) in
  let* score :=
    (if bonus : bool then
       let* b := item config.(volume_hydrophobicity_bonus) "volume_hydrophobicity_bonus" in
       add (Int score) b
     else Ok (Int score)) in
  Ok score.

Definition max_key (score_table : gmap Z number) : result Z :=
  match (map_to_list score_table).*1 with
  | [] => Err ValueError
  | k :: ks => Ok (foldl Z.max k ks)
  end.

Definition table_get (score_table : gmap Z number) (violations : num)
    (default : number) : number :=
  match to_key violations with
  | Some k => get (score_table !! k) default
  | None => default
  end.

Definition _score_drug_likeness (dl_data : module_record) (config : module_config)
  : result number :=
  let violations := get dl_data.(num_violations) PosInf in
  let* score_table := item config.(score_by_violations) "score_by_violations" in
  let* largest := max_key score_table in
  let violations := Py.min violations (of_Z largest) in
  Ok (table_get score_table violations (Int 0)).

Definition _score_off_target (ot_data : module_record) (config : module_config)
  : result number :=
  let si := get ot_data.(selectivity_index) (of_Z 0) in
  let* thresholds := item config.(si_thresholds) "si_thresholds" in
  let score := 0 in
  let* score :=
    (let* t2 := index thresholds 2 in
     if Py.gtb si t2 then Ok 15 else
     let* t1 := index thresholds 1 in
     if Py.gtb si t1 then Ok 10 else
     let* t0 := index thresholds 0 in
     if Py.gtb si t0 then Ok 5 else Ok score) in
  let* score :=
    (let* thr := item config.(low_target_bonus_threshold) "low_target_bonus_threshold" in
     if Py.ltb (get ot_data.(num_off_targets) PosInf) thr then
       let* b := item config.(low_target_bonus) "low_target_bonus" in
       add (Int score) b
     else Ok (Int score)) in
  Ok score.

(** *** Input validation *)

Definition target (v : value) : M (option obj) :=
  match v with
  | VRef l => deref l
  | _ => ret None
  end.

Definition is_dict (o : option obj) : bool :=
  match o with
  | Some (ODict _) | Some (OResult _) => true
  | _ => false
  end.

Definition dict_len (o : option obj) : nat :=
  match o with
  | Some (ODict d) => size d
  | Some (OResult _) => length MetaScoringAggregator.result_keys
  | _ => O
  end.

Definition dict_contains (o : option obj) (k : string) : bool :=
  match o with
  | Some (ODict d) => bool_decide (is_Some (d !! k))
  | Some (OResult _) => str_in k MetaScoringAggregator.result_keys
  | _ => false
  end.

Definition _validate_input (module_outputs : value) : M unit :=
  do o <- target module_outputs;
  if negb (is_dict o) then
    raise (ScoringError "Input must be a dictionary")
  else if Nat.eqb (dict_len o) 0 then
    raise (ScoringError "Input dictionary cannot be empty")
  else
    let missing :=
      List.filter (fun m => negb (dict_contains o m))
        MetaScoringAggregator.required_modules in
    match missing with
    | [] => ret tt
    | _ => raise (ScoringError ("Missing required modules: " +:+ repr_list missing))
    end.

(** *** Aggregation *)

Inductive rule_output : Type :=
| Score (score : number)
| ScoreReason (score : number) (failure : option string).

Definition scoring_func : Type := module_record -> module_config -> result rule_output.

(** A rule whose score is an [int] by construction, and one whose score
    takes the type of what the configuration holds. *)
Definition as_int_score (rule : module_record -> module_config -> result Z)
  : scoring_func :=
  fun data config => let* s := rule data config in Ok (Score (Int s)).

Definition as_score (rule : module_record -> module_config -> result number)
  : scoring_func :=
  fun data config => let* s := rule data config in Ok (Score s).

Definition as_pair (rule : module_record -> module_config -> result (Z * option string))
  : scoring_func :=
  fun data config =>
    let* p := rule data config in Ok (ScoreReason (Int (fst p)) (snd p)).

Definition scoring_functions : list (string * scoring_func) :=
  [ ("docking", as_int_score _score_docking);
    ("adme_pk", as_score _score_adme_pk);
    ("toxicity", as_pair _score_toxicity);
    ("druggability", as_score _score_druggability);
    ("drug_likeness", as_score _score_drug_likeness);
    ("off_target", as_score _score_off_target) ].

Definition get_record (module_outputs : value) (module_name : string) : M module_record :=
  do o <- target module_outputs;
  match o with
  | Some (ODict d) => ret (get (d !! module_name) empty_record)
  | _ => raise AttributeError
  end.

(** [x[k]] with a string [k]: only a mapping can be indexed by a name. *)
Definition container_item {V} (x : container V) (k : string) : result V :=
  match x with
  | Mapping m => item (m !! k) k
  | _ => Err TypeError
  end.

(** [self.config["weights"]] and [self.config["thresholds"]] *)
Definition config_weights (v : document) : result (container num) :=
  match v with
  | DMapping c => item c.(weights) "weights"
  | _ => Err TypeError
  end.

Definition config_thresholds (v : document) : result (container module_config) :=
  match v with
  | DMapping c => item c.(thresholds) "thresholds"
  | _ => Err TypeError
  end.

(** [self.config] *)
Definition self_config (self : loc) : M document :=
  do o <- deref self;
  match o with
  | Some (OAggregator (Some v)) => ret v
  | _ => raise AttributeError
  end.

Fixpoint dict_set (d : list (string * number)) (k : string) (v : number)
  : list (string * number) :=
  match d with
  | [] => [(k, v)]
  | (k', v') :: d' =>
      if String.eqb k' k then (k', v) :: d' else (k', v') :: dict_set d' k v
  end.

Definition locals : Type := list (string * number) * list string * number.

Definition score_module (module_outputs : value)
    (thresholds : container module_config)
    (entry : string * scoring_func) (vars : locals) : M locals :=
  let '(module_name, scoring_func) := entry in
  let '(score_breakdown, failure_rationale, total_score) := vars in
  do module_data <- get_record module_outputs module_name;
  do module_config <- lift (container_item thresholds module_name);
  do scored <-
    (if String.eqb module_name "toxicity" then
       do out <- lift (scoring_func module_data module_config);
       match out with
       | ScoreReason score failure =>
           if truthy failure then
             run logger "WARNING"
                   ("Toxicity override triggered: " +:+ get failure "None");
             ret (score,
                  (failure_rationale ++
                     ["Toxicity override triggered: " +:+ get failure "None"])%list)
           else ret (score, failure_rationale)
       | Score _ => raise TypeError
       end
     else
       do out <- lift (scoring_func module_data module_config);
       match out with
       | Score score => ret (score, failure_rationale)
       | ScoreReason _ _ => raise TypeError
       end);
  do total_score <- lift (add total_score (fst scored));
  ret (dict_set score_breakdown module_name (fst scored), snd scored, total_score).

Fixpoint score_modules (module_outputs : value)
    (thresholds : container module_config)
    (dispatcher : list (string * scoring_func)) (vars : locals) : M locals :=
  match dispatcher with
  | [] => ret vars
  | entry :: rest =>
      do vars' <- score_module module_outputs thresholds entry vars;
      score_modules module_outputs thresholds rest vars'
  end.

Definition aggregate_scores_with (dispatcher : list (string * scoring_func))
    (self : loc) (module_outputs : value) : M value :=
  run logger "INFO" "Aggregating scores for compound.";
  run _validate_input module_outputs;
  do cfg <- self_config self;
  do thresholds <- lift (config_thresholds cfg);
  do vars <- score_modules module_outputs thresholds dispatcher ([], [], Int 0);
  let '(score_breakdown, failure_rationale, total_score) := vars in
  do truncated <- lift (int total_score);
  let svs_score := Z.min (Z.max truncated 0) 100 in
  let go_decision :=
    if (70 <=? svs_score)%Z && (Nat.eqb (length failure_rationale) 0)
    then "go" else "no-go" in
  do l <- alloc (OResult {| svs_score := svs_score;
                            go_decision := go_decision;
                            score_breakdown := score_breakdown;
                            failure_rationale := failure_rationale |});
  ret (VRef l).

Definition aggregate_scores : loc -> value -> M value :=
  aggregate_scores_with scoring_functions.

(** *** Construction *)

(** [name in s] for strings: [name] occurs in [s]. *)
Definition occurs_in (name s : string) : bool :=
  match String.index 0 name s with Some _ => true | None => false end.

(** [name in x] *)
Definition contains {V} (x : container V) (name : string) : result bool :=
  match x with
  | Mapping m => Ok (bool_decide (is_Some (m !! name)))
  | Sequence items => Ok (str_in name items)
  | Text s => Ok (occurs_in name s)
  | Scalar => Err TypeError
  end.

(** [section in self.config] *)
Definition config_contains (v : document) (section : string) : result bool :=
  match v with
  | DMapping c =>
      Ok (if String.eqb section "weights" then bool_decide (is_Some c.(weights))
          else if String.eqb section "thresholds"
               then bool_decide (is_Some c.(thresholds))
               else false)
  | DSequence items => Ok (str_in section items)
  | DText s => Ok (occurs_in section s)
  | DScalar => Err TypeError
  end.

(** The value of a document, unless it is false ([not config]). *)
Definition true_value (doc : yaml_doc) : option document :=
  match doc with
  | YEmpty | YValue (DText "") => None
  | YValue v => Some v
  end.

Section Construction.

Variable safe_load : string -> result yaml_doc.

Definition _load_config (config_path : string) : M document :=
  try_except
    (do f <- lookup_file config_path;
     match f with
     | None =>
         run logger "ERROR" ("Configuration file not found: " +:+ config_path);
         raise (FileNotFoundError ("Configuration file not found: " +:+ config_path))
     | Some (Unreadable e) => raise e
     | Some (Readable text) =>
         do doc <- lift (safe_load text);
         match true_value doc with
         | None => raise (ScoringError "Configuration file is empty or invalid")
         | Some v =>
             run logger "INFO" "Configuration loaded successfully.";
             ret v
         end
     end)
    (fun e =>
       match e with
       | YAMLError m => ScoringError ("Invalid YAML format: " +:+ m)
       | _ => ScoringError ("Error loading configuration: " +:+ exn_str e)
       end).

Fixpoint check_sections (v : document) (required_sections : list string)
  : result unit :=
  match required_sections with
  | [] => Ok tt
  | section :: rest =>
      let* present := config_contains v section in
      if negb present then
        Err (ScoringError ("Missing required config section: " +:+ section))
      else check_sections v rest
  end.

Fixpoint check_modules (v : document) (required_modules : list string)
  : result unit :=
  match required_modules with
  | [] => Ok tt
  | module :: rest =>
      let* w := config_weights v in
      let* present := contains w module in
      if negb present then
        Err (ScoringError ("Missing weight for module: " +:+ module))
      else
        let* t := config_thresholds v in
        let* present := contains t module in
        if negb present then
          Err (ScoringError ("Missing thresholds for module: " +:+ module))
        else check_modules v rest
  end.

Definition _validate_config (self : loc) : M unit :=
  let required_sections := ["weights"; "thresholds"] in
  do v <- self_config self;
  run lift (check_sections v required_sections);
  lift (check_modules v MetaScoringAggregator.required_modules).

Definition __init__ (self : loc) (config_path : string) : M unit :=
  run logger "INFO"
        ("Initializing MetaScoringAggregator with config: " +:+ config_path);
  do v <- _load_config config_path;
  run store self (OAggregator (Some v));
  _validate_config self.

Definition new (config_path : string) : M loc :=
  do self <- alloc (OAggregator None);
  run __init__ self config_path;
  ret self.

(** The public function [aggregate_scores(module_outputs)]. *)
Definition public_aggregate_scores (module_outputs : value) : M value :=
  run basicConfig;
  do aggregator <- new "score_config.yaml";
  aggregate_scores aggregator module_outputs.

End Construction.

End General.

(** ** The typed data model inside the wider one *)

(** Thresholds with [int] entries, as thresholds with number entries. *)
Definition widen_config (c : module_config) : General.module_config :=
  {| General.affinity := c.(affinity);
     General.rmsd_max := c.(rmsd_max);
     General.min_poses := c.(min_poses);
     General.logP_range := c.(logP_range);
     General.half_life_min := c.(half_life_min);
     General.clearance_acceptable := c.(clearance_acceptable);
     General.cyp_inhibition_penalty :=
       option_map Number.Int c.(cyp_inhibition_penalty);
     General.max_flags_allowed := c.(max_flags_allowed);
     General.override_models := c.(override_models);
     General.high_score := c.(high_score);
     General.mid_score := c.(mid_score);
     General.bonus_volume_min := c.(bonus_volume_min);
     General.bonus_hydrophobicity_min := c.(bonus_hydrophobicity_min);
     General.volume_hydrophobicity_bonus :=
       option_map Number.Int c.(volume_hydrophobicity_bonus);
     General.score_by_violations :=
       option_map (fun t : gmap Z Z => Number.Int <$> t) c.(score_by_violations);
     General.si_thresholds := c.(si_thresholds);
     General.low_target_bonus_threshold := c.(low_target_bonus_threshold);
     General.low_target_bonus := option_map Number.Int c.(low_target_bonus) |}.

(** A configuration whose sections are mappings, as a document. *)
Definition widen (c : config) : General.document :=
  General.DMapping
    {| General.weights := option_map General.Mapping c.(weights);
       General.thresholds :=
         option_map
           (fun th : gmap string module_config =>
              General.Mapping (widen_config <$> th))
           c.(thresholds) |}.

(** ** The typed store inside the wider one *)

Definition widen_result (r : AggregationResult) : General.AggregationResult :=
  {| General.svs_score := r.(svs_score);
     General.go_decision := r.(go_decision);
     General.score_breakdown :=
       (fun p : string * Z => (p.1, Number.Int p.2)) <$> r.(score_breakdown);
     General.failure_rationale := r.(failure_rationale) |}.

Definition widen_obj (o : obj) : General.obj :=
  match o with
  | OAggregator c => General.OAggregator (option_map widen c)
  | ODict d => General.ODict d
  | OResult r => General.OResult (widen_result r)
  | OList l => General.OList l
  end.

Definition widen_world (w : world) : General.world :=
  {| General.heap := widen_obj <$> w.(heap);
     General.log := w.(log);
     General.files := General.Readable <$> w.(files);
     General.basic_config := w.(basic_config) |}.

(** Two results are the same exception, or values that are related. *)
Definition result_rel {A B} (R : A -> B -> Prop) (x : result A) (y : result B) : Prop :=
  match x, y with
  | Ok a, Ok b => R a b
  | Err e, Err e' => e = e'
  | _, _ => False
  end.

(** A computation of the wider program does, on the widened store, what
    the typed computation does. *)
Definition refines {A B} (R : A -> B -> Prop) (m : M A) (g : General.M B) : Prop :=
  forall w,
    snd (g (widen_world w)) = widen_world (snd (m w)) /\
    result_rel R (fst (m w)) (fst (g (widen_world w))).

(** The outputs of a typed rule and of a wider rule are the same. *)
Definition same_output (o : MetaScoringAggregator.rule_output)
    (o' : General.rule_output) : Prop :=
  match o, o' with
  | MetaScoringAggregator.Score s, General.Score s' => s' = Number.Int s
  | MetaScoringAggregator.ScoreReason s f, General.ScoreReason s' f' =>
      s' = Number.Int s /\ f' = f
  | _, _ => False
  end.

(** The local variables of the two loops hold the same. *)
Definition same_locals (x : MetaScoringAggregator.locals) (y : General.locals) : Prop :=
  y = ((fun p : string * Z => (p.1, Number.Int p.2)) <$> x.1.1, x.1.2,
       Number.Int x.2).

(** A parsed document of the typed model, as a document of the wider
    one, and a parser of the typed model as a parser of the wider. *)
Definition widen_doc (doc : yaml_doc) : General.yaml_doc :=
  match doc with
  | YEmpty => General.YEmpty
  | YMapping c => General.YValue (widen c)
  end.

Definition widen_loader (safe_load : string -> result yaml_doc) (text : string)
  : result General.yaml_doc :=
  match safe_load text with
  | Ok doc => Ok (widen_doc doc)
  | Err e => Err e
  end.

(** ** Specification-level definitions for the wider model *)

Module GeneralSpec.

Import General.

(** The result of one presence check: [name in x] is true, is false, or
    raises. *)
Definition check (v : document) (r : requirement) : result bool :=
  match r with
  | RSection s => config_contains v s
  | RWeight m => let* s := config_weights v in contains s m
  | RThresholds m => let* s := config_thresholds v in contains s m
  end.

(** The checks in the order they are made: the first that does not pass
    decides, with the scoring error when the name is absent and with the
    exception of [in] or of the indexing otherwise. *)
Fixpoint run_checks (v : document) (order : list requirement) : result unit :=
  match order with
  | [] => Ok tt
  | r :: rest =>
      match check v r with
      | Ok true => run_checks v rest
      | Ok false => Err (ScoringError (complaint r))
      | Err e => Err e
      end
  end.

(** What the handler of [_load_config] makes of an exception. *)
Definition wrapped (e : exn) : exn :=
  match e with
  | YAMLError m => ScoringError ("Invalid YAML format: " +:+ m)
  | _ => ScoringError ("Error loading configuration: " +:+ exn_str e)
  end.

(** The outcome of constructing an aggregator, check by check. *)
Definition construction_outcome (safe_load : string -> result yaml_doc)
    (w : world) (config_path : string) : result loc :=
  match w.(files) !! config_path with
  | None =>
      Err (wrapped (FileNotFoundError
                      ("Configuration file not found: " +:+ config_path)))
  | Some (Unreadable e) => Err (wrapped e)
  | Some (Readable text) =>
      match safe_load text with
      | Err e => Err (wrapped e)
      | Ok doc =>
          match true_value doc with
          | None =>
              Err (wrapped (ScoringError "Configuration file is empty or invalid"))
          | Some v =>
              match run_checks v validation_order with
              | Err e => Err e
              | Ok _ => Ok (length w.(heap))
              end
          end
      end
  end.

(** The document is a mapping, and the sections it has are containers. *)
Definition well_formed (v : document) : Prop :=
  exists c, v = DMapping c /\
            c.(weights) <> Some Scalar /\ c.(thresholds) <> Some Scalar.

(** A name is absent from a section of the configuration. *)
Definition lacks {V} (section : option (container V)) (name : string) : Prop :=
  exists x, section = Some x /\ contains x name = Ok false.

(** The configuration source is defective: the file does not exist or
    cannot be read, its text does not parse, it parses to a false value,
    or the value misses a section or one of the six module names in
    [weights] or in [thresholds]. *)
Definition config_defect (safe_load : string -> result yaml_doc)
    (w : world) (config_path : string) : Prop :=
  match w.(files) !! config_path with
  | None => True
  | Some (Unreadable _) => True
  | Some (Readable text) =>
      match safe_load text with
      | Err _ => True
      | Ok doc =>
          match true_value doc with
          | None => True
          | Some (DMapping c) =>
              c.(weights) = None \/ c.(thresholds) = None \/
              exists m, In m required_modules /\
                        (lacks c.(weights) m \/ lacks c.(thresholds) m)
          | Some v =>
              config_contains v "weights" = Ok false \/
              config_contains v "thresholds" = Ok false
          end
      end
  end.

End GeneralSpec.

(** ** Example data for the wider model *)

Module GeneralExamples.

Import PrimFloat.
Import Number General Examples.

(** The example thresholds, with a low-target bonus of [3.5]. *)
Definition float_bonus_thresholds : gmap string General.module_config :=
  <["off_target" :=
      {| affinity := None; rmsd_max := None; min_poses := None;
         logP_range := None; half_life_min := None; clearance_acceptable := None;
         cyp_inhibition_penalty := None; max_flags_allowed := None;
         override_models := None; high_score := None; mid_score := None;
         bonus_volume_min := None; bonus_hydrophobicity_min := None;
         volume_hydrophobicity_bonus := None; score_by_violations := None;
         si_thresholds := Some [of_Z 1; of_Z 5; of_Z 10];
         low_target_bonus_threshold := Some (of_Z 5);
         low_target_bonus := Some (Float 3.5%float) |}]>
    (widen_config <$> thresholds_with 2).




(** The example configuration with integer entries, and the good
    compound. *)
Definition integer_store : world :=
  {| heap := [OAggregator (Some (widen (config_with 2))); ODict good_bundle];
     log := []; files := ∅; basic_config := false |}.

Definition integer_run : result value * world :=
  General.aggregate_scores 0%nat (VRef 1%nat) integer_store.

(** A parser that knows a few documents. *)
Definition parse (text : string) : result yaml_doc :=
  if String.eqb text "" then Ok YEmpty
  else if String.eqb text "full" then Ok (YValue (widen (config_with 2)))
  else if String.eqb text "weights: null" then
    Ok (YValue (DMapping {| weights := Some Scalar;
                            thresholds := Some (Mapping float_bonus_thresholds) |}))
  else if String.eqb text "- weights" then Ok (YValue (DSequence ["weights"]))
  else if String.eqb text "42" then Ok (YValue DScalar)
  else Err (YAMLError "mapping values are not allowed here").

Definition disk (text : string) : world :=
  {| heap := []; log := [];
     files := {[ "score_config.yaml" := Readable text ]};
     basic_config := false |}.

End GeneralExamples.

(** * Properties *)

Section StoreFacts.

Lemma logged_refl w : logged w [] w.
Proof. unfold logged. rewrite app_nil_r. auto. Qed.

Lemma logged_trans w1 w2 w3 a b :
  logged w1 a w2 -> logged w2 b w3 -> logged w1 (a ++ b)%list w3.
Proof.
  unfold logged. intros (h1 & f1 & b1 & l1) (h2 & f2 & b2 & l2).
  rewrite h2, f2, b2, l2, l1, app_assoc. auto.
Qed.

Lemma logger_logged level msg w :
  logger level msg w = (Ok tt, snd (logger level msg w)) /\
  logged w [(level, msg)] (snd (logger level msg w)).
Proof. unfold logger, logged. simpl. auto. Qed.

End StoreFacts.

Section LoopFacts.

Variables (module_outputs : value) (th : gmap string module_config).

(** One iteration that succeeds has read a bundle of records and the
    module's thresholds, has run the scoring function on them, and has
    changed nothing in the store but the log. *)
Lemma score_module_inv name (f : scoring_func) bd fr tot w vars' w' :
  score_module module_outputs th (name, f) (bd, fr, tot) w = (Ok vars', w') ->
  exists bl d mc out,
    module_outputs = VRef bl /\ w.(heap) !! bl = Some (ODict d) /\
    th !! name = Some mc /\
    f (get (d !! name) empty_record) mc = Ok out /\
    if String.eqb name "toxicity" then
      exists s fl, out = ScoreReason s fl /\
        vars' = (dict_set bd name s, (fr ++ rationale_of fl)%list, tot + s) /\
        logged w (map (fun m => ("WARNING", m)) (rationale_of fl)) w'
    else
      exists s, out = Score s /\ vars' = (dict_set bd name s, fr, tot + s) /\ w' = w.
Proof.
  unfold score_module, get_record, target, mbind, deref, lift, ret, raise.
  destruct module_outputs as [| | |bl]; try discriminate.
  destruct (heap w !! bl) as [[| d | |]|] eqn:Hd; try discriminate.
  unfold item. destruct (th !! name) as [mc|] eqn:Hmc; try discriminate.
  destruct (String.eqb name "toxicity") eqn:Hn.
  - destruct (f _ mc) as [[s|s fl]|] eqn:Hf; try discriminate.
    intros H. exists bl, d, mc, (ScoreReason s fl).
    repeat split; auto. exists s, fl. split; [reflexivity|].
    unfold rationale_of. destruct (truthy fl) eqn:Ht.
    + injection H as <- <-. repeat split; auto.
    + injection H as <- <-. rewrite app_nil_r. repeat split; auto.
      simpl. now rewrite app_nil_r.
  - destruct (f _ mc) as [[s|s fl]|] eqn:Hf; try discriminate.
    intros [= <- <-]. exists bl, d, mc, (Score s).
    repeat split; auto. exists s. auto.
Qed.

End LoopFacts.

Section MonadFacts.

Context {A B : Type}.

Lemma mbind_ok (m : M A) (k : A -> M B) w b w' :
  mbind m k w = (Ok b, w') ->
  exists a w1, m w = (Ok a, w1) /\ k a w1 = (Ok b, w').
Proof.
  unfold mbind. destruct (m w) as [[a|e] w1]; [eauto | discriminate].
Qed.

Lemma mbind_err (m : M A) (k : A -> M B) w e w' :
  mbind m k w = (Err e, w') ->
  m w = (Err e, w') \/ exists a w1, m w = (Ok a, w1) /\ k a w1 = (Err e, w').
Proof.
  unfold mbind. destruct (m w) as [[a|e0] w1]; [eauto | intros [= <- <-]; auto].
Qed.

Lemma mbind_step (m : M A) (k : A -> M B) w a w1 :
  m w = (Ok a, w1) -> mbind m k w = k a w1.
Proof. unfold mbind. now intros ->. Qed.


End MonadFacts.

Section ValidationFacts.

Lemma filter_nil_all {X} (f : X -> bool) (l : list X) :
  List.filter f l = [] -> forall x, In x l -> f x = false.
Proof.
  induction l as [|y l IH]; simpl; [tauto|].
  destruct (f y) eqn:Hy; [discriminate|].
  intros H x [<-|Hx]; auto.
Qed.


Lemma target_denotes v w : target v w = (Ok (denotes w v), w).
Proof. destruct v; reflexivity. Qed.


(** Validation, as a function of the object the argument denotes. *)
Lemma _validate_input_eq v w :
  _validate_input v w =
    (if negb (is_dict (denotes w v)) then
       Err (ScoringError "Input must be a dictionary")
     else if Nat.eqb (dict_len (denotes w v)) 0 then
       Err (ScoringError "Input dictionary cannot be empty")
     else match missing_modules (denotes w v) with
          | [] => Ok tt
          | missing =>
              Err (ScoringError ("Missing required modules: " +:+ repr_list missing))
          end, w).
Proof.
  unfold _validate_input. rewrite (mbind_step _ _ _ _ _ (target_denotes v w)).
  unfold missing_modules.
  destruct (negb (is_dict (denotes w v))); [reflexivity|].
  destruct (Nat.eqb (dict_len (denotes w v)) 0); [reflexivity|].
  destruct (List.filter _ required_modules); reflexivity.
Qed.

(** Validation passes only for a non-empty bundle of records that has
    the six module keys. *)
Lemma _validate_input_ok v w u w' :
  _validate_input v w = (Ok u, w') ->
  w' = w /\
  exists d, denotes w v = Some (ODict d) /\ size d <> O /\
            forall m, In m required_modules -> is_Some (d !! m).
Proof.
  rewrite _validate_input_eq.
  destruct (denotes w v) as [[| d | r |]|] eqn:Ho; simpl; try discriminate.
  destruct (Nat.eqb (size d) 0) eqn:Hs; [discriminate|].
  destruct (missing_modules (Some (ODict d))) eqn:Hm; [|discriminate].
  intros [= _ <-]. split; [reflexivity|]. exists d. split; [reflexivity|].
  split; [now apply Nat.eqb_neq|].
  intros m Hin. pose proof (filter_nil_all _ _ Hm m Hin) as Hc.
  simpl in Hc. apply negb_false_iff, bool_decide_eq_true in Hc. exact Hc.
Qed.

End ValidationFacts.

(** ** Computations that only write the log *)

Section Quiet.


Lemma quiet_ret {A} (a : A) : quiet (ret a).
Proof. intros w. exists []. apply logged_refl. Qed.

Lemma quiet_raise {A} e : quiet (@raise A e).
Proof. intros w. exists []. apply logged_refl. Qed.

Lemma quiet_lift {A} (r : result A) : quiet (lift r).
Proof. intros w. exists []. apply logged_refl. Qed.

Lemma quiet_deref l : quiet (deref l).
Proof. intros w. exists []. apply logged_refl. Qed.

Lemma quiet_read_file p : quiet (read_file p).
Proof. intros w. exists []. apply logged_refl. Qed.

Lemma quiet_logger level msg : quiet (logger level msg).
Proof. intros w. exists [(level, msg)]. apply logger_logged. Qed.

Lemma quiet_mbind {A B} (m : M A) (k : A -> M B) :
  quiet m -> (forall a, quiet (k a)) -> quiet (mbind m k).
Proof.
  intros Hm Hk w. unfold mbind. destruct (Hm w) as [e1 H1].
  destruct (m w) as [[a|e] w1]; simpl in *.
  - destruct (Hk a w1) as [e2 H2]. exists (e1 ++ e2)%list.
    eapply logged_trans; eauto.
  - eauto.
Qed.

Lemma quiet_try_except {A} (m : M A) h : quiet m -> quiet (try_except m h).
Proof.
  intros Hm w. unfold try_except. destruct (Hm w) as [e1 H1].
  destruct (m w) as [[a|e] w1]; simpl in *; eauto.
Qed.

End Quiet.

Ltac quiet_step :=
  first
    [ apply quiet_ret | apply quiet_raise | apply quiet_lift
    | apply quiet_deref | apply quiet_logger | apply quiet_read_file
    | apply quiet_mbind; [| intros ?]
    | apply quiet_try_except
    | match goal with
      | |- quiet (if ?b then _ else _) => destruct b
      | |- quiet (match ?x with _ => _ end) => destruct x
      | |- quiet (let '(_, _) := ?x in _) => destruct x
      end ].

Section QuietAggregation.

Lemma quiet_target v : quiet (target v).
Proof. destruct v; simpl; repeat quiet_step. Qed.

Lemma quiet_validate_input v : quiet (_validate_input v).
Proof. unfold _validate_input. apply quiet_mbind; [apply quiet_target|intros o]. repeat quiet_step. Qed.

Lemma quiet_get_record v name : quiet (get_record v name).
Proof. unfold get_record. apply quiet_mbind; [apply quiet_target|intros o]. repeat quiet_step. Qed.

Lemma quiet_self_config self : quiet (self_config self).
Proof. unfold self_config. repeat quiet_step. Qed.

Lemma quiet_score_module v th entry vars : quiet (score_module v th entry vars).
Proof.
  destruct entry as [name f], vars as [[bd fr] tot]. unfold score_module.
  apply quiet_mbind; [apply quiet_get_record|intros data].
  repeat quiet_step.
Qed.

Lemma quiet_score_modules v th dispatcher :
  forall vars, quiet (score_modules v th dispatcher vars).
Proof.
  induction dispatcher as [|entry rest IH]; intros vars; simpl.
  - apply quiet_ret.
  - apply quiet_mbind; [apply quiet_score_module | intros vars'; apply IH].
Qed.

End QuietAggregation.

Section Allocation.


Lemma allocating_mbind {A} (m : M A) (k : A -> M value) :
  quiet m -> (forall a, allocating (k a)) -> allocating (mbind m k).
Proof.
  intros Hm Hk w. unfold mbind. destruct (Hm w) as [n1 L1].
  destruct (m w) as [[a|e] w1]; simpl in L1.
  - destruct (Hk a w1) as [(e & w' & n2 & E & L2)|(r & w2 & n2 & E & L2)].
    + left. exists e, w', (n1 ++ n2)%list. split; [exact E|].
      eapply logged_trans; eauto.
    + right. exists r, w2, (n1 ++ n2)%list.
      pose proof (proj1 L1) as Hh. rewrite Hh in E. split; [exact E|].
      eapply logged_trans; eauto.
  - left. eauto.
Qed.

Lemma allocating_alloc r :
  allocating (do l <- alloc (OResult r); ret (VRef l)).
Proof.
  intros w. right. exists r, w, []. split; [reflexivity | apply logged_refl].
Qed.

Lemma allocating_aggregate_scores_with dispatcher self v :
  allocating (aggregate_scores_with dispatcher self v).
Proof.
  unfold aggregate_scores_with.
  apply allocating_mbind; [apply quiet_logger | intros _].
  apply allocating_mbind; [apply quiet_validate_input | intros _].
  apply allocating_mbind; [apply quiet_self_config | intros cfg].
  apply allocating_mbind; [apply quiet_lift | intros th].
  apply allocating_mbind; [apply quiet_score_modules | intros [[bd fr] tot]].
  apply allocating_alloc.
Qed.

End Allocation.

(** ** What a successful call has computed *)

Section Inversion.

Lemma as_score_inv rule data c out :
  as_score rule data c = Ok out -> exists s, out = Score s /\ rule data c = Ok s.
Proof.
  unfold as_score, bind. destruct (rule data c); [|discriminate].
  intros [= <-]. eauto.
Qed.

Lemma as_pair_inv rule data c out :
  as_pair rule data c = Ok out ->
  exists s fl, out = ScoreReason s fl /\ rule data c = Ok (s, fl).
Proof.
  unfold as_pair, bind. destruct (rule data c) as [[s fl]|]; [|discriminate].
  intros [= <-]. eauto.
Qed.

Lemma self_config_ok self w c w' :
  self_config self w = (Ok c, w') ->
  w' = w /\ w.(heap) !! self = Some (OAggregator (Some c)).
Proof.
  unfold self_config, mbind, deref, ret, raise.
  destruct (heap w !! self) as [[[c'|] | | |]|]; try discriminate.
  intros [= <- <-]. auto.
Qed.

(** A call that returns has validated a bundle of records with the six
    module keys, has read the thresholds of the six modules from the
    aggregator's configuration, and has placed [result_of] the six rule
    outputs in a new object. *)
Lemma aggregate_scores_inv self v w res w' :
  MetaScoringAggregator.aggregate_scores self v w = (Ok res, w') ->
  exists d cfg th rs,
    denotes w v = Some (ODict d) /\
    (forall m, In m required_modules -> is_Some (d !! m)) /\
    w.(heap) !! self = Some (OAggregator (Some cfg)) /\
    cfg.(thresholds) = Some th /\
    rules_return d th rs /\
    res = VRef (length w.(heap)) /\
    w'.(heap) = (w.(heap) ++ [OResult (result_of rs)])%list.
Proof.
  unfold MetaScoringAggregator.aggregate_scores, aggregate_scores_with.
  intros H.
  apply mbind_ok in H as ([] & w1 & H1 & H).
  injection H1 as <-.
  apply mbind_ok in H as ([] & w2 & H2 & H).
  apply _validate_input_ok in H2 as (-> & d & Hd & _ & Hkeys).
  apply mbind_ok in H as (cfg & w3 & H3 & H).
  apply self_config_ok in H3 as (-> & Hself).
  apply mbind_ok in H as (th & w4 & H4 & H).
  unfold lift, item in H4. destruct (thresholds cfg) as [th'|] eqn:Hth; [|discriminate].
  injection H4 as <- <-.
  apply mbind_ok in H as ([[bd fr] tot] & w5 & H5 & H).
  unfold scoring_functions in H5. cbn [score_modules] in H5.
  set (w0 := with_log w _) in *.
  assert (Hh0 : heap w0 = heap w) by reflexivity.
  assert (Hd0 : denotes w0 v = Some (ODict d)) by exact Hd.
  clearbody w0.
  apply mbind_ok in H5 as ([[bd1 fr1] tot1] & wa & Ha & H5).
  apply score_module_inv in Ha as (bl & d1 & c1 & o1 & -> & Hd1 & Hc1 & Hf1 & Ha).
  simpl in Hd0. rewrite Hd1 in Hd0. injection Hd0 as ->.
  cbn in Ha. destruct Ha as (s1 & -> & [= -> -> ->] & ->).
  apply as_score_inv in Hf1 as (? & [= <-] & Hf1).
  apply mbind_ok in H5 as ([[bd2 fr2] tot2] & wb & Hb & H5).
  apply score_module_inv in Hb as (bl2 & d2 & c2 & o2 & [= <-] & Hd2 & Hc2 & Hf2 & Hb).
  rewrite Hd1 in Hd2. injection Hd2 as <-.
  cbn in Hb. destruct Hb as (s2 & -> & [= -> -> ->] & ->).
  apply as_score_inv in Hf2 as (? & [= <-] & Hf2).
  apply mbind_ok in H5 as ([[bd3 fr3] tot3] & wc & Hc & H5).
  apply score_module_inv in Hc as (bl3 & d3 & c3 & o3 & [= <-] & Hd3 & Hc3 & Hf3 & Hc).
  rewrite Hd1 in Hd3. injection Hd3 as <-.
  cbn in Hc. destruct Hc as (s3 & fl & -> & [= -> -> ->] & Hlog).
  apply as_pair_inv in Hf3 as (? & ? & [= <- <-] & Hf3).
  assert (Hdc : heap wc !! bl = Some (ODict d))
    by (destruct Hlog as (Hh & _); now rewrite Hh).
  assert (Hhc : heap wc = heap w)
    by (destruct Hlog as (Hh & _); now rewrite Hh).
  clear Hlog.
  apply mbind_ok in H5 as ([[bd4 fr4] tot4] & wd & Hd4 & H5).
  apply score_module_inv in Hd4 as (bl4 & d4 & c4 & o4 & [= <-] & Hd4' & Hc4 & Hf4 & Hd4).
  rewrite Hdc in Hd4'. injection Hd4' as <-.
  cbn in Hd4. destruct Hd4 as (s4 & -> & [= -> -> ->] & ->).
  apply as_score_inv in Hf4 as (? & [= <-] & Hf4).
  apply mbind_ok in H5 as ([[bd5 fr5] tot5] & we & He & H5).
  apply score_module_inv in He as (bl5 & d5 & c5 & o5 & [= <-] & Hd5 & Hc5 & Hf5 & He).
  rewrite Hdc in Hd5. injection Hd5 as <-.
  cbn in He. destruct He as (s5 & -> & [= -> -> ->] & ->).
  apply as_score_inv in Hf5 as (? & [= <-] & Hf5).
  apply mbind_ok in H5 as ([[bd6 fr6] tot6] & wf & Hf & H5).
  apply score_module_inv in Hf as (bl6 & d6 & c6 & o6 & [= <-] & Hd6 & Hc6 & Hf6 & Hf).
  rewrite Hdc in Hd6. injection Hd6 as <-.
  cbn in Hf. destruct Hf as (s6 & -> & [= -> -> ->] & ->).
  apply as_score_inv in Hf6 as (? & [= <-] & Hf6).
  injection H5 as <- <- <- <-.
  unfold mbind, alloc, ret in H. injection H as <- <-.
  exists d, cfg, th',
    {| s_docking := s1; s_adme_pk := s2; s_toxicity := s3; s_failure := fl;
       s_druggability := s4; s_drug_likeness := s5; s_off_target := s6 |}.
  repeat split; eauto.
  - simpl. now rewrite <- Hh0.
  - now rewrite <- Hh0.
  - now rewrite Hhc.
  - simpl. now rewrite Hhc.
Qed.

End Inversion.

(** ** What the rules return and raise *)

Section Returns.



Lemma returns_ok {A} (P : A -> Prop) a : P a -> returns P (Ok a).
Proof. intros H b [= <-]. exact H. Qed.

Lemma returns_bind {A B} (Q : A -> Prop) (P : B -> Prop) r (k : A -> result B) :
  returns Q r -> (forall x, Q x -> returns P (k x)) -> returns P (bind r k).
Proof.
  intros Hr Hk b. unfold bind. destruct r as [a|e]; [|discriminate].
  apply Hk, Hr. reflexivity.
Qed.

Lemma returns_any {A} (r : result A) : returns (fun _ => True) r.
Proof. intros a _. exact I. Qed.

Lemma returns_item {A} (f : option A) k : returns (fun a => f = Some a) (item f k).
Proof. intros a. destruct f; simpl; [intros [= <-]; reflexivity | discriminate]. Qed.

Lemma benign_ok {A} (a : A) : benign (Ok a).
Proof. intros msg. discriminate. Qed.

Lemma benign_item {A} (f : option A) k : benign (item f k).
Proof. intros msg. destruct f; discriminate. Qed.

Lemma benign_index {A} (l : list A) i : benign (index l i).
Proof. intros msg. unfold index. destruct (l !! i); discriminate. Qed.

Lemma benign_bind {A B} r (k : A -> result B) :
  benign r -> (forall x, benign (k x)) -> benign (bind r k).
Proof.
  intros Hr Hk msg. unfold bind. destruct r as [a|e]; [apply Hk|].
  intros [= ->]. now apply (Hr msg).
Qed.

End Returns.

Ltac benign_step :=
  first
    [ apply benign_ok | apply benign_item | apply benign_index
    | apply benign_bind; [| intros ?]
    | match goal with
      | |- benign (if ?b then _ else _) => destruct b
      | |- benign (match ?x with _ => _ end) => destruct x
      end ].

Section RuleErrors.

Lemma benign_score_docking data c : benign (_score_docking data c).
Proof. unfold _score_docking. cbv zeta. repeat benign_step. Qed.

Lemma benign_score_adme_pk data c : benign (_score_adme_pk data c).
Proof. unfold _score_adme_pk. cbv zeta. repeat benign_step. Qed.

Lemma benign_score_toxicity data c : benign (_score_toxicity data c).
Proof.
  unfold _score_toxicity, high_risk_hits. cbv zeta. repeat benign_step.
Qed.

Lemma benign_score_druggability data c : benign (_score_druggability data c).
Proof. unfold _score_druggability. cbv zeta. repeat benign_step. Qed.

Lemma benign_score_drug_likeness data c : benign (_score_drug_likeness data c).
Proof.
  unfold _score_drug_likeness, max_key. cbv zeta. repeat benign_step.
  intros msg. discriminate.
Qed.

Lemma benign_score_off_target data c : benign (_score_off_target data c).
Proof. unfold _score_off_target. cbv zeta. repeat benign_step. Qed.

End RuleErrors.

Section Comparisons.

Lemma Qlt_bool_iff x y : Qlt_bool x y = true <-> (x < y)%Q.
Proof.
  unfold Qlt_bool. rewrite negb_true_iff, <- not_true_iff_false, Qle_bool_iff.
  split; [apply Qnot_le_lt | apply Qlt_not_le].
Qed.

Lemma ltb_irrefl a : ltb a a = false.
Proof.
  destruct a as [|q|]; simpl; try reflexivity.
  apply not_true_iff_false. rewrite Qlt_bool_iff. apply Qlt_irrefl.
Qed.

Lemma to_key_of_Z z : to_key (of_Z z) = Some z.
Proof.
  unfold to_key, of_Z, inject_Z.
  rewrite Qred_identity by apply Z.gcd_1_r. reflexivity.
Qed.

Lemma min_above a b : ltb b a = true -> min a b = b.
Proof. unfold min. now intros ->. Qed.

Lemma min_same a : min a a = a.
Proof. unfold min. now rewrite ltb_irrefl. Qed.

(** A count between 2 and [mx] is neither 0 nor 1 nor above [mx]. *)
Lemma between_falls_through n mx :
  leb (of_Z 2) n = true -> leb n (of_Z mx) = true ->
  eqb n (of_Z 0) = false /\ eqb n (of_Z 1) = false /\ gtb n (of_Z mx) = false.
Proof.
  unfold gtb, of_Z. destruct n as [|q|]; simpl; try discriminate.
  rewrite !Qle_bool_iff. intros H2 Hmx.
  repeat split; apply not_true_iff_false.
  - rewrite Qeq_bool_iff. intros E. rewrite E in H2. now apply Qle_bool_iff in H2.
  - rewrite Qeq_bool_iff. intros E. rewrite E in H2. now apply Qle_bool_iff in H2.
  - rewrite Qlt_bool_iff. now apply Qle_not_lt.
Qed.

(** A count above a maximum of at least 1 is neither 0 nor 1. *)
Lemma above_max_not_small n mx :
  (1 <= mx)%Z -> gtb n (of_Z mx) = true ->
  eqb n (of_Z 0) = false /\ eqb n (of_Z 1) = false.
Proof.
  unfold gtb, of_Z. destruct n as [|q|]; simpl; try discriminate; [|auto].
  rewrite Qlt_bool_iff. intros Hmx Hq.
  assert (H1 : (1 < q)%Q).
  { eapply Qle_lt_trans; [|exact Hq]. change 1%Q with (inject_Z 1).
    rewrite <- Zle_Qle. exact Hmx. }
  split; apply not_true_iff_false; rewrite Qeq_bool_iff; intros E;
    rewrite E in H1; now apply Qlt_bool_iff in H1.
Qed.

End Comparisons.

Section Floors.

Ltac floor_binds :=
  repeat (eapply returns_bind; [apply returns_any | intros ? _]).

(** The rules that subtract penalties end in [max(score, 0)]. *)
Lemma _score_docking_floor data c : returns (fun s => 0 <= s) (_score_docking data c).
Proof. unfold _score_docking. cbv zeta. floor_binds. apply returns_ok. lia. Qed.

Lemma _score_adme_pk_floor data c : returns (fun s => 0 <= s) (_score_adme_pk data c).
Proof. unfold _score_adme_pk. cbv zeta. floor_binds. apply returns_ok. lia. Qed.

Lemma _score_toxicity_floor data c :
  returns (fun p => 0 <= fst p) (_score_toxicity data c).
Proof.
  unfold _score_toxicity. cbv zeta.
  eapply returns_bind; [apply returns_any | intros [s0 fr0] _].
  eapply returns_bind; [apply returns_any | intros hits _].
  destruct hits; apply returns_ok; simpl; lia.
Qed.

(** The additive rules are not floored: they are as low as their base
    plus the configured bonus. *)
Lemma _score_druggability_bound data c :
  returns (fun s => 0 <= s \/
             exists b, c.(volume_hydrophobicity_bonus) = Some b /\ b <= s)
          (_score_druggability data c).
Proof.
  unfold _score_druggability. cbv zeta.
  eapply returns_bind with (Q := fun s => 0 <= s).
  { eapply returns_bind; [apply returns_any | intros hs _].
    destruct (gtb _ hs); [apply returns_ok; lia|].
    eapply returns_bind; [apply returns_any | intros ms _].
    destruct (geb _ ms); apply returns_ok; lia. }
  intros s0 Hs0.
  eapply returns_bind; [apply returns_any | intros bonus _].
  eapply returns_bind with (Q := fun s => 0 <= s \/
             exists b, c.(volume_hydrophobicity_bonus) = Some b /\ b <= s).
  { destruct bonus.
    - eapply returns_bind; [apply returns_item | intros b Hb].
      apply returns_ok. right. exists b. split; [exact Hb | lia].
    - apply returns_ok. now left. }
  intros s1 Hs1. apply returns_ok. exact Hs1.
Qed.

Lemma _score_off_target_bound data c :
  returns (fun s => 0 <= s \/
             exists b, c.(low_target_bonus) = Some b /\ b <= s)
          (_score_off_target data c).
Proof.
  unfold _score_off_target. cbv zeta.
  eapply returns_bind; [apply returns_any | intros ths _].
  eapply returns_bind with (Q := fun s => 0 <= s).
  { eapply returns_bind; [apply returns_any | intros t2 _].
    destruct (gtb _ t2); [apply returns_ok; lia|].
    eapply returns_bind; [apply returns_any | intros t1 _].
    destruct (gtb _ t1); [apply returns_ok; lia|].
    eapply returns_bind; [apply returns_any | intros t0 _].
    destruct (gtb _ t0); apply returns_ok; lia. }
  intros s0 Hs0.
  eapply returns_bind with (Q := fun s => 0 <= s \/
             exists b, c.(low_target_bonus) = Some b /\ b <= s).
  { eapply returns_bind; [apply returns_any | intros thr _].
    destruct (ltb _ thr).
    - eapply returns_bind; [apply returns_item | intros b Hb].
      apply returns_ok. right. exists b. split; [exact Hb | lia].
    - apply returns_ok. now left. }
  intros s1 Hs1. apply returns_ok. exact Hs1.
Qed.

Lemma _score_drug_likeness_bound data c :
  returns (fun s => s = 0 \/
             exists tbl k, c.(score_by_violations) = Some tbl /\ tbl !! k = Some s)
          (_score_drug_likeness data c).
Proof.
  unfold _score_drug_likeness. cbv zeta.
  eapply returns_bind; [apply returns_item | intros tbl Htbl].
  eapply returns_bind; [apply returns_any | intros K _].
  apply returns_ok. unfold table_get.
  destruct (to_key _) as [k|]; [|now left].
  destruct (tbl !! k) as [s|] eqn:Hk; simpl; [right; exists tbl, k; auto | now left].
Qed.

End Floors.

Section Toxicity.



(** The rule on a configuration that has its two keys, in closed form. *)
Lemma _score_toxicity_eq data c mx ov :
  c.(max_flags_allowed) = Some mx -> c.(override_models) = Some ov ->
  let n := get data.(num_models_flagged) (of_Z 0) in
  let hits := List.filter (fun m => str_in m ov) (get data.(high_risk_models) []) in
  let base : Z * option string :=
    if eqb n (of_Z 0) then (20, None)
    else if eqb n (of_Z 1) then (10, None)
    else if gtb n (of_Z mx)
         then (0, Some (">" +:+ str mx +:+ " toxicity models flagged"))
         else (0, None) in
  _score_toxicity data c =
    Ok (Z.max (fst base - 10 * Z.of_nat (length hits)) 0,
        merged_reason (snd base) hits).
Proof.
  intros Hmx Hov. cbv zeta. unfold _score_toxicity, high_risk_hits.
  rewrite Hmx, Hov.
  remember (get (num_models_flagged data) (of_Z 0)) as n eqn:Hn.
  remember (get (high_risk_models data) []) as models eqn:Hm.
  destruct models as [|m ms].
  - destruct (eqb n (of_Z 0)); [reflexivity|].
    destruct (eqb n (of_Z 1)); [reflexivity|].
    cbv beta iota delta [bind item]. destruct (gtb n (of_Z mx)); reflexivity.
  - cbv beta iota delta [bind item].
    generalize (List.filter (fun m0 => str_in m0 ov) (m :: ms)) as hits.
    intros hits.
    destruct (eqb n (of_Z 0)); [destruct hits; reflexivity|].
    destruct (eqb n (of_Z 1)); [destruct hits; reflexivity|].
    destruct (gtb n (of_Z mx)); destruct hits; reflexivity.
Qed.

Lemma truthy_append a b : a <> "" -> truthy (Some (a +:+ b)) = true.
Proof. destruct a; [congruence | reflexivity]. Qed.

(** A reason the rule returns is never the empty string. *)
Lemma _score_toxicity_reason data c :
  returns (fun p => forall r, snd p = Some r -> truthy (Some r) = true)
          (_score_toxicity data c).
Proof.
  unfold _score_toxicity. cbv zeta.
  eapply returns_bind
    with (Q := fun p => forall r, snd p = Some r -> truthy (Some r) = true).
  { destruct (eqb _ (of_Z 0)); [apply returns_ok; discriminate|].
    destruct (eqb _ (of_Z 1)); [apply returns_ok; discriminate|].
    eapply returns_bind; [apply returns_any | intros mx _].
    destruct (gtb _ (of_Z mx)); apply returns_ok; [|discriminate].
    intros r [= <-]. reflexivity. }
  intros [s0 fr0] Hfr0.
  eapply returns_bind; [apply returns_any | intros hits _].
  destruct hits as [|h hits]; apply returns_ok; [exact Hfr0|].
  simpl snd. intros r [= <-].
  destruct (truthy fr0); apply truthy_append.
  - destruct fr0 as [b|]; simpl in *; [|discriminate].
    intros E. specialize (Hfr0 b eq_refl). simpl in Hfr0. rewrite E in Hfr0.
    discriminate.
  - discriminate.
Qed.

End Toxicity.

Section DrugLikeness.


Lemma foldl_max_spec ks : forall k,
  foldl Z.max k ks ∈ k :: ks /\ forall x, x ∈ k :: ks -> x <= foldl Z.max k ks.
Proof.
  induction ks as [|y ks IH]; intros k; simpl.
  - split; [apply elem_of_cons; auto|].
    intros x Hx. apply elem_of_cons in Hx as [->|Hx]; [lia|]. inversion Hx.
  - destruct (IH (Z.max k y)) as [Hin Hle]. split.
    + apply elem_of_cons in Hin as [Heq|Hin].
      * rewrite Heq. destruct (Z.max_spec k y) as [[_ ->]|[_ ->]];
          rewrite !elem_of_cons; auto.
      * rewrite !elem_of_cons; auto.
    + intros x Hx. rewrite !elem_of_cons in Hx.
      assert (Hm : Z.max k y <= foldl Z.max (Z.max k y) ks)
        by (apply Hle, elem_of_cons; auto).
      destruct Hx as [->|[->|Hx]]; [lia | lia |].
      apply Hle, elem_of_cons; auto.
Qed.

Lemma key_in_list (tbl : gmap Z Z) k :
  k ∈ (map_to_list tbl).*1 <-> is_Some (tbl !! k).
Proof.
  rewrite list_elem_of_fmap. split.
  - intros ([k' v] & -> & Hin). apply elem_of_map_to_list in Hin. eauto.
  - intros [v Hv]. exists (k, v). split; [reflexivity|].
    now apply elem_of_map_to_list.
Qed.

(** [max(score_table.keys())] is the largest key, and fails only on the
    empty table. *)
Lemma max_key_largest (tbl : gmap Z Z) K :
  max_key tbl = Ok K <-> is_largest_key tbl K.
Proof.
  unfold max_key, is_largest_key.
  destruct ((map_to_list tbl).*1) as [|k ks] eqn:Hl.
  - split; [discriminate|]. intros [HK _].
    apply key_in_list in HK. rewrite Hl in HK. inversion HK.
  - destruct (foldl_max_spec ks k) as [Hin Hle]. split.
    + intros [= <-]. split.
      * apply key_in_list. now rewrite Hl.
      * intros k' Hk'. apply Hle. rewrite <- Hl. now apply key_in_list.
    + intros [HK Hmax]. f_equal. apply Z.le_antisymm.
      * apply Hmax, key_in_list. now rewrite Hl.
      * apply Hle. rewrite <- Hl. now apply key_in_list.
Qed.

(** The rule on a table with largest key [K], in closed form. *)
Lemma _score_drug_likeness_eq data c tbl K :
  c.(score_by_violations) = Some tbl -> is_largest_key tbl K ->
  _score_drug_likeness data c =
    Ok (table_get tbl (min (get data.(num_violations) PosInf) (of_Z K)) 0).
Proof.
  intros Htbl HK. unfold _score_drug_likeness. rewrite Htbl. simpl.
  apply max_key_largest in HK. rewrite HK. reflexivity.
Qed.

End DrugLikeness.

(** ** Two runs side by side *)

Section SideBySide.

Variables (sa sb : loc) (va vb : value).




Lemma denotes_heap w w' v : w'.(heap) = w.(heap) -> denotes w' v = denotes w v.
Proof. intros H. destruct v; simpl; congruence. Qed.

Lemma agree_logged wa wb na nb wa' wb' :
  agree sa sb va vb wa wb -> logged wa na wa' -> logged wb nb wb' -> agree sa sb va vb wa' wb'.
Proof.
  intros [Hs Hv] (Ha & _) (Hb & _). unfold agree.
  rewrite (denotes_heap _ _ va Ha), (denotes_heap _ _ vb Hb), Ha, Hb. auto.
Qed.

Lemma sim_ret {A} (a : A) : sim sa sb va vb (ret a) (ret a).
Proof. intros wa wb H. auto. Qed.

Lemma sim_raise {A} e : sim sa sb va vb (@raise A e) (raise e).
Proof. intros wa wb H. auto. Qed.

Lemma sim_lift {A} (r : result A) : sim sa sb va vb (lift r) (lift r).
Proof. intros wa wb H. auto. Qed.

Lemma sim_logger level msg : sim sa sb va vb (logger level msg) (logger level msg).
Proof.
  intros wa wb H. split; [reflexivity|].
  eapply agree_logged; [exact H | apply logger_logged..].
Qed.

Lemma sim_deref : sim sa sb va vb (deref sa) (deref sb).
Proof. intros wa wb H. split; [simpl; f_equal; apply H | exact H]. Qed.

Lemma sim_target : sim sa sb va vb (target va) (target vb).
Proof.
  intros wa wb H. rewrite !target_denotes. split; [simpl; f_equal; apply H | exact H].
Qed.

Lemma sim_mbind {A B} (ma mb : M A) (ka kb : A -> M B) :
  sim sa sb va vb ma mb -> (forall a, sim sa sb va vb (ka a) (kb a)) -> sim sa sb va vb (mbind ma ka) (mbind mb kb).
Proof.
  intros Hm Hk wa wb H. unfold mbind. destruct (Hm wa wb H) as [Hr Hw].
  destruct (ma wa) as [[a|e] wa'], (mb wb) as [[b|e'] wb']; simpl in *;
    try discriminate.
  - injection Hr as <-. apply Hk, Hw.
  - injection Hr as <-. auto.
Qed.

Lemma sim_outcome_mbind {A} (ma mb : M A) (ka kb : A -> M value) :
  sim sa sb va vb ma mb -> (forall a, sim_outcome sa sb va vb (ka a) (kb a)) ->
  sim_outcome sa sb va vb (mbind ma ka) (mbind mb kb).
Proof.
  intros Hm Hk wa wb H. unfold mbind. destruct (Hm wa wb H) as [Hr Hw].
  destruct (ma wa) as [[a|e] wa'], (mb wb) as [[b|e'] wb']; simpl in *;
    try discriminate.
  - injection Hr as <-. apply Hk, Hw.
  - injection Hr as <-. reflexivity.
Qed.

Lemma sim_outcome_alloc o :
  sim_outcome sa sb va vb (do l <- alloc o; ret (VRef l)) (do l <- alloc o; ret (VRef l)).
Proof.
  intros wa wb _. unfold mbind, alloc, ret, outcome. simpl.
  rewrite !list_lookup_middle; reflexivity.
Qed.

End SideBySide.

Ltac sim_step :=
  first
    [ apply sim_ret | apply sim_raise | apply sim_lift | apply sim_logger
    | apply sim_deref | apply sim_target
    | apply sim_mbind; [| intros ?]
    | match goal with
      | |- sim _ _ _ _ (if ?b then _ else _) _ => destruct b
      | |- sim _ _ _ _ (match ?x with _ => _ end) _ => destruct x
      end ].

Section Locality.

Variables (sa sb : loc) (va vb : value).

Lemma sim_validate_input : sim sa sb va vb (_validate_input va) (_validate_input vb).
Proof. unfold _validate_input. repeat sim_step. Qed.

Lemma sim_get_record name : sim sa sb va vb (get_record va name) (get_record vb name).
Proof. unfold get_record. repeat sim_step. Qed.

Lemma sim_self_config : sim sa sb va vb (self_config sa) (self_config sb).
Proof. unfold self_config. repeat sim_step. Qed.

Lemma sim_score_module th entry vars :
  sim sa sb va vb (score_module va th entry vars) (score_module vb th entry vars).
Proof.
  destruct entry as [name f], vars as [[bd fr] tot]. unfold score_module.
  apply sim_mbind; [apply sim_get_record | intros data].
  repeat sim_step.
Qed.

Lemma sim_score_modules th dispatcher : forall vars,
  sim sa sb va vb (score_modules va th dispatcher vars)
                  (score_modules vb th dispatcher vars).
Proof.
  induction dispatcher as [|entry rest IH]; intros vars; simpl.
  - apply sim_ret.
  - apply sim_mbind; [apply sim_score_module | intros vars'; apply IH].
Qed.

(** The outcome of a call depends on the store only through the
    aggregator object and the bundle the argument denotes. *)
Lemma aggregate_scores_with_local dispatcher :
  sim_outcome sa sb va vb (aggregate_scores_with dispatcher sa va)
                          (aggregate_scores_with dispatcher sb vb).
Proof.
  unfold aggregate_scores_with.
  apply sim_outcome_mbind; [apply sim_logger | intros _].
  apply sim_outcome_mbind; [apply sim_validate_input | intros _].
  apply sim_outcome_mbind; [apply sim_self_config | intros cfg].
  apply sim_outcome_mbind; [apply sim_lift | intros th].
  apply sim_outcome_mbind; [apply sim_score_modules | intros [[bd fr] tot]].
  apply sim_outcome_alloc.
Qed.

End Locality.

(** ** Construction *)

Section ConstructionFacts.

Variable safe_load : string -> result yaml_doc.

Lemma check_modules_find c w t : forall modules,
  c.(weights) = Some w -> c.(thresholds) = Some t ->
  check_modules c modules =
    match List.find (fun r => negb (met c r))
            (flat_map (fun m => [RWeight m; RThresholds m]) modules) with
    | Some r => Err (ScoringError (complaint r))
    | None => Ok tt
    end.
Proof.
  intros modules Hw Ht. induction modules as [|m rest IH]; [reflexivity|].
  simpl. rewrite Hw, Ht. simpl.
  destruct (bool_decide (is_Some (w !! m))); simpl; [|reflexivity].
  destruct (bool_decide (is_Some (t !! m))); simpl; [|reflexivity].
  exact IH.
Qed.

(** The checks of [_validate_config] report the first unmet requirement. *)
Lemma _validate_config_eq self c w :
  w.(heap) !! self = Some (OAggregator (Some c)) ->
  _validate_config self w =
    (match first_unmet c with
     | Some r => Err (ScoringError (complaint r))
     | None => Ok tt
     end, w).
Proof.
  intros Hself. unfold _validate_config, self_config, mbind, deref, ret, lift.
  rewrite Hself. unfold first_unmet, validation_order.
  destruct c as [[w0|] [t0|]]; try reflexivity.
  cbn [check_sections has_section String.eqb Ascii.eqb Bool.eqb weights thresholds
       is_Some negb app List.find met].
  change (String.eqb "weights" "weights") with true.
  change (String.eqb "thresholds" "weights") with false.
  change (String.eqb "thresholds" "thresholds") with true.
  cbn [negb].
  rewrite !bool_decide_eq_true_2 by eauto. cbn [negb].
  rewrite (check_modules_find _ w0 t0) by reflexivity.
  destruct (List.find _ _); reflexivity.
Qed.



End ConstructionFacts.

(** ** Which exceptions a call can raise *)

Section Benign.


Lemma benignM_ret {A} (a : A) : benignM (ret a).
Proof. intros w msg. discriminate. Qed.

Lemma benignM_lift {A} (r : result A) : benign r -> benignM (lift r).
Proof. intros H w msg. apply H. Qed.

Lemma benignM_logger level msg : benignM (logger level msg).
Proof. intros w m. discriminate. Qed.

Lemma benignM_deref l : benignM (deref l).
Proof. intros w m. discriminate. Qed.

Lemma benignM_alloc o : benignM (alloc o).
Proof. intros w m. discriminate. Qed.

Lemma benignM_type_error {A} : benignM (@raise A TypeError).
Proof. intros w m. discriminate. Qed.

Lemma benignM_attribute_error {A} : benignM (@raise A AttributeError).
Proof. intros w m. discriminate. Qed.

Lemma benignM_mbind {A B} (m : M A) (k : A -> M B) :
  benignM m -> (forall a, benignM (k a)) -> benignM (mbind m k).
Proof.
  intros Hm Hk w msg. unfold mbind. specialize (Hm w msg).
  destruct (m w) as [[a|e] w1]; [apply Hk|].
  simpl in *. intros [= ->]. now apply Hm.
Qed.

End Benign.

Ltac benignM_step :=
  first
    [ apply benignM_ret | apply benignM_logger | apply benignM_deref
    | apply benignM_alloc | apply benignM_type_error
    | apply benignM_attribute_error
    | apply benignM_mbind; [| intros ?]
    | match goal with
      | |- benignM (if ?b then _ else _) => destruct b
      | |- benignM (match ?x with _ => _ end) => destruct x
      end ].

Section BenignAggregation.


Lemma benignM_target v : benignM (target v).
Proof. destruct v; simpl; benignM_step. Qed.

Lemma benignM_get_record v name : benignM (get_record v name).
Proof.
  unfold get_record. apply benignM_mbind; [apply benignM_target | intros o].
  repeat benignM_step.
Qed.

Lemma benignM_self_config self : benignM (self_config self).
Proof. unfold self_config. repeat benignM_step. Qed.

Lemma benignM_score_module v th name f vars :
  (forall data c, benign (f data c)) ->
  benignM (score_module v th (name, f) vars).
Proof.
  intros Hf. destruct vars as [[bd fr] tot]. unfold score_module.
  apply benignM_mbind; [apply benignM_get_record | intros data].
  apply benignM_mbind; [apply benignM_lift, benign_item | intros c].
  apply benignM_mbind; [| intros scored; apply benignM_ret].
  destruct (String.eqb name "toxicity");
    (apply benignM_mbind; [apply benignM_lift, Hf | intros out]);
    repeat benignM_step.
Qed.

Lemma benignM_score_modules v th dispatcher :
  benign_dispatcher dispatcher ->
  forall vars, benignM (score_modules v th dispatcher vars).
Proof.
  induction dispatcher as [|[name f] rest IH]; intros Hd vars; simpl.
  - apply benignM_ret.
  - apply benignM_mbind.
    + apply benignM_score_module. intros data c.
      apply (Hd name f). now left.
    + intros vars'. apply IH. intros n g Hin. apply (Hd n g). now right.
Qed.

Lemma benign_as_score rule :
  (forall data c, benign (rule data c)) -> forall data c, benign (as_score rule data c).
Proof.
  intros H data c. unfold as_score. apply benign_bind; [apply H|].
  intros s. apply benign_ok.
Qed.

Lemma benign_as_pair rule :
  (forall data c, benign (rule data c)) -> forall data c, benign (as_pair rule data c).
Proof.
  intros H data c. unfold as_pair. apply benign_bind; [apply H|].
  intros s. apply benign_ok.
Qed.

Lemma benign_scoring_functions : benign_dispatcher scoring_functions.
Proof.
  intros name f Hin. unfold scoring_functions in Hin. simpl in Hin.
  destruct Hin as [[= <- <-]|[[= <- <-]|[[= <- <-]|[[= <- <-]|[[= <- <-]|[[= <- <-]|[]]]]]]].
  - apply benign_as_score, benign_score_docking.
  - apply benign_as_score, benign_score_adme_pk.
  - apply benign_as_pair, benign_score_toxicity.
  - apply benign_as_score, benign_score_druggability.
  - apply benign_as_score, benign_score_drug_likeness.
  - apply benign_as_score, benign_score_off_target.
Qed.

(** The validation of an argument does not depend on the log. *)
Lemma _validate_input_logged v w entries :
  _validate_input v (with_log w entries) =
    (fst (_validate_input v w), with_log w entries).
Proof. rewrite !_validate_input_eq. destruct v; reflexivity. Qed.

(** When validation fails the call raises its error after one log
    record, whatever the dispatcher holds. *)
Lemma aggregate_scores_with_invalid dispatcher self v w e :
  fst (_validate_input v w) = Err e ->
  aggregate_scores_with dispatcher self v w =
    (Err e, with_log w (w.(log) ++ [("INFO", "Aggregating scores for compound.")])).
Proof.
  intros H. unfold aggregate_scores_with.
  unfold mbind at 1. unfold logger at 1. unfold mbind at 1.
  rewrite _validate_input_logged, H. reflexivity.
Qed.

(** When validation passes, no later step raises [ScoringError]. *)
Lemma aggregate_scores_with_valid dispatcher self v w u msg :
  benign_dispatcher dispatcher ->
  fst (_validate_input v w) = Ok u ->
  fst (aggregate_scores_with dispatcher self v w) <> Err (ScoringError msg).
Proof.
  intros Hd H. unfold aggregate_scores_with.
  unfold mbind at 1. unfold logger at 1. unfold mbind at 1.
  rewrite _validate_input_logged, H.
  apply benignM_mbind; [apply benignM_self_config | intros cfg].
  apply benignM_mbind; [apply benignM_lift, benign_item | intros th].
  apply benignM_mbind; [now apply benignM_score_modules | intros [[bd fr] tot]].
  repeat benignM_step.
Qed.

End BenignAggregation.

(** ** The result of a successful call *)

Section Results.

Lemma outcome_of_alloc (w w' : world) o :
  w'.(heap) = (w.(heap) ++ [o])%list ->
  outcome (Ok (VRef (length w.(heap))), w') = Ok (Some o).
Proof. intros H. simpl. rewrite H, list_lookup_middle; reflexivity. Qed.

(** A call that returns hands back [result_of] what the six rules
    returned on the records of the bundle. *)
Lemma aggregate_scores_result self v w res w' :
  MetaScoringAggregator.aggregate_scores self v w = (Ok res, w') ->
  exists d cfg th rs,
    denotes w v = Some (ODict d) /\
    w.(heap) !! self = Some (OAggregator (Some cfg)) /\
    cfg.(thresholds) = Some th /\
    rules_return d th rs /\
    outcome (Ok res, w') = Ok (Some (OResult (result_of rs))).
Proof.
  intros H. apply aggregate_scores_inv in H
    as (d & cfg & th & rs & Hd & _ & Hs & Hth & Hrs & -> & Hh).
  exists d, cfg, th, rs.
  split; [exact Hd|]. split; [exact Hs|]. split; [exact Hth|].
  split; [exact Hrs|]. now apply outcome_of_alloc.
Qed.

(** The same, for a caller that reads the result [r]. *)
Lemma aggregate_scores_outcome self v w r :
  outcome (MetaScoringAggregator.aggregate_scores self v w) = Ok (Some (OResult r)) ->
  exists d cfg th rs,
    denotes w v = Some (ODict d) /\
    w.(heap) !! self = Some (OAggregator (Some cfg)) /\
    cfg.(thresholds) = Some th /\
    rules_return d th rs /\
    r = result_of rs.
Proof.
  destruct (MetaScoringAggregator.aggregate_scores self v w) as [[res|e] w'] eqn:H;
    [|discriminate].
  apply aggregate_scores_result in H as (d & cfg & th & rs & Hd & Hs & Hth & Hrs & Hout).
  rewrite Hout. intros [= <-]. exists d, cfg, th, rs. auto.
Qed.

Lemma sum_values_result_of rs :
  sum_values (result_of rs).(score_breakdown) =
    rs.(s_docking) + rs.(s_adme_pk) + rs.(s_toxicity) + rs.(s_druggability)
      + rs.(s_drug_likeness) + rs.(s_off_target).
Proof. reflexivity. Qed.

Lemma rationale_of_nil failure : rationale_of failure = [] <-> truthy failure = false.
Proof. unfold rationale_of. destruct (truthy failure); split; congruence. Qed.

Lemma go_decision_result_of rs :
  (result_of rs).(go_decision) =
    if (70 <=? (result_of rs).(svs_score))%Z && negb (truthy rs.(s_failure))
    then "go" else "no-go".
Proof. unfold result_of, rationale_of. simpl. destruct (truthy _); reflexivity. Qed.

End Results.

(** ** A valid call returns *)

Section ValidCalls.

Lemma score_module_score v bl d th name rule c s bd fr tot w :
  v = VRef bl -> w.(heap) !! bl = Some (ODict d) ->
  th !! name = Some c -> String.eqb name "toxicity" = false ->
  rule (get (d !! name) empty_record) c = Ok s ->
  score_module v th (name, as_score rule) (bd, fr, tot) w =
    (Ok (dict_set bd name s, fr, tot + s), w).
Proof.
  intros -> Hd Hc Hn Hr.
  unfold score_module, get_record, target, mbind, deref, lift, ret, as_score, bind.
  rewrite Hd, Hc, Hn. simpl item. cbv beta iota. rewrite Hr. reflexivity.
Qed.

Lemma score_module_pair v bl d th rule c s fl bd fr tot w :
  v = VRef bl -> w.(heap) !! bl = Some (ODict d) ->
  th !! "toxicity" = Some c ->
  rule (get (d !! "toxicity") empty_record) c = Ok (s, fl) ->
  exists w',
    score_module v th ("toxicity", as_pair rule) (bd, fr, tot) w =
      (Ok (dict_set bd "toxicity" s, (fr ++ rationale_of fl)%list, tot + s), w') /\
    w'.(heap) = w.(heap).
Proof.
  intros -> Hd Hc Hr.
  unfold score_module, get_record, target, mbind, deref, lift, ret, as_pair, bind.
  rewrite Hd, Hc. simpl item. cbv beta iota.
  change (String.eqb "toxicity" "toxicity") with true. cbv beta iota.
  rewrite Hr. cbn [fst snd]. unfold rationale_of.
  destruct (truthy fl).
  - eexists. split; reflexivity.
  - eexists. rewrite app_nil_r. split; reflexivity.
Qed.

(** On a bundle that has the six module keys, under a configuration that
    has thresholds, when the six rules return on the records of the
    bundle, the call returns the result built from what they return. *)
Lemma aggregate_scores_returns self bl w d cfg th rs :
  w.(heap) !! bl = Some (ODict d) ->
  (forall m, In m required_modules -> is_Some (d !! m)) ->
  w.(heap) !! self = Some (OAggregator (Some cfg)) ->
  cfg.(thresholds) = Some th ->
  rules_return d th rs ->
  outcome (MetaScoringAggregator.aggregate_scores self (VRef bl) w) =
    Ok (Some (OResult (result_of rs))).
Proof.
  intros Hd Hkeys Hs Hth
    ((c1 & Hc1 & H1) & (c2 & Hc2 & H2) & (c3 & Hc3 & H3) &
     (c4 & Hc4 & H4) & (c5 & Hc5 & H5) & (c6 & Hc6 & H6)).
  unfold MetaScoringAggregator.aggregate_scores, aggregate_scores_with.
  unfold mbind at 1. unfold logger at 1.
  set (w1 := with_log w _).
  assert (Hd1 : heap w1 !! bl = Some (ODict d)) by exact Hd.
  assert (Hs1 : heap w1 !! self = Some (OAggregator (Some cfg))) by exact Hs.
  assert (Hh1 : heap w1 = heap w) by reflexivity.
  clearbody w1.
  assert (Hval : _validate_input (VRef bl) w1 = (Ok tt, w1)).
  { rewrite _validate_input_eq. simpl denotes. rewrite Hd1. simpl.
    destruct (Nat.eqb_spec (size d) 0) as [Hz|_].
    - apply map_size_empty_inv in Hz. subst d.
      destruct (Hkeys "docking" ltac:(now left)) as [x Hx].
      rewrite lookup_empty in Hx. discriminate.
    - unfold missing_modules, required_modules. simpl.
      rewrite !bool_decide_eq_true_2
        by (apply Hkeys; unfold required_modules; simpl; tauto).
      reflexivity. }
  rewrite (mbind_step _ _ _ _ _ Hval).
  assert (Hcfg : self_config self w1 = (Ok cfg, w1))
    by (unfold self_config, mbind, deref, ret; now rewrite Hs1).
  rewrite (mbind_step _ _ _ _ _ Hcfg).
  unfold lift at 1. rewrite Hth. simpl item. unfold mbind at 1.
  assert (Hloop : exists w3,
             score_modules (VRef bl) th scoring_functions ([], [], 0) w1 =
               (Ok ((result_of rs).(score_breakdown), rationale_of rs.(s_failure),
                    0 + rs.(s_docking) + rs.(s_adme_pk) + rs.(s_toxicity)
                      + rs.(s_druggability) + rs.(s_drug_likeness)
                      + rs.(s_off_target)), w3) /\
             heap w3 = heap w1).
  { unfold scoring_functions. cbn [score_modules].
    rewrite (mbind_step _ _ _ _ _
               (score_module_score (VRef bl) bl d th "docking" _ c1 _ [] [] 0 w1
                  eq_refl Hd1 Hc1 eq_refl H1)).
    simpl dict_set.
    rewrite (mbind_step _ _ _ _ _
               (score_module_score (VRef bl) bl d th "adme_pk" _ c2 _ _ _ _ w1
                  eq_refl Hd1 Hc2 eq_refl H2)).
    simpl dict_set.
    destruct (score_module_pair (VRef bl) bl d th _score_toxicity c3 _ _
                [("docking", s_docking rs); ("adme_pk", s_adme_pk rs)] []
                (0 + s_docking rs + s_adme_pk rs) w1 eq_refl Hd1 Hc3 H3)
      as (w3 & Htox & Hh3).
    rewrite (mbind_step _ _ _ _ _ Htox). simpl dict_set.
    assert (Hd3 : heap w3 !! bl = Some (ODict d)) by now rewrite Hh3.
    rewrite (mbind_step _ _ _ _ _
               (score_module_score (VRef bl) bl d th "druggability" _ c4 _ _ _ _ w3
                  eq_refl Hd3 Hc4 eq_refl H4)).
    simpl dict_set.
    rewrite (mbind_step _ _ _ _ _
               (score_module_score (VRef bl) bl d th "drug_likeness" _ c5 _ _ _ _ w3
                  eq_refl Hd3 Hc5 eq_refl H5)).
    simpl dict_set.
    rewrite (mbind_step _ _ _ _ _
               (score_module_score (VRef bl) bl d th "off_target" _ c6 _ _ _ _ w3
                  eq_refl Hd3 Hc6 eq_refl H6)).
    simpl dict_set. exists w3. split; [reflexivity | exact Hh3]. }
  destruct Hloop as (w3 & Hloop & Hh3).
  rewrite (mbind_step _ _ _ _ _ Hloop).
  unfold mbind, alloc, ret, outcome. simpl heap.
  rewrite list_lookup_middle by reflexivity. reflexivity.
Qed.

End ValidCalls.

(** ** The scenarios of the test suite, evaluated *)

Section Scenarios.

Import Examples.

Example scenario_near_perfect : outcome good_run = Ok (Some (OResult good_result)).
Proof. vm_compute. reflexivity. Qed.

Example scenario_toxicity_override :
  outcome poor_run = Ok (Some (OResult poor_result)).
Proof. vm_compute. reflexivity. Qed.

Example scenario_just_below_go :
  outcome borderline_run = Ok (Some (OResult borderline_result)).
Proof. vm_compute. reflexivity. Qed.

Example scenario_missing_modules :
  fst (MetaScoringAggregator.aggregate_scores aggregator partial (store_with 2)) =
    Err (ScoringError "Missing required modules: ['toxicity', 'off_target']").
Proof. vm_compute. reflexivity. Qed.

Example scenario_not_a_dictionary :
  fst (MetaScoringAggregator.aggregate_scores aggregator (VStr "invalid") (store_with 2)) =
    Err (ScoringError "Input must be a dictionary").
Proof. vm_compute. reflexivity. Qed.

Example scenario_empty_dictionary :
  fst (MetaScoringAggregator.aggregate_scores aggregator (VRef 5%nat)
         (with_heap (store_with 2) ((store_with 2).(heap) ++ [ODict ∅]))) =
    Err (ScoringError "Input dictionary cannot be empty").
Proof. vm_compute. reflexivity. Qed.

Example scenario_missing_file :
  fst (new parse "fake_config.yaml" (disk "full")) =
    Err (ScoringError
           "Error loading configuration: Configuration file not found: fake_config.yaml").
Proof. vm_compute. reflexivity. Qed.

Example scenario_invalid_yaml :
  fst (new parse "score_config.yaml" (disk "invalid: yaml: [")) =
    Err (ScoringError "Invalid YAML format: mapping values are not allowed here").
Proof. vm_compute. reflexivity. Qed.

Example scenario_empty_config :
  fst (new parse "score_config.yaml" (disk "")) =
    Err (ScoringError
           "Error loading configuration: Configuration file is empty or invalid").
Proof. vm_compute. reflexivity. Qed.

Example scenario_missing_section :
  fst (new parse "score_config.yaml" (disk "weights: ...")) =
    Err (ScoringError "Missing required config section: thresholds").
Proof. vm_compute. reflexivity. Qed.

Example scenario_public_function :
  outcome (scoring_aggregator.aggregate_scores parse (VRef 0%nat)
             (with_heap (disk "full") [ODict good_bundle])) =
    Ok (Some (OResult good_result)).
Proof. vm_compute. reflexivity. Qed.

End Scenarios.

(** ** Cases of the two validations *)

Section ValidationCases.

Lemma missing_modules_In o m :
  In m (missing_modules o) <-> In m required_modules /\ dict_contains o m = false.
Proof.
  unfold missing_modules. rewrite filter_In, negb_true_iff. reflexivity.
Qed.

Lemma missing_modules_nonempty o :
  missing_modules o <> [] <->
  exists m, In m required_modules /\ dict_contains o m = false.
Proof.
  split.
  - destruct (missing_modules o) as [|m l] eqn:E; [congruence|].
    intros _. exists m. apply missing_modules_In. rewrite E. now left.
  - intros (m & Hm). apply missing_modules_In in Hm.
    intros E. rewrite E in Hm. inversion Hm.
Qed.

(** Validation raises [ScoringError], and does so exactly on an invalid
    input. *)
Lemma _validate_input_cases v w :
  (invalid_input (denotes w v) /\
   exists msg, fst (_validate_input v w) = Err (ScoringError msg)) \/
  (~ invalid_input (denotes w v) /\ fst (_validate_input v w) = Ok tt).
Proof.
  rewrite _validate_input_eq. unfold invalid_input. simpl fst.
  destruct (is_dict (denotes w v)) eqn:Hd; simpl; [|left; eauto].
  destruct (Nat.eqb_spec (dict_len (denotes w v)) 0) as [Hl|Hl]; [left; eauto|].
  destruct (missing_modules (denotes w v)) as [|m l] eqn:Hm.
  - right. split; [|reflexivity].
    intros [H|[H|H]]; [discriminate | contradiction |].
    apply missing_modules_nonempty in H. contradiction.
  - left. split; [|eauto]. right. right.
    apply missing_modules_nonempty. rewrite Hm. discriminate.
Qed.

End ValidationCases.

Section ConfigCases.

Lemma find_none_all {X} (f : X -> bool) l :
  (forall x, In x l -> f x = false) -> List.find f l = None.
Proof.
  induction l as [|y l IH]; simpl; [reflexivity|]. intros H.
  rewrite (H y) by now left. apply IH. intros x Hx. apply H. now right.
Qed.








End ConfigCases.

Section Keeps.

(** A call keeps every object of the store where and as it was. *)
Lemma aggregate_scores_keeps self v w :
  let w' := snd (MetaScoringAggregator.aggregate_scores self v w) in
  (forall l o, w.(heap) !! l = Some o -> w'.(heap) !! l = Some o) /\
  w'.(heap) !! self = w.(heap) !! self /\
  denotes w' v = denotes w v.
Proof.
  cbv zeta.
  destruct (allocating_aggregate_scores_with scoring_functions self v w)
    as [(e & w1 & n & E & L)|(r & w1 & n & E & L)];
    fold (MetaScoringAggregator.aggregate_scores self v w) in E.
  - rewrite E. simpl. destruct L as (Hh & _).
    rewrite (denotes_heap _ _ v Hh), Hh. auto.
  - pose proof E as E'. apply aggregate_scores_inv in E'
      as (d & cfg & th & rs & Hd & _ & Hs & _).
    rewrite E. simpl.
    split; [intros l o Hl; now apply lookup_app_l_Some|].
    split; [rewrite Hs; now apply lookup_app_l_Some|].
    rewrite Hd. destruct v; try discriminate. simpl in *.
    now apply lookup_app_l_Some.
Qed.

End Keeps.

(** * The claims *)

Section Decision.

Import Examples.

(** C2. On every call that returns, [go_decision] is "go" if and only if
    [svs_score >= 70] and [failure_rationale] is empty, and is "no-go"
    otherwise; a raw total of exactly 69 gives [svs_score] 69 and
    "no-go"; and whenever the toxicity rule returns an override reason
    the decision is "no-go", whatever the total. *)
Theorem go_decision_iff self v w r :
  outcome (MetaScoringAggregator.aggregate_scores self v w) = Ok (Some (OResult r)) ->
  (r.(go_decision) = "go" <->
     70 <= r.(svs_score) /\ r.(failure_rationale) = []) /\
  (r.(go_decision) <> "go" -> r.(go_decision) = "no-go") /\
  (sum_values r.(score_breakdown) = 69 ->
     r.(svs_score) = 69 /\ r.(go_decision) = "no-go") /\
  (forall d cfg th c s reason,
      denotes w v = Some (ODict d) ->
      w.(heap) !! self = Some (OAggregator (Some cfg)) ->
      cfg.(thresholds) = Some th ->
      th !! "toxicity" = Some c ->
      _score_toxicity (get (d !! "toxicity") empty_record) c = Ok (s, Some reason) ->
      r.(go_decision) = "no-go").
Proof.
  intros H. apply aggregate_scores_outcome in H
    as (d & cfg & th & rs & Hd & Hs & Hth & Hrs & ->).
  rewrite go_decision_result_of.
  assert (Hnil : failure_rationale (result_of rs) = [] <-> truthy (s_failure rs) = false)
    by apply rationale_of_nil.
  split; [|split; [|split]].
  - rewrite Hnil.
    destruct (Z.leb_spec 70 (svs_score (result_of rs))) as [Hge|Hlt];
      destruct (truthy (s_failure rs)); cbn [andb negb]; split; intros Hgo;
      try discriminate; try reflexivity;
      try (destruct Hgo; first [discriminate | lia]); auto.
  - destruct (_ && _); [congruence | reflexivity].
  - intros Hsum. rewrite sum_values_result_of in Hsum.
    assert (Hsvs : svs_score (result_of rs) = 69)
      by (unfold result_of, int; simpl; lia).
    rewrite Hsvs. split; reflexivity.
  - intros d' cfg' th' c s reason Hd' Hs' Hth' Hc Htox.
    rewrite Hd in Hd'. injection Hd' as <-.
    rewrite Hs in Hs'. injection Hs' as <-.
    rewrite Hth in Hth'. injection Hth' as <-.
    destruct Hrs as (_ & _ & (c3 & Hc3 & Hr3) & _).
    rewrite Hc in Hc3. injection Hc3 as <-.
    rewrite Htox in Hr3. injection Hr3 as -> Hfail.
    pose proof (_score_toxicity_reason _ _ _ Htox reason eq_refl) as Ht.
    rewrite <- Hfail, Ht, andb_false_r. reflexivity.
Qed.

Lemma go_decision_iff_witness :
  outcome borderline_run = Ok (Some (OResult borderline_result)) /\
  (borderline_result.(go_decision) = "go" <->
     70 <= borderline_result.(svs_score) /\ borderline_result.(failure_rationale) = []) /\
  (borderline_result.(go_decision) <> "go" -> borderline_result.(go_decision) = "no-go") /\
  (sum_values borderline_result.(score_breakdown) = 69 ->
     borderline_result.(svs_score) = 69 /\ borderline_result.(go_decision) = "no-go") /\
  (forall d cfg th c s reason,
      denotes (store_with 2) borderline = Some (ODict d) ->
      (store_with 2).(heap) !! aggregator = Some (OAggregator (Some cfg)) ->
      cfg.(thresholds) = Some th ->
      th !! "toxicity" = Some c ->
      _score_toxicity (get (d !! "toxicity") empty_record) c = Ok (s, Some reason) ->
      borderline_result.(go_decision) = "no-go").
Proof.
  split; [vm_compute; reflexivity|].
  apply (go_decision_iff aggregator borderline (store_with 2)).
  vm_compute. reflexivity.
Defined.

End Decision.

Section ScoreFloors.

Import Examples.

(** C3, as stated, fails: with a druggability bonus of [-3] in the
    configuration, a compound with a low pocket score and a large
    hydrophobic pocket gets the druggability score [-3]. *)
Lemma negative_bonus_score_below_zero :
  exists r,
    outcome negative_run = Ok (Some (OResult r)) /\
    In ("druggability", -3) r.(score_breakdown) /\
    ~ (forall name s, In (name, s) r.(score_breakdown) -> 0 <= s).
Proof.
  eexists. split; [vm_compute; reflexivity|]. split.
  - simpl. tauto.
  - intros H. specialize (H "druggability" (-3)). simpl in H.
    assert (0 <= -3) by (apply H; tauto). lia.
Qed.

(** C3, amended.  On every call that returns, the scores of [docking],
    [adme_pk] and [toxicity], which end in [max(score, 0)], are not
    negative; [druggability], [drug_likeness] and [off_target] return
    their score without a floor, and every score of the breakdown is not
    negative when the configured bonuses and table entries are not. *)
Theorem module_scores_nonnegative self v w r cfg th :
  outcome (MetaScoringAggregator.aggregate_scores self v w) = Ok (Some (OResult r)) ->
  w.(heap) !! self = Some (OAggregator (Some cfg)) ->
  cfg.(thresholds) = Some th ->
  (forall name s, In (name, s) r.(score_breakdown) ->
     In name ["docking"; "adme_pk"; "toxicity"] -> 0 <= s) /\
  (nonnegative_bonuses th ->
     forall name s, In (name, s) r.(score_breakdown) -> 0 <= s).
Proof.
  intros H Hs' Hth'. apply aggregate_scores_outcome in H
    as (d & cfg0 & th0 & rs & Hd & Hs & Hth & Hrs & ->).
  rewrite Hs in Hs'. injection Hs' as <-.
  rewrite Hth in Hth'. injection Hth' as <-.
  destruct Hrs as ((c1 & Hc1 & H1) & (c2 & Hc2 & H2) & (c3 & Hc3 & H3) &
                   (c4 & Hc4 & H4) & (c5 & Hc5 & H5) & (c6 & Hc6 & H6)).
  apply _score_docking_floor in H1. apply _score_adme_pk_floor in H2.
  apply _score_toxicity_floor in H3. simpl in H3.
  apply _score_druggability_bound in H4.
  apply _score_drug_likeness_bound in H5.
  apply _score_off_target_bound in H6.
  split.
  - intros name s Hin Hname. simpl in Hin, Hname.
    destruct Hin as [[= <- <-]|[[= <- <-]|[[= <- <-]|[[= <- <-]|[[= <- <-]|[[= <- <-]|[]]]]]]];
      try assumption;
      destruct Hname as [E|[E|[E|[]]]]; discriminate E.
  - intros (Hb4 & Hb6 & Hb5) name s Hin. simpl in Hin.
    destruct Hin as [[= <- <-]|[[= <- <-]|[[= <- <-]|[[= <- <-]|[[= <- <-]|[[= <- <-]|[]]]]]]];
      try assumption.
    + destruct H4 as [?|(b & Hb & Hle)]; [assumption|].
      specialize (Hb4 c4 b Hc4 Hb). lia.
    + destruct H5 as [->|(tbl & k & Htbl & Hk)]; [lia|].
      exact (Hb5 c5 tbl k _ Hc5 Htbl Hk).
    + destruct H6 as [?|(b & Hb & Hle)]; [assumption|].
      specialize (Hb6 c6 b Hc6 Hb). lia.
Qed.

Lemma module_scores_nonnegative_witness :
  outcome good_run = Ok (Some (OResult good_result)) /\
  (forall name s, In (name, s) good_result.(score_breakdown) ->
     In name ["docking"; "adme_pk"; "toxicity"] -> 0 <= s) /\
  (nonnegative_bonuses (thresholds_with 2) ->
     forall name s, In (name, s) good_result.(score_breakdown) -> 0 <= s).
Proof.
  split; [vm_compute; reflexivity|].
  apply (module_scores_nonnegative aggregator good (store_with 2) good_result
           (config_with 2) (thresholds_with 2));
    [vm_compute; reflexivity | reflexivity | reflexivity].
Defined.

End ScoreFloors.

Section ToxicityRule.

Import Examples.

Lemma eqb_one_not_zero n : eqb n (of_Z 1) = true -> eqb n (of_Z 0) = false.
Proof.
  unfold of_Z. destruct n as [|q|]; simpl; try discriminate.
  rewrite Qeq_bool_iff. intros E. apply not_true_iff_false.
  rewrite Qeq_bool_iff, E. discriminate.
Qed.

(** C4, as stated, fails: with [max_flags_allowed] 0, one flagged model
    exceeds the maximum, yet the rule scores 10 and gives no override
    reason, because the test for exactly one flag comes first. *)
Lemma one_flag_above_zero_max_not_overridden :
  let data := toxicity_record 1 [] in
  let c := toxicity_thresholds 0 [] in
  gtb (get data.(num_models_flagged) (of_Z 0)) (of_Z 0) = true /\
  _score_toxicity data c = Ok (10, None) /\
  _score_toxicity data c <> Ok (0, Some ">0 toxicity models flagged").
Proof.
  split; [vm_compute; reflexivity|]. split; [vm_compute; reflexivity|].
  vm_compute. discriminate.
Qed.

(** C4, amended.  For every toxicity record and every toxicity
    configuration (with maximum [mx] and override list [ov]) the rule
    returns [max(base - 10 * k, 0)], where [k] counts the entries of
    [high_risk_models] that are in [ov], and the base reason merged with
    the reason that lists those entries (joined by "; " when both are
    present).  The base is 20 for 0 flags and 10 for exactly 1 flag, with
    no reason; for a count that is neither 0 nor 1 and exceeds [mx] (in
    particular for any count above [mx] when [mx >= 1]) it is 0 with the
    reason ">{mx} toxicity models flagged"; for a count between 2 and
    [mx] it is 0 with no reason. *)
Theorem _score_toxicity_cases data c mx ov :
  c.(max_flags_allowed) = Some mx ->
  c.(override_models) = Some ov ->
  let n := get data.(num_models_flagged) (of_Z 0) in
  let hits := List.filter (fun m => str_in m ov) (get data.(high_risk_models) []) in
  let over := Some (">" +:+ str mx +:+ " toxicity models flagged") in
  exists base base_reason,
    _score_toxicity data c =
      Ok (Z.max (base - 10 * Z.of_nat (length hits)) 0,
          merged_reason base_reason hits) /\
    (eqb n (of_Z 0) = true -> base = 20 /\ base_reason = None) /\
    (eqb n (of_Z 1) = true -> base = 10 /\ base_reason = None) /\
    (eqb n (of_Z 0) = false -> eqb n (of_Z 1) = false -> gtb n (of_Z mx) = true ->
       base = 0 /\ base_reason = over) /\
    (1 <= mx -> gtb n (of_Z mx) = true -> base = 0 /\ base_reason = over) /\
    (leb (of_Z 2) n = true -> leb n (of_Z mx) = true ->
       base = 0 /\ base_reason = None).
Proof.
  intros Hmx Hov n hits over.
  pose proof (_score_toxicity_eq data c mx ov Hmx Hov) as Heq.
  cbv zeta in Heq. fold n hits in Heq.
  pose proof (eqb_one_not_zero n) as H10.
  pose proof (between_falls_through n mx) as Hbetween.
  pose proof (above_max_not_small n mx) as Habove.
  destruct (eqb n (of_Z 0)) eqn:E0; [|destruct (eqb n (of_Z 1)) eqn:E1;
    [|destruct (gtb n (of_Z mx)) eqn:Eg]]; simpl in Heq.
  - exists 20, None. split; [exact Heq|].
    split; [auto|]. split; [intros H1; apply H10 in H1; discriminate|].
    split; [discriminate|].
    split; [intros A B; destruct (Habove A B); discriminate|].
    intros A B. destruct (Hbetween A B) as (X & _). discriminate.
  - exists 10, None. split; [exact Heq|].
    split; [discriminate|]. split; [auto|].
    split; [discriminate|].
    split; [intros A B; destruct (Habove A B); discriminate|].
    intros A B. destruct (Hbetween A B) as (_ & X & _). discriminate.
  - exists 0, over. split; [exact Heq|].
    split; [discriminate|]. split; [discriminate|].
    split; [auto|]. split; [auto|].
    intros A B. destruct (Hbetween A B) as (_ & _ & X). discriminate.
  - exists 0, None. split; [exact Heq|].
    split; [discriminate|]. split; [discriminate|].
    split; [discriminate|]. split; [discriminate|]. auto.
Qed.

Lemma _score_toxicity_cases_witness :
  let data := toxicity_record 4 ["DILIrank"; "ProTox-II"] in
  let c := toxicity_thresholds 3 ["DILIrank"; "ProTox-II"] in
  let n := get data.(num_models_flagged) (of_Z 0) in
  let hits :=
    List.filter (fun m => str_in m ["DILIrank"; "ProTox-II"])
      (get data.(high_risk_models) []) in
  let over := Some (">" +:+ str 3 +:+ " toxicity models flagged") in
  exists base base_reason,
    _score_toxicity data c =
      Ok (Z.max (base - 10 * Z.of_nat (length hits)) 0,
          merged_reason base_reason hits) /\
    (eqb n (of_Z 0) = true -> base = 20 /\ base_reason = None) /\
    (eqb n (of_Z 1) = true -> base = 10 /\ base_reason = None) /\
    (eqb n (of_Z 0) = false -> eqb n (of_Z 1) = false -> gtb n (of_Z 3) = true ->
       base = 0 /\ base_reason = over) /\
    (1 <= 3 -> gtb n (of_Z 3) = true -> base = 0 /\ base_reason = over) /\
    (leb (of_Z 2) n = true -> leb n (of_Z 3) = true ->
       base = 0 /\ base_reason = None).
Proof.
  apply (_score_toxicity_cases
           (toxicity_record 4 ["DILIrank"; "ProTox-II"])
           (toxicity_thresholds 3 ["DILIrank"; "ProTox-II"])
           3 ["DILIrank"; "ProTox-II"]); reflexivity.
Defined.

End ToxicityRule.

Section InputErrors.

Import Examples.

(** C5. A scoring call raises the input error exactly when the argument
    is not a dictionary, is an empty dictionary, or misses one or more
    of the six module keys; for missing keys the one error lists all of
    them, in the order of [required_modules]; and on such an argument
    the call raises after its first log record, with the heap as it was
    and the same for every dispatcher table, so no scoring function has
    run. *)
Theorem input_error_exactly_when self v w :
  let o := denotes w v in
  let call := MetaScoringAggregator.aggregate_scores self v w in
  ((exists msg, fst call = Err (ScoringError msg)) <-> invalid_input o) /\
  (is_dict o = true -> dict_len o <> 0%nat -> missing_modules o <> [] ->
     fst call =
       Err (ScoringError ("Missing required modules: " +:+
                          repr_list (missing_modules o)))) /\
  (forall m, In m (missing_modules o) <->
             In m required_modules /\ dict_contains o m = false) /\
  (invalid_input o ->
     exists msg, forall dispatcher,
       aggregate_scores_with dispatcher self v w =
         (Err (ScoringError msg),
          with_log w (w.(log) ++ [("INFO", "Aggregating scores for compound.")]))).
Proof.
  cbv zeta. unfold MetaScoringAggregator.aggregate_scores.
  split; [|split; [|split]].
  - split.
    + intros (msg & H).
      destruct (_validate_input_cases v w) as [(Hi & _)|(_ & Hok)]; [exact Hi|].
      exfalso.
      eapply aggregate_scores_with_valid;
        [apply benign_scoring_functions | exact Hok | exact H].
    + intros Hi.
      destruct (_validate_input_cases v w) as [(_ & msg & He)|(Hn & _)];
        [|contradiction].
      exists msg.
      now rewrite (aggregate_scores_with_invalid _ _ _ _ _ He).
  - intros Hd Hl Hm.
    assert (He : fst (_validate_input v w) =
                 Err (ScoringError ("Missing required modules: " +:+
                                    repr_list (missing_modules (denotes w v))))).
    { rewrite _validate_input_eq, Hd. simpl.
      apply Nat.eqb_neq in Hl. rewrite Hl.
      destruct (missing_modules (denotes w v)); [congruence | reflexivity]. }
    now rewrite (aggregate_scores_with_invalid _ _ _ _ _ He).
  - intros m. apply missing_modules_In.
  - intros Hi.
    destruct (_validate_input_cases v w) as [(_ & msg & He)|(Hn & _)];
      [|contradiction].
    exists msg. intros dispatcher.
    apply aggregate_scores_with_invalid, He.
Qed.

End InputErrors.

Section DrugLikenessClamp.

Import Examples.

(** C7. For every drug-likeness configuration whose table has largest
    key [K] and every violation count above [K] (the default, infinity,
    included), the score is the score of a count of exactly [K], which
    is the table's entry for [K]; and whenever the count, clamped down
    to [K], is not a key of the table, the score is 0. *)
Theorem drug_likeness_clamps_to_largest_key data data_K c tbl K :
  c.(score_by_violations) = Some tbl ->
  is_largest_key tbl K ->
  ltb (of_Z K) (get data.(num_violations) PosInf) = true ->
  data_K.(num_violations) = Some (of_Z K) ->
  _score_drug_likeness data c = _score_drug_likeness data_K c /\
  _score_drug_likeness data_K c = Ok (get (tbl !! K) 0) /\
  (forall other,
      (forall k, to_key (min (get other.(num_violations) PosInf) (of_Z K)) = Some k ->
                 tbl !! k = None) ->
      _score_drug_likeness other c = Ok 0).
Proof.
  intros Htbl HK Hv HvK.
  rewrite !(_score_drug_likeness_eq _ c tbl K Htbl HK).
  rewrite HvK. simpl get at 2 3. rewrite (min_above _ _ Hv), min_same.
  unfold table_get. rewrite to_key_of_Z.
  split; [reflexivity|]. split; [reflexivity|].
  intros other Hk. rewrite (_score_drug_likeness_eq _ c tbl K Htbl HK).
  unfold table_get.
  destruct (to_key _) as [k|]; [|reflexivity].
  now rewrite (Hk k eq_refl).
Qed.

Lemma drug_likeness_clamps_to_largest_key_witness :
  let c := drug_likeness_thresholds violations_table in
  _score_drug_likeness (drug_likeness_record 99) c =
    _score_drug_likeness (drug_likeness_record 5) c /\
  _score_drug_likeness (drug_likeness_record 5) c =
    Ok (get (violations_table !! 5) 0) /\
  (forall other,
      (forall k, to_key (min (get other.(num_violations) PosInf) (of_Z 5)) = Some k ->
                 violations_table !! k = None) ->
      _score_drug_likeness other c = Ok 0).
Proof.
  apply (drug_likeness_clamps_to_largest_key
           (drug_likeness_record 99) (drug_likeness_record 5)
           (drug_likeness_thresholds violations_table) violations_table 5).
  - reflexivity.
  - apply max_key_largest. vm_compute. reflexivity.
  - vm_compute. reflexivity.
  - reflexivity.
Defined.

End DrugLikenessClamp.

Section Determinism.

Import Examples.

(** C8. Scoring is deterministic and carries no state from call to
    call: a second call with the same aggregator and the same argument,
    made in the store the first call left, ends in the same exception or
    in a result dictionary with the same contents; and so does a call in
    any other store that holds the same aggregator object and the same
    bundle, whatever its log, its files and its other objects are. *)
Theorem aggregation_deterministic self v w :
  let first := MetaScoringAggregator.aggregate_scores self v w in
  let second := MetaScoringAggregator.aggregate_scores self v (snd first) in
  outcome second = outcome first /\
  (forall self' v' w',
      w'.(heap) !! self' = w.(heap) !! self ->
      denotes w' v' = denotes w v ->
      outcome (MetaScoringAggregator.aggregate_scores self' v' w') = outcome first).
Proof.
  cbv zeta. split.
  - apply (aggregate_scores_with_local self self v v scoring_functions).
    destruct (aggregate_scores_keeps self v w) as (_ & Hs & Hv).
    split; assumption.
  - intros self' v' w' Hs Hv.
    apply (aggregate_scores_with_local self' self v' v scoring_functions).
    split; assumption.
Qed.

End Determinism.

Section Frame.

Import Examples.

(** C9. A scoring call, whether it returns or raises, leaves every
    object of the store as it was, among them the aggregator with its
    configuration and the bundle it was given, and leaves the files as
    they were.  When it raises it creates nothing; when it returns, the
    result is one new object at a location that was free, and a further
    call returns yet another location. *)
Theorem aggregate_scores_frame self v w :
  let call := MetaScoringAggregator.aggregate_scores self v w in
  let w' := snd call in
  (forall l o, w.(heap) !! l = Some o -> w'.(heap) !! l = Some o) /\
  w'.(heap) !! self = w.(heap) !! self /\
  denotes w' v = denotes w v /\
  w'.(files) = w.(files) /\
  match fst call with
  | Ok res =>
      res = VRef (length w.(heap)) /\
      w.(heap) !! length w.(heap) = None /\
      exists r, w'.(heap) = (w.(heap) ++ [OResult r])%list
  | Err _ => w'.(heap) = w.(heap)
  end /\
  (forall res res',
      fst call = Ok res ->
      fst (MetaScoringAggregator.aggregate_scores self v w') = Ok res' ->
      res' <> res).
Proof.
  cbv zeta.
  destruct (aggregate_scores_keeps self v w) as (Hall & Hs & Hv).
  split; [exact Hall|]. split; [exact Hs|]. split; [exact Hv|].
  destruct (allocating_aggregate_scores_with scoring_functions self v w)
    as [(e & w1 & n & E & L)|(r & w1 & n & E & L)];
    fold (MetaScoringAggregator.aggregate_scores self v w) in E; rewrite E; simpl.
  - destruct L as (Hh & Hf & _). split; [exact Hf|]. split; [exact Hh|].
    discriminate.
  - destruct L as (Hh & Hf & _). split; [exact Hf|].
    split.
    + split; [reflexivity|]. split; [now apply lookup_ge_None_2 | eauto].
    + intros res res' [= <-] H2.
      destruct (allocating_aggregate_scores_with scoring_functions self v
                  (with_heap w1 (heap w ++ [OResult r])))
        as [(e2 & w2 & n2 & E2 & _)|(r2 & w2 & n2 & E2 & _)];
        fold (MetaScoringAggregator.aggregate_scores self v
                (with_heap w1 (heap w ++ [OResult r]))) in E2;
        rewrite E2 in H2; simpl in H2; [discriminate|].
      injection H2 as <-. rewrite length_app. simpl. intros [= H]. lia.
Qed.

End Frame.

Section Rationale.

Import Examples.

(** C10. On every call that returns, [failure_rationale] holds at most
    one string; an entry starts with "Toxicity override triggered: ";
    and the list is exactly what the one run of the toxicity rule gives:
    empty when the rule returns no reason, and the single prefixed entry
    when it returns one, in which the rule has already merged its
    conditions. *)
Theorem failure_rationale_at_most_one self v w r :
  outcome (MetaScoringAggregator.aggregate_scores self v w) = Ok (Some (OResult r)) ->
    (length r.(failure_rationale) <= 1)%nat /\
    (forall entry, In entry r.(failure_rationale) ->
       exists reason, entry = "Toxicity override triggered: " +:+ reason) /\
    (forall d cfg th c s failure,
        denotes w v = Some (ODict d) ->
        w.(heap) !! self = Some (OAggregator (Some cfg)) ->
        cfg.(thresholds) = Some th ->
        th !! "toxicity" = Some c ->
        _score_toxicity (get (d !! "toxicity") empty_record) c = Ok (s, failure) ->
        r.(failure_rationale) =
          match failure with
          | Some reason => ["Toxicity override triggered: " +:+ reason]
          | None => []
          end).
Proof.
  intros H. apply aggregate_scores_outcome in H
    as (d & cfg & th & rs & Hd & Hs & Hth & Hrs & ->).
  change (failure_rationale (result_of rs)) with (rationale_of (s_failure rs)).
  split; [|split].
  - unfold rationale_of. destruct (truthy _); simpl; lia.
  - unfold rationale_of. destruct (truthy _); simpl; [|tauto].
    intros entry [<-|[]]. eauto.
  - intros d' cfg' th' c s failure Hd' Hs' Hth' Hc Htox.
    rewrite Hd in Hd'. injection Hd' as <-.
    rewrite Hs in Hs'. injection Hs' as <-.
    rewrite Hth in Hth'. injection Hth' as <-.
    destruct Hrs as (_ & _ & (c3 & Hc3 & Hr3) & _).
    rewrite Hc in Hc3. injection Hc3 as <-.
    rewrite Htox in Hr3. injection Hr3 as -> ->.
    unfold rationale_of. destruct (s_failure rs) as [reason|] eqn:Hf; [|reflexivity].
    rewrite (_score_toxicity_reason _ _ _ Htox reason eq_refl). reflexivity.
Qed.

Lemma failure_rationale_at_most_one_witness :
  outcome poor_run = Ok (Some (OResult poor_result)) /\
  (length poor_result.(failure_rationale) <= 1)%nat /\
  (forall entry, In entry poor_result.(failure_rationale) ->
     exists reason, entry = "Toxicity override triggered: " +:+ reason) /\
  (forall d cfg th c s failure,
      denotes (store_with 2) poor = Some (ODict d) ->
      (store_with 2).(heap) !! aggregator = Some (OAggregator (Some cfg)) ->
      cfg.(thresholds) = Some th ->
      th !! "toxicity" = Some c ->
      _score_toxicity (get (d !! "toxicity") empty_record) c = Ok (s, failure) ->
      poor_result.(failure_rationale) =
        match failure with
        | Some reason => ["Toxicity override triggered: " +:+ reason]
        | None => []
        end).
Proof.
  split; [vm_compute; reflexivity|].
  apply (failure_rationale_at_most_one aggregator poor (store_with 2)).
  vm_compute. reflexivity.
Defined.

End Rationale.

(** * Further properties of the rules *)

Section NumOrder.

Lemma leb_ltb_trans a b c : leb a b = true -> ltb b c = true -> ltb a c = true.
Proof.
  destruct a as [|x|], b as [|y|], c as [|z|]; simpl; try discriminate; auto.
  rewrite Qle_bool_iff, !Qlt_bool_iff. apply Qle_lt_trans.
Qed.

Lemma ltb_leb_trans a b c : ltb a b = true -> leb b c = true -> ltb a c = true.
Proof.
  destruct a as [|x|], b as [|y|], c as [|z|]; simpl; try discriminate; auto.
  rewrite Qle_bool_iff, !Qlt_bool_iff. apply Qlt_le_trans.
Qed.

Lemma leb_trans a b c : leb a b = true -> leb b c = true -> leb a c = true.
Proof.
  destruct a as [|x|], b as [|y|], c as [|z|]; simpl; try discriminate; auto.
  rewrite !Qle_bool_iff. apply Qle_trans.
Qed.

End NumOrder.

Section Docking.

(** The rule on a configuration that has its five keys, in closed form. *)
Lemma _score_docking_eq data c a hi med lo rmax minp :
  c.(affinity) = Some a -> a.(high) = Some hi -> a.(medium) = Some med ->
  a.(low) = Some lo -> c.(rmsd_max) = Some rmax -> c.(min_poses) = Some minp ->
  _score_docking data c =
    Ok (Z.max
          (docking_base (get data.(affinity_kcal) (of_Z 0)) hi med lo
           - (if gtb (get data.(rmsd) PosInf) rmax
                 || ltb (get data.(num_converged_poses) (of_Z 0)) minp
              then 5 else 0)) 0).
Proof.
  intros Ha Hhi Hmed Hlo Hr Hp. unfold _score_docking, docking_base.
  rewrite Ha, Hr, Hp. simpl item. cbv beta iota delta [bind].
  rewrite Hhi, Hmed, Hlo. simpl item. cbv beta iota.
  destruct (ltb _ hi); [|destruct (ltb _ med); [|destruct (ltb _ lo)]];
    destruct (gtb _ rmax); destruct (ltb _ minp); simpl; f_equal; lia.
Qed.

(** X1. Whatever the record and the thresholds, a docking score is one of
    0, 5, 10, 15, 20 and 25. *)
Theorem _score_docking_values data c s :
  _score_docking data c = Ok s -> In s [0; 5; 10; 15; 20; 25].
Proof.
  unfold _score_docking. cbv zeta.
  destruct (affinity c) as [a|]; [|discriminate]. simpl item. cbv beta iota delta [bind].
  destruct (high a) as [hi|]; [|discriminate]. simpl item. cbv beta iota.
  assert (Hpen : forall b, In b [0; 10; 20; 25] ->
            (let* penalised
              := let* rmax := item (rmsd_max c) "rmsd_max"
                 in if gtb (get (rmsd data) PosInf) rmax
                    then Ok true
                    else let* minp := item (min_poses c) "min_poses"
                         in Ok (ltb (get (num_converged_poses data) (of_Z 0)) minp)
              in Ok (Z.max (if penalised : bool then b - 5 else b) 0)) = Ok s ->
            In s [0; 5; 10; 15; 20; 25]).
  { intros b Hb. unfold bind.
    destruct (rmsd_max c) as [rmax|]; [|discriminate]. simpl item. cbv beta iota.
    destruct (gtb _ rmax).
    - intros [= <-]. simpl in Hb.
      destruct Hb as [<-|[<-|[<-|[<-|[]]]]]; simpl; tauto.
    - destruct (min_poses c) as [minp|]; [|discriminate]. simpl item. cbv beta iota.
      intros [= <-]. simpl in Hb.
      destruct (ltb _ minp); destruct Hb as [<-|[<-|[<-|[<-|[]]]]]; simpl; tauto. }
  destruct (ltb _ hi); [apply Hpen; simpl; tauto|].
  destruct (medium a) as [med|]; [|discriminate]. simpl item. cbv beta iota.
  destruct (ltb _ med); [apply Hpen; simpl; tauto|].
  destruct (low a) as [lo|]; [|discriminate]. simpl item. cbv beta iota.
  destruct (ltb _ lo); apply Hpen; simpl; tauto.
Qed.

End Docking.

Section DockingOrder.

Import Examples.

Lemma _score_docking_values_witness :
  _score_docking (docking_record (-9.5) 10 5) (docking_thresholds (-9) (-8) (-7) 3 3)
    = Ok 20 /\
  In 20 [0; 5; 10; 15; 20; 25].
Proof.
  split; [vm_compute; reflexivity|].
  apply (_score_docking_values (docking_record (-9.5) 10 5)
           (docking_thresholds (-9) (-8) (-7) 3 3) 20).
  vm_compute; reflexivity.
Defined.

(** X2. A stronger (lower) binding affinity never scores less: of two
    docking records with the same rmsd and the same number of poses,
    scored under the same thresholds, the one whose affinity is not
    larger gets at least the score of the other. *)
Theorem _score_docking_antitone d1 d2 c s1 s2 :
  leb (get d1.(affinity_kcal) (of_Z 0)) (get d2.(affinity_kcal) (of_Z 0)) = true ->
  d1.(rmsd) = d2.(rmsd) ->
  d1.(num_converged_poses) = d2.(num_converged_poses) ->
  _score_docking d1 c = Ok s1 ->
  _score_docking d2 c = Ok s2 ->
  s2 <= s1.
Proof.
  intros Hle Hr Hp. unfold _score_docking. cbv zeta. rewrite Hr, Hp.
  set (a1 := get (affinity_kcal d1) (of_Z 0)) in *.
  set (a2 := get (affinity_kcal d2) (of_Z 0)) in *.
  generalize (let* rmax := item (rmsd_max c) "rmsd_max"
              in if gtb (get (rmsd d2) PosInf) rmax
                 then Ok true
                 else let* minp := item (min_poses c) "min_poses"
                      in Ok (ltb (get (num_converged_poses d2) (of_Z 0)) minp)).
  intros pen.
  pose proof (leb_ltb_trans a1 a2) as T. specialize (fun x => T x Hle).
  destruct (affinity c) as [a|]; [|discriminate]. simpl item.
  cbv beta iota delta [bind].
  destruct (high a) as [hi|]; [|discriminate]. simpl item. cbv beta iota.
  pose proof (T hi) as Thi.
  destruct (ltb a2 hi).
  { rewrite Thi by reflexivity. destruct pen as [[|]|]; [| |discriminate];
      intros [= <-] [= <-]; lia. }
  clear Thi.
  destruct (medium a) as [med|];
    [|destruct (ltb a1 hi); simpl; [destruct pen; discriminate | discriminate]].
  simpl item. cbv beta iota.
  pose proof (T med) as Tmed.
  destruct (ltb a2 med).
  { rewrite Tmed by reflexivity.
    destruct (ltb a1 hi); destruct pen as [[|]|]; try discriminate;
      intros [= <-] [= <-]; lia. }
  clear Tmed.
  destruct (low a) as [lo|];
    [|destruct (ltb a1 hi), (ltb a1 med); simpl; try discriminate;
      destruct pen; discriminate].
  simpl item. cbv beta iota.
  pose proof (T lo) as Tlo.
  destruct (ltb a2 lo).
  { rewrite Tlo by reflexivity.
    destruct (ltb a1 hi), (ltb a1 med); destruct pen as [[|]|]; try discriminate;
      intros [= <-] [= <-]; lia. }
  destruct (ltb a1 hi), (ltb a1 med), (ltb a1 lo); destruct pen as [[|]|];
    try discriminate; intros [= <-] [= <-]; lia.
Qed.

Lemma _score_docking_antitone_witness :
  let c := docking_thresholds (-9) (-8) (-7) 3 3 in
  _score_docking (docking_record (-9.5) 1.5 5) c = Ok 25 /\
  _score_docking (docking_record (-8.5) 1.5 5) c = Ok 20 /\
  20 <= 25.
Proof.
  split; [vm_compute; reflexivity|]. split; [vm_compute; reflexivity|].
  apply (_score_docking_antitone (docking_record (-9.5) 1.5 5)
           (docking_record (-8.5) 1.5 5) (docking_thresholds (-9) (-8) (-7) 3 3));
    vm_compute; reflexivity.
Defined.

(** X3. A docking record without an [rmsd] is always penalised when
    [rmsd_max] is finite (the default is infinity, which exceeds it):
    whatever its own poses, it scores exactly 5 less, floored at 0, than
    a record with the same affinity whose rmsd and poses are
    acceptable. *)
Theorem _score_docking_missing_rmsd data data' c q minp s' :
  data.(rmsd) = None ->
  c.(rmsd_max) = Some (Fin q) ->
  data'.(affinity_kcal) = data.(affinity_kcal) ->
  gtb (get data'.(rmsd) PosInf) (Fin q) = false ->
  c.(min_poses) = Some minp ->
  ltb (get data'.(num_converged_poses) (of_Z 0)) minp = false ->
  _score_docking data' c = Ok s' ->
  _score_docking data c = Ok (Z.max (s' - 5) 0).
Proof.
  intros Hr Hmax Ha Hok Hmin Hposes. unfold _score_docking. cbv zeta.
  rewrite Hr, Hmax, Hmin, Ha. simpl item. cbv beta iota delta [bind].
  rewrite Hok, Hposes. simpl gtb. cbv beta iota.
  destruct (affinity c) as [a|]; [|discriminate]. simpl item. cbv beta iota.
  destruct (high a) as [hi|]; [|discriminate]. simpl item. cbv beta iota.
  destruct (ltb _ hi); [intros [= <-]; reflexivity|].
  destruct (medium a) as [med|]; [|discriminate]. simpl item. cbv beta iota.
  destruct (ltb _ med); [intros [= <-]; reflexivity|].
  destruct (low a) as [lo|]; [|discriminate]. simpl item. cbv beta iota.
  destruct (ltb _ lo); intros [= <-]; reflexivity.
Qed.

Lemma _score_docking_missing_rmsd_witness :
  let c := docking_thresholds (-9) (-8) (-7) 3 3 in
  _score_docking (docking_record (-9.5) 1.5 5) c = Ok 25 /\
  _score_docking MoreExamples.docking_without_rmsd c = Ok 20.
Proof.
  cbv zeta. split; [vm_compute; reflexivity|].
  apply (_score_docking_missing_rmsd MoreExamples.docking_without_rmsd
           (docking_record (-9.5) 1.5 5)
           (docking_thresholds (-9) (-8) (-7) 3 3) 3 (Fin 3) 25);
    [reflexivity | reflexivity | reflexivity | vm_compute; reflexivity
    | reflexivity | vm_compute; reflexivity | vm_compute; reflexivity].
Defined.

End DockingOrder.

Section AdmePk.

Import Examples.

(** X4. An ADME/PK score is never negative; without reported CYP
    inhibition it is one of 0, 5, 10, 15 and 20, and with it the score is
    at most 20 plus the configured penalty (which the rule adds, so a
    positive "penalty" raises the score above 20). *)
Theorem _score_adme_pk_values data c s :
  _score_adme_pk data c = Ok s ->
  0 <= s /\
  (get data.(CYP_inhibition) false = false -> In s [0; 5; 10; 15; 20]) /\
  (get data.(CYP_inhibition) false = true ->
   exists p, c.(cyp_inhibition_penalty) = Some p /\ s <= Z.max (20 + p) 0).
Proof.
  unfold _score_adme_pk. cbv zeta.
  destruct (let* r := item (logP_range c) "logP_range" in _) as [b1|];
    [|discriminate].
  cbv beta iota delta [bind].
  destruct (item (half_life_min c) "half_life_min") as [hmin|]; [|discriminate].
  cbv beta iota.
  destruct (item (clearance_acceptable c) "clearance_acceptable") as [acc|];
    [|discriminate].
  cbv beta iota.
  destruct (get (CYP_inhibition data) false).
  - destruct (cyp_inhibition_penalty c) as [p|]; [|discriminate].
    simpl item. cbv beta iota. intros [= <-].
    split; [lia|]. split; [discriminate|]. intros _. exists p. split; [reflexivity|].
    destruct b1, (String.eqb _ "high"), (gtb _ hmin), (str_in _ _); lia.
  - intros [= <-]. split; [lia|]. split; [|discriminate]. intros _.
    destruct b1, (String.eqb _ "high"), (gtb _ hmin), (str_in _ _);
      simpl; tauto.
Qed.

Lemma _score_adme_pk_values_witness :
  let data := adme_record 3.0 "high" 5 true "acceptable" in
  let c := adme_thresholds 0 5 2 ["acceptable"; "moderate"] (-5) in
  _score_adme_pk data c = Ok 15 /\
  0 <= 15 /\
  (get data.(CYP_inhibition) false = false -> In 15 [0; 5; 10; 15; 20]) /\
  (get data.(CYP_inhibition) false = true ->
   exists p, c.(cyp_inhibition_penalty) = Some p /\ 15 <= Z.max (20 + p) 0).
Proof.
  split; [vm_compute; reflexivity|].
  apply (_score_adme_pk_values (adme_record 3.0 "high" 5 true "acceptable")
           (adme_thresholds 0 5 2 ["acceptable"; "moderate"] (-5)) 15).
  vm_compute; reflexivity.
Defined.

End AdmePk.

Section ToxicityValues.

Import Examples.

Lemma str_in_In x l : str_in x l = true <-> In x l.
Proof.
  unfold str_in. rewrite existsb_exists. split.
  - intros (y & Hy & E). apply String.eqb_eq in E. now subst.
  - intros H. exists x. split; [exact H | apply String.eqb_refl].
Qed.

(** An entry of [high_risk_models] that is on the override list costs at
    least 10 points and produces a reason. *)
Lemma toxicity_hit data c ov m s f :
  c.(override_models) = Some ov -> In m ov ->
  In m (get data.(high_risk_models) []) ->
  _score_toxicity data c = Ok (s, f) ->
  s <= 10 /\ truthy f = true.
Proof.
  intros Hov Hm Hin H.
  pose proof (_score_toxicity_reason data c _ H) as Hreason. simpl in Hreason.
  revert H. unfold _score_toxicity, high_risk_hits. cbv zeta. rewrite Hov.
  assert (Hhit : In m (List.filter (fun m0 => str_in m0 ov)
                         (get (high_risk_models data) []))).
  { apply filter_In. split; [exact Hin | now apply str_in_In]. }
  destruct (get (high_risk_models data) []) as [|m0 ms]; [destruct Hin|].
  simpl item. cbv beta iota delta [bind].
  revert Hhit. generalize (List.filter (fun m1 => str_in m1 ov) (m0 :: ms)).
  intros hits Hhit. destruct hits as [|h hits]; [destruct Hhit|].
  assert (Hlen : 1 <= Z.of_nat (length (h :: hits))) by (simpl length; lia).
  revert Hlen. generalize (Z.of_nat (length (h :: hits))). intros k Hk.
  assert (Hf : forall r, f = Some r -> truthy f = true)
    by (intros r ->; now apply Hreason).
  destruct (eqb _ (of_Z 0)).
  { intros [= <- <-]. split; [lia | eapply Hf; reflexivity]. }
  destruct (eqb _ (of_Z 1)).
  { intros [= <- <-]. split; [lia | eapply Hf; reflexivity]. }
  destruct (max_flags_allowed c) as [mx|]; [|discriminate]. simpl item.
  cbv beta iota.
  destruct (gtb _ (of_Z mx)); intros [= <- <-];
    (split; [lia | eapply Hf; reflexivity]).
Qed.

(** X6. A toxicity score is one of 0, 10 and 20, and a failure reason
    never comes with a score above 10: the reason for too many flagged
    models comes with the score 0, and a high-risk model costs at least
    10 points. *)
Theorem _score_toxicity_values data c s f :
  _score_toxicity data c = Ok (s, f) ->
  In s [0; 10; 20] /\ (f <> None -> s <= 10).
Proof.
  unfold _score_toxicity. cbv zeta.
  destruct (high_risk_hits _ c) as [hits|] eqn:Hhits.
  2:{ cbv beta iota delta [bind].
      destruct (eqb _ (of_Z 0)); [discriminate|].
      destruct (eqb _ (of_Z 1)); [discriminate|].
      destruct (max_flags_allowed c) as [mx|]; [|discriminate]. simpl item.
      cbv beta iota.
      destruct (gtb _ (of_Z mx)); discriminate. }
  assert (Hcases : hits = [] \/
            (hits <> [] /\ Z.of_nat (length hits) = 1) \/
            (hits <> [] /\ 2 <= Z.of_nat (length hits))).
  { destruct hits as [|h1 [|h2 hits]]; [now left | right; left | right; right];
      (split; [discriminate | simpl length; lia]). }
  assert (Hbase : forall b fr0,
            In (b, fr0) [(20, None); (10, None); (0, None);
                         (0, Some (">" +:+ str (get (max_flags_allowed c) 0)
                                    +:+ " toxicity models flagged"))] ->
            (let '(score, failure_reason) :=
               match hits with
               | [] => (b, fr0)
               | _ :: _ =>
                   (b - 10 * Z.of_nat (length hits),
                    Some (if truthy fr0
                          then get fr0 "None" +:+ "; " +:+
                               ("High-risk models flagged: " +:+ join ", " hits)
                          else "High-risk models flagged: " +:+ join ", " hits))
               end in Ok (Z.max score 0, failure_reason)) = Ok (s, f) ->
            In s [0; 10; 20] /\ (f <> None -> s <= 10)).
  { intros b fr0 Hb.
    destruct Hcases as [-> | [[Hne Hl] | [Hne Hl]]].
    - simpl in Hb.
      destruct Hb as [[= <- <-] | [[= <- <-] | [[= <- <-] | [[= <- <-] | []]]]];
        intros [= <- <-]; simpl; (split; [tauto|]); try congruence; lia.
    - destruct hits as [|h hits]; [congruence|]. rewrite Hl. simpl in Hb.
      destruct Hb as [[= <- <-] | [[= <- <-] | [[= <- <-] | [[= <- <-] | []]]]];
        intros [= <- <-]; simpl; (split; [tauto|]); lia.
    - destruct hits as [|h hits]; [congruence|]. revert Hl.
      generalize (Z.of_nat (length (h :: hits))). intros k Hk. simpl in Hb.
      destruct Hb as [[= <- <-] | [[= <- <-] | [[= <- <-] | [[= <- <-] | []]]]];
        intros [= <- <-]; rewrite Z.max_r by lia; simpl; (split; [tauto | lia]). }
  cbv beta iota delta [bind].
  destruct (eqb _ (of_Z 0)); [apply Hbase; simpl; tauto|].
  destruct (eqb _ (of_Z 1)); [apply Hbase; simpl; tauto|].
  destruct (max_flags_allowed c) as [mx|]; [|discriminate]. simpl item.
  cbv beta iota.
  destruct (gtb _ (of_Z mx)); apply Hbase; simpl; tauto.
Qed.

Lemma _score_toxicity_values_witness :
  let data := toxicity_record 0 ["DILIrank"] in
  let c := toxicity_thresholds 3 ["DILIrank"; "ProTox-II"] in
  _score_toxicity data c = Ok (10, Some "High-risk models flagged: DILIrank") /\
  In 10 [0; 10; 20] /\
  (Some "High-risk models flagged: DILIrank" <> None -> 10 <= 10).
Proof.
  split; [vm_compute; reflexivity|].
  apply (_score_toxicity_values (toxicity_record 0 ["DILIrank"])
           (toxicity_thresholds 3 ["DILIrank"; "ProTox-II"])).
  vm_compute; reflexivity.
Defined.

End ToxicityValues.

Section Druggability.

Import Examples.

(** X7. A higher pocket score never scores less: of two druggability
    records with the same volume and hydrophobicity, scored under the
    same thresholds, the one with the larger pocket score gets at least
    the score of the other, however [high_score] and [mid_score] are
    ordered. *)
Theorem _score_druggability_monotone d1 d2 c s1 s2 :
  leb (get d1.(pocket_score) (of_Z 0)) (get d2.(pocket_score) (of_Z 0)) = true ->
  d1.(volume) = d2.(volume) ->
  d1.(hydrophobicity) = d2.(hydrophobicity) ->
  _score_druggability d1 c = Ok s1 ->
  _score_druggability d2 c = Ok s2 ->
  s1 <= s2.
Proof.
  intros Hle Hv Hh. unfold _score_druggability. cbv zeta. rewrite Hv, Hh.
  set (p1 := get (pocket_score d1) (of_Z 0)) in *.
  set (p2 := get (pocket_score d2) (of_Z 0)) in *.
  generalize (let* vmin := item (bonus_volume_min c) "bonus_volume_min"
              in if geb (get (volume d2) (of_Z 0)) vmin
                 then let* hmin
                      := item (bonus_hydrophobicity_min c) "bonus_hydrophobicity_min"
                      in Ok (geb (get (hydrophobicity d2) (of_Z 0)) hmin)
                 else Ok false).
  intros earned.
  assert (Tgt : forall t, gtb p1 t = true -> gtb p2 t = true).
  { intros t. unfold gtb. intros H. eapply ltb_leb_trans; eauto. }
  assert (Tge : forall t, geb p1 t = true -> geb p2 t = true).
  { intros t. unfold geb. intros H. eapply leb_trans; eauto. }
  destruct (high_score c) as [hs|]; [|discriminate]. simpl item.
  cbv beta iota delta [bind].
  pose proof (Tgt hs) as Ths.
  assert (Hfin : forall b1 b2 : Z, b1 <= b2 ->
            (let* bonus := earned in
             let* score := (if bonus : bool
                            then let* b := item (volume_hydrophobicity_bonus c)
                                             "volume_hydrophobicity_bonus"
                                 in Ok (b1 + b)
                            else Ok b1) in Ok score) = Ok s1 ->
            (let* bonus := earned in
             let* score := (if bonus : bool
                            then let* b := item (volume_hydrophobicity_bonus c)
                                             "volume_hydrophobicity_bonus"
                                 in Ok (b2 + b)
                            else Ok b2) in Ok score) = Ok s2 ->
            s1 <= s2).
  { intros b1 b2 Hb. destruct earned as [[|]|]; simpl; try discriminate.
    - destruct (volume_hydrophobicity_bonus c) as [b|]; simpl; [|discriminate].
      intros [= <-] [= <-]. lia.
    - intros [= <-] [= <-]. lia. }
  destruct (gtb p1 hs).
  { rewrite Ths by reflexivity. apply Hfin. lia. }
  clear Ths.
  destruct (mid_score c) as [ms|].
  2:{ simpl. discriminate. }
  simpl item. cbv beta iota.
  pose proof (Tge ms) as Tms.
  destruct (geb p1 ms).
  { rewrite Tms by reflexivity. destruct (gtb p2 hs); apply Hfin; lia. }
  destruct (gtb p2 hs); [apply Hfin; lia|].
  destruct (geb p2 ms); apply Hfin; lia.
Qed.

Lemma _score_druggability_monotone_witness :
  let c := druggability_thresholds 0.7 0.5 400 0.5 2 in
  _score_druggability (druggability_record 0.6 450 0.6) c = Ok 7 /\
  _score_druggability (druggability_record 0.8 450 0.6) c = Ok 12 /\
  7 <= 12.
Proof.
  split; [vm_compute; reflexivity|]. split; [vm_compute; reflexivity|].
  apply (_score_druggability_monotone (druggability_record 0.6 450 0.6)
           (druggability_record 0.8 450 0.6)
           (druggability_thresholds 0.7 0.5 400 0.5 2));
    vm_compute; reflexivity.
Defined.

End Druggability.

Section OffTarget.

Import Examples.

(** X8. With fewer than three selectivity thresholds the off-target
    rule raises [IndexError] on every record: its first test reads
    [thresholds[2]]. *)
Theorem _score_off_target_short_thresholds data c ths :
  c.(si_thresholds) = Some ths ->
  (length ths < 3)%nat ->
  _score_off_target data c = Err IndexError.
Proof.
  intros Hths Hlen. unfold _score_off_target. cbv zeta. rewrite Hths.
  simpl item. cbv beta iota delta [bind]. unfold index at 1.
  rewrite lookup_ge_None_2 by lia. reflexivity.
Qed.

Lemma _score_off_target_short_thresholds_witness :
  _score_off_target (off_target_record 3 12) MoreExamples.short_off_target_thresholds
    = Err IndexError.
Proof.
  apply (_score_off_target_short_thresholds (off_target_record 3 12)
           MoreExamples.short_off_target_thresholds [of_Z 1; of_Z 5]);
    [reflexivity | simpl; lia].
Defined.

(** X9. A record that does not report [num_off_targets] never earns
    the low-target bonus: the default is infinity, which is below no
    threshold, so the score is one of 0, 5, 10 and 15. *)
Theorem _score_off_target_no_count data c s :
  data.(num_off_targets) = None ->
  _score_off_target data c = Ok s ->
  In s [0; 5; 10; 15].
Proof.
  intros Hn. unfold _score_off_target. cbv zeta. rewrite Hn. simpl get.
  destruct (si_thresholds c) as [ths|]; [|discriminate]. simpl item.
  cbv beta iota delta [bind].
  assert (Hfin : forall b, In b [0; 5; 10; 15] ->
            (let* score
              := let* thr := item (low_target_bonus_threshold c)
                               "low_target_bonus_threshold"
                 in if ltb PosInf thr
                    then let* b0 := item (low_target_bonus c) "low_target_bonus"
                         in Ok (b + b0)
                    else Ok b
              in Ok score) = Ok s -> In s [0; 5; 10; 15]).
  { intros b Hb. destruct (low_target_bonus_threshold c) as [thr|]; [|discriminate].
    simpl. intros [= <-]. exact Hb. }
  destruct (index ths 2) as [t2|]; [|discriminate]. cbv beta iota.
  destruct (gtb _ t2); [apply Hfin; simpl; tauto|].
  destruct (index ths 1) as [t1|]; [|discriminate]. cbv beta iota.
  destruct (gtb _ t1); [apply Hfin; simpl; tauto|].
  destruct (index ths 0) as [t0|]; [|discriminate]. cbv beta iota.
  destruct (gtb _ t0); apply Hfin; simpl; tauto.
Qed.

Lemma _score_off_target_no_count_witness :
  _score_off_target MoreExamples.off_target_without_count
    (off_target_thresholds 1 5 10 5 3) = Ok 15 /\
  In 15 [0; 5; 10; 15].
Proof.
  split; [vm_compute; reflexivity|].
  apply (_score_off_target_no_count MoreExamples.off_target_without_count
           (off_target_thresholds 1 5 10 5 3) 15);
    [reflexivity | vm_compute; reflexivity].
Defined.

(** X10. A higher selectivity index never scores less: of two
    off-target records with the same number of off-targets, scored under
    the same thresholds, the one with the larger index gets at least the
    score of the other, whether or not the three thresholds are sorted. *)
Theorem _score_off_target_monotone d1 d2 c s1 s2 :
  leb (get d1.(selectivity_index) (of_Z 0)) (get d2.(selectivity_index) (of_Z 0))
    = true ->
  d1.(num_off_targets) = d2.(num_off_targets) ->
  _score_off_target d1 c = Ok s1 ->
  _score_off_target d2 c = Ok s2 ->
  s1 <= s2.
Proof.
  intros Hle Hn. unfold _score_off_target. cbv zeta. rewrite Hn.
  set (x1 := get (selectivity_index d1) (of_Z 0)) in *.
  set (x2 := get (selectivity_index d2) (of_Z 0)) in *.
  destruct (si_thresholds c) as [ths|]; [|discriminate]. simpl item.
  cbv beta iota delta [bind].
  assert (Tgt : forall t, gtb x1 t = true -> gtb x2 t = true).
  { intros t. unfold gtb. intros H. eapply ltb_leb_trans; eauto. }
  assert (Hfin : forall b1 b2 : Z, b1 <= b2 ->
            (let* score
              := let* thr := item (low_target_bonus_threshold c)
                               "low_target_bonus_threshold"
                 in if ltb (get (num_off_targets d2) PosInf) thr
                    then let* b0 := item (low_target_bonus c) "low_target_bonus"
                         in Ok (b1 + b0)
                    else Ok b1
              in Ok score) = Ok s1 ->
            (let* score
              := let* thr := item (low_target_bonus_threshold c)
                               "low_target_bonus_threshold"
                 in if ltb (get (num_off_targets d2) PosInf) thr
                    then let* b0 := item (low_target_bonus c) "low_target_bonus"
                         in Ok (b2 + b0)
                    else Ok b2
              in Ok score) = Ok s2 ->
            s1 <= s2).
  { intros b1 b2 Hb.
    destruct (low_target_bonus_threshold c) as [thr|]; [|discriminate]. simpl.
    destruct (ltb _ thr).
    - destruct (low_target_bonus c) as [b0|]; simpl; [|discriminate].
      intros [= <-] [= <-]. lia.
    - intros [= <-] [= <-]. lia. }
  destruct (index ths 2) as [t2|]; [|discriminate]. cbv beta iota.
  pose proof (Tgt t2) as T2.
  destruct (gtb x1 t2); [rewrite T2 by reflexivity; apply Hfin; lia|]. clear T2.
  destruct (index ths 1) as [t1|]; [|simpl; discriminate]. cbv beta iota.
  pose proof (Tgt t1) as T1.
  destruct (gtb x1 t1).
  { rewrite T1 by reflexivity. destruct (gtb x2 t2); apply Hfin; lia. }
  clear T1.
  destruct (index ths 0) as [t0|]; [|simpl; discriminate]. cbv beta iota.
  pose proof (Tgt t0) as T0.
  destruct (gtb x1 t0).
  { rewrite T0 by reflexivity. destruct (gtb x2 t2), (gtb x2 t1); apply Hfin; lia. }
  destruct (gtb x2 t2), (gtb x2 t1), (gtb x2 t0); apply Hfin; lia.
Qed.

Lemma _score_off_target_monotone_witness :
  let c := off_target_thresholds 1 5 10 5 3 in
  _score_off_target (off_target_record 3 6.5) c = Ok 13 /\
  _score_off_target (off_target_record 3 12) c = Ok 18 /\
  13 <= 18.
Proof.
  split; [vm_compute; reflexivity|]. split; [vm_compute; reflexivity|].
  apply (_score_off_target_monotone (off_target_record 3 6.5)
           (off_target_record 3 12) (off_target_thresholds 1 5 10 5 3));
    vm_compute; reflexivity.
Defined.

End OffTarget.

Section DrugLikenessTable.

Import Examples.

Lemma to_key_Some x k :
  to_key x = Some k -> exists q, x = Fin q /\ Qeq q (inject_Z k).
Proof.
  destruct x as [|q|]; unfold to_key; try discriminate. cbv zeta.
  destruct (Pos.eqb (Qden (Qred q)) 1) eqn:E; [|discriminate].
  intros [= <-]. exists q. split; [reflexivity|].
  apply Pos.eqb_eq in E. rewrite <- (Qred_correct q) at 1.
  destruct (Qred q) as [n d]. simpl in *. subst d. reflexivity.
Qed.

(** X11. An empty score table makes the drug-likeness rule raise
    [ValueError] on every record: [max] of no keys. *)
Theorem _score_drug_likeness_empty_table data c :
  c.(score_by_violations) = Some ∅ ->
  _score_drug_likeness data c = Err ValueError.
Proof.
  intros Htbl. unfold _score_drug_likeness. rewrite Htbl. simpl item.
  cbv beta iota delta [bind]. unfold max_key. rewrite map_to_list_empty.
  reflexivity.
Qed.

Lemma _score_drug_likeness_empty_table_witness :
  _score_drug_likeness (drug_likeness_record 0) (drug_likeness_thresholds ∅)
    = Err ValueError.
Proof.
  apply (_score_drug_likeness_empty_table (drug_likeness_record 0)
           (drug_likeness_thresholds ∅)).
  reflexivity.
Defined.

(** X12. A violation count that is equal to a key of the table scores
    the table's entry for that key, a float count included ([2.0] finds
    the key [2]); the rule does not raise on such a record. *)
Theorem _score_drug_likeness_lookup data c tbl x k v :
  c.(score_by_violations) = Some tbl ->
  data.(num_violations) = Some x ->
  to_key x = Some k ->
  tbl !! k = Some v ->
  _score_drug_likeness data c = Ok v.
Proof.
  intros Htbl Hx Hk Hv.
  destruct (max_key tbl) as [K|e] eqn:HK.
  2:{ unfold max_key in HK.
      destruct ((map_to_list tbl).*1) as [|k0 ks] eqn:Hl; [|discriminate].
      assert (Hin : k ∈ (map_to_list tbl).*1) by (apply key_in_list; eauto).
      rewrite Hl in Hin. inversion Hin. }
  apply max_key_largest in HK as HK'.
  rewrite (_score_drug_likeness_eq data c tbl K Htbl HK'). rewrite Hx. simpl get.
  destruct HK' as [_ Hmax]. assert (HkK : k <= K) by (apply Hmax; eauto).
  destruct (to_key_Some x k Hk) as (q & -> & Hq).
  assert (Hlt : ltb (of_Z K) (Fin q) = false).
  { unfold of_Z. simpl. apply not_true_iff_false. rewrite Qlt_bool_iff.
    apply Qle_not_lt. rewrite Hq. now rewrite <- Zle_Qle. }
  unfold min. rewrite Hlt. unfold table_get. rewrite Hk, Hv. reflexivity.
Qed.

Lemma _score_drug_likeness_lookup_witness :
  _score_drug_likeness (drug_likeness_record 2.0)
    (drug_likeness_thresholds violations_table) = Ok 6.
Proof.
  apply (_score_drug_likeness_lookup (drug_likeness_record 2.0)
           (drug_likeness_thresholds violations_table) violations_table
           (Fin 2.0) 2 6);
    [reflexivity | reflexivity | vm_compute; reflexivity | vm_compute; reflexivity].
Defined.

End DrugLikenessTable.

(** * Further properties of a scoring call *)

Section RuleTotality.

Lemma present_Some {A} (o : option A) : present o = true -> exists a, o = Some a.
Proof. destruct o; [eauto | discriminate]. Qed.

Lemma _score_docking_total data c :
  docking_keys c = true -> exists s, _score_docking data c = Ok s.
Proof.
  unfold docking_keys. rewrite !andb_true_iff. intros [[Ha Hr] Hp].
  destruct (affinity c) as [a|] eqn:Eaff; [|discriminate].
  rewrite !andb_true_iff in Ha. destruct Ha as [[Hhi Hmed] Hlo].
  apply present_Some in Hhi as (hi & Hhi). apply present_Some in Hmed as (med & Hmed).
  apply present_Some in Hlo as (lo & Hlo). apply present_Some in Hr as (rmax & Hr).
  apply present_Some in Hp as (minp & Hp).
  rewrite (_score_docking_eq data c a hi med lo rmax minp) by assumption. eauto.
Qed.

Lemma _score_adme_pk_total data c :
  adme_pk_keys c = true -> exists s, _score_adme_pk data c = Ok s.
Proof.
  unfold adme_pk_keys. rewrite !andb_true_iff. intros [[[Hr Hh] Hc] Hp].
  destruct (logP_range c) as [[|lo [|hi r]]|] eqn:Er; try discriminate.
  apply present_Some in Hh as (hmin & Hh). apply present_Some in Hc as (acc & Hc).
  apply present_Some in Hp as (p & Hp).
  unfold _score_adme_pk. rewrite Er, Hh, Hc, Hp. simpl item.
  cbv beta iota zeta delta [bind]. unfold index. simpl lookup. cbv beta iota.
  destruct (leb lo _); destruct (get (CYP_inhibition data) false); eauto.
Qed.

Lemma _score_toxicity_total data c :
  toxicity_keys c = true -> exists p, _score_toxicity data c = Ok p.
Proof.
  unfold toxicity_keys. rewrite !andb_true_iff. intros [Hm Ho].
  apply present_Some in Hm as (mx & Hm). apply present_Some in Ho as (ov & Ho).
  rewrite (_score_toxicity_eq data c mx ov Hm Ho). eauto.
Qed.

Lemma _score_druggability_total data c :
  druggability_keys c = true -> exists s, _score_druggability data c = Ok s.
Proof.
  unfold druggability_keys. rewrite !andb_true_iff. intros [[[[H1 H2] H3] H4] H5].
  apply present_Some in H1 as (hs & H1). apply present_Some in H2 as (ms & H2).
  apply present_Some in H3 as (vmin & H3). apply present_Some in H4 as (hmin & H4).
  apply present_Some in H5 as (b & H5).
  unfold _score_druggability. rewrite H1, H2, H3, H4, H5. simpl item.
  cbv beta iota zeta delta [bind].
  destruct (gtb _ hs); [|destruct (geb _ ms)];
    (destruct (geb _ vmin); [destruct (geb _ hmin)|]); eauto.
Qed.

Lemma _score_drug_likeness_total data c :
  drug_likeness_keys c = true -> exists s, _score_drug_likeness data c = Ok s.
Proof.
  unfold drug_likeness_keys.
  destruct (score_by_violations c) as [tbl|] eqn:Et; [|discriminate].
  intros Hne. apply negb_true_iff, Nat.eqb_neq in Hne.
  unfold _score_drug_likeness. rewrite Et. simpl item.
  cbv beta iota zeta delta [bind]. unfold max_key.
  destruct ((map_to_list tbl).*1) as [|k ks] eqn:Hl; [|eauto].
  exfalso. apply Hne. apply fmap_nil_inv in Hl.
  apply map_to_list_empty_iff in Hl. subst tbl. apply map_size_empty.
Qed.

Lemma _score_off_target_total data c :
  off_target_keys c = true -> exists s, _score_off_target data c = Ok s.
Proof.
  unfold off_target_keys. rewrite !andb_true_iff. intros [[Ht Hthr] Hb].
  destruct (si_thresholds c) as [[|t0 [|t1 [|t2 ths]]]|] eqn:Et; try discriminate.
  apply present_Some in Hthr as (thr & Hthr). apply present_Some in Hb as (b & Hb).
  unfold _score_off_target. rewrite Et, Hthr, Hb. simpl item.
  cbv beta iota zeta delta [bind]. unfold index. simpl lookup. cbv beta iota.
  destruct (gtb _ t2); [|destruct (gtb _ t1); [|destruct (gtb _ t0)]];
    destruct (ltb _ thr); eauto.
Qed.

Lemma module_keys_Some th name keys :
  module_keys th name keys = true -> exists c, th !! name = Some c /\ keys c = true.
Proof. unfold module_keys. destruct (th !! name) as [c|]; [eauto | discriminate]. Qed.

(** Under complete thresholds the six rules return, whatever the
    records hold. *)
Lemma complete_thresholds_rules_return d th :
  complete_thresholds th = true -> exists rs, rules_return d th rs.
Proof.
  unfold complete_thresholds. rewrite !andb_true_iff.
  intros [[[[[H1 H2] H3] H4] H5] H6].
  apply module_keys_Some in H1 as (c1 & Hc1 & K1).
  apply module_keys_Some in H2 as (c2 & Hc2 & K2).
  apply module_keys_Some in H3 as (c3 & Hc3 & K3).
  apply module_keys_Some in H4 as (c4 & Hc4 & K4).
  apply module_keys_Some in H5 as (c5 & Hc5 & K5).
  apply module_keys_Some in H6 as (c6 & Hc6 & K6).
  destruct (_score_docking_total (get (d !! "docking") empty_record) c1 K1) as (s1 & E1).
  destruct (_score_adme_pk_total (get (d !! "adme_pk") empty_record) c2 K2) as (s2 & E2).
  destruct (_score_toxicity_total (get (d !! "toxicity") empty_record) c3 K3)
    as ([s3 fl] & E3).
  destruct (_score_druggability_total (get (d !! "druggability") empty_record) c4 K4)
    as (s4 & E4).
  destruct (_score_drug_likeness_total (get (d !! "drug_likeness") empty_record) c5 K5)
    as (s5 & E5).
  destruct (_score_off_target_total (get (d !! "off_target") empty_record) c6 K6)
    as (s6 & E6).
  exists {| s_docking := s1; s_adme_pk := s2; s_toxicity := s3; s_failure := fl;
            s_druggability := s4; s_drug_likeness := s5; s_off_target := s6 |}.
  unfold rules_return. simpl.
  split; [eauto|]. split; [eauto|]. split; [eauto|]. split; [eauto|].
  split; eauto.
Qed.

Lemma missing_modules_nil d :
  missing_modules (Some (ODict d)) = [] ->
  forall m, In m required_modules -> is_Some (d !! m).
Proof.
  intros Hm m Hin. pose proof (filter_nil_all _ _ Hm m Hin) as Hc.
  simpl in Hc. now apply negb_false_iff, bool_decide_eq_true in Hc.
Qed.

Lemma denotes_dict w v d :
  denotes w v = Some (ODict d) -> exists bl, v = VRef bl /\ w.(heap) !! bl = Some (ODict d).
Proof. destruct v; simpl; try discriminate. eauto. Qed.

Lemma rules_return_ext d d' th th' rs :
  module_records d' = module_records d ->
  module_thresholds th' = module_thresholds th ->
  rules_return d th rs -> rules_return d' th' rs.
Proof.
  unfold module_records, module_thresholds, required_modules. simpl.
  intros [= D1 D2 D3 D4 D5 D6] [= T1 T2 T3 T4 T5 T6].
  unfold rules_return. now rewrite D1, D2, D3, D4, D5, D6, T1, T2, T3, T4, T5, T6.
Qed.

End RuleTotality.

Section CallLog.

Lemma score_module_pair_logged v bl d th rule c s fl bd fr tot w :
  v = VRef bl -> w.(heap) !! bl = Some (ODict d) ->
  th !! "toxicity" = Some c ->
  rule (get (d !! "toxicity") empty_record) c = Ok (s, fl) ->
  exists w',
    score_module v th ("toxicity", as_pair rule) (bd, fr, tot) w =
      (Ok (dict_set bd "toxicity" s, (fr ++ rationale_of fl)%list, tot + s), w') /\
    logged w (map (fun m => ("WARNING", m)) (rationale_of fl)) w'.
Proof.
  intros -> Hd Hc Hr.
  unfold score_module, get_record, target, mbind, deref, lift, ret, as_pair, bind.
  rewrite Hd, Hc. simpl item. cbv beta iota.
  change (String.eqb "toxicity" "toxicity") with true. cbv beta iota.
  rewrite Hr. cbn [fst snd]. unfold rationale_of.
  destruct (truthy fl).
  - eexists. split; [reflexivity|]. repeat split; reflexivity.
  - eexists. rewrite app_nil_r. split; [reflexivity|].
    repeat split; try reflexivity. simpl. now rewrite app_nil_r.
Qed.

(** The store a returning call leaves: the result in a new object, and
    the records of the call appended to the log. *)
Lemma aggregate_scores_run self bl w d cfg th rs :
  w.(heap) !! bl = Some (ODict d) ->
  (forall m, In m required_modules -> is_Some (d !! m)) ->
  w.(heap) !! self = Some (OAggregator (Some cfg)) ->
  cfg.(thresholds) = Some th ->
  rules_return d th rs ->
  MetaScoringAggregator.aggregate_scores self (VRef bl) w =
    (Ok (VRef (length w.(heap))),
     {| heap := w.(heap) ++ [OResult (result_of rs)];
        log := w.(log) ++ call_records (rationale_of rs.(s_failure));
        files := w.(files);
        basic_config := w.(basic_config) |}).
Proof.
  intros Hd Hkeys Hs Hth
    ((c1 & Hc1 & H1) & (c2 & Hc2 & H2) & (c3 & Hc3 & H3) &
     (c4 & Hc4 & H4) & (c5 & Hc5 & H5) & (c6 & Hc6 & H6)).
  unfold MetaScoringAggregator.aggregate_scores, aggregate_scores_with.
  unfold mbind at 1. unfold logger at 1.
  set (w1 := with_log w _).
  assert (Hd1 : heap w1 !! bl = Some (ODict d)) by exact Hd.
  assert (Hs1 : heap w1 !! self = Some (OAggregator (Some cfg))) by exact Hs.
  assert (L1 : logged w [("INFO", "Aggregating scores for compound.")] w1)
    by (repeat split; reflexivity).
  clearbody w1.
  assert (Hval : _validate_input (VRef bl) w1 = (Ok tt, w1)).
  { rewrite _validate_input_eq. simpl denotes. rewrite Hd1. simpl.
    destruct (Nat.eqb_spec (size d) 0) as [Hz|_].
    - apply map_size_empty_inv in Hz. subst d.
      destruct (Hkeys "docking" ltac:(now left)) as [x Hx].
      rewrite lookup_empty in Hx. discriminate.
    - unfold missing_modules, required_modules. simpl.
      rewrite !bool_decide_eq_true_2
        by (apply Hkeys; unfold required_modules; simpl; tauto).
      reflexivity. }
  rewrite (mbind_step _ _ _ _ _ Hval).
  assert (Hcfg : self_config self w1 = (Ok cfg, w1))
    by (unfold self_config, mbind, deref, ret; now rewrite Hs1).
  rewrite (mbind_step _ _ _ _ _ Hcfg).
  unfold lift at 1. rewrite Hth. simpl item. unfold mbind at 1.
  assert (Hloop : exists w3,
             score_modules (VRef bl) th scoring_functions ([], [], 0) w1 =
               (Ok ((result_of rs).(score_breakdown), rationale_of rs.(s_failure),
                    0 + rs.(s_docking) + rs.(s_adme_pk) + rs.(s_toxicity)
                      + rs.(s_druggability) + rs.(s_drug_likeness)
                      + rs.(s_off_target)), w3) /\
             logged w1 (map (fun m => ("WARNING", m)) (rationale_of rs.(s_failure))) w3).
  { unfold scoring_functions. cbn [score_modules].
    rewrite (mbind_step _ _ _ _ _
               (score_module_score (VRef bl) bl d th "docking" _ c1 _ [] [] 0 w1
                  eq_refl Hd1 Hc1 eq_refl H1)).
    simpl dict_set.
    rewrite (mbind_step _ _ _ _ _
               (score_module_score (VRef bl) bl d th "adme_pk" _ c2 _ _ _ _ w1
                  eq_refl Hd1 Hc2 eq_refl H2)).
    simpl dict_set.
    destruct (score_module_pair_logged (VRef bl) bl d th _score_toxicity c3 _ _
                [("docking", s_docking rs); ("adme_pk", s_adme_pk rs)] []
                (0 + s_docking rs + s_adme_pk rs) w1 eq_refl Hd1 Hc3 H3)
      as (w3 & Htox & L3).
    rewrite (mbind_step _ _ _ _ _ Htox). simpl dict_set.
    assert (Hd3 : heap w3 !! bl = Some (ODict d))
      by (destruct L3 as (Hh3 & _); now rewrite Hh3).
    rewrite (mbind_step _ _ _ _ _
               (score_module_score (VRef bl) bl d th "druggability" _ c4 _ _ _ _ w3
                  eq_refl Hd3 Hc4 eq_refl H4)).
    simpl dict_set.
    rewrite (mbind_step _ _ _ _ _
               (score_module_score (VRef bl) bl d th "drug_likeness" _ c5 _ _ _ _ w3
                  eq_refl Hd3 Hc5 eq_refl H5)).
    simpl dict_set.
    rewrite (mbind_step _ _ _ _ _
               (score_module_score (VRef bl) bl d th "off_target" _ c6 _ _ _ _ w3
                  eq_refl Hd3 Hc6 eq_refl H6)).
    simpl dict_set. exists w3. split; [reflexivity | exact L3]. }
  destruct Hloop as (w3 & Hloop & L3).
  rewrite (mbind_step _ _ _ _ _ Hloop).
  pose proof (logged_trans _ _ _ _ _ L1 L3) as (Hh & Hf & Hb & Hl).
  unfold mbind, alloc, ret, with_heap. rewrite Hh, Hf, Hb, Hl.
  unfold call_records. simpl app. reflexivity.
Qed.

End CallLog.

Section ValidCallOutcome.

Import Examples.



(** X14. Under thresholds that have, for each of the six modules, the
    keys its rule reads, each with a value of the type the rule expects
    (numbers to compare, lists, an integer penalty, integer bonuses and
    table entries), a call on a bundle that has the six module keys
    returns a result for all records whose fields, where present, hold
    values of the expected types; every field has a default, so records
    with absent fields and empty records are among them. *)
Theorem complete_thresholds_call_returns self v w d cfg th :
  denotes w v = Some (ODict d) ->
  missing_modules (Some (ODict d)) = [] ->
  w.(heap) !! self = Some (OAggregator (Some cfg)) ->
  cfg.(thresholds) = Some th ->
  complete_thresholds th = true ->
  exists r, outcome (MetaScoringAggregator.aggregate_scores self v w)
            = Ok (Some (OResult r)).
Proof.
  intros Hd Hm Hs Hth Hc.
  destruct (complete_thresholds_rules_return d th Hc) as (rs & Hrs).
  exists (result_of rs).
  apply denotes_dict in Hd as (bl & -> & Hbl).
  eapply aggregate_scores_returns; eauto using missing_modules_nil.
Qed.

Lemma complete_thresholds_call_returns_witness :
  exists r, outcome poor_run = Ok (Some (OResult r)).
Proof.
  apply (complete_thresholds_call_returns aggregator poor (store_with 2) poor_bundle
           (config_with 2) (thresholds_with 2));
    [reflexivity | vm_compute; reflexivity | reflexivity | reflexivity
    | vm_compute; reflexivity].
Defined.

(** X15. A high-risk model of the toxicity record that is on the
    configured override list forces the decision: whatever the six
    scores add up to, a call that returns gives "no-go", with one
    rationale entry. *)
Theorem override_model_forces_no_go self v w r d cfg th c ov m :
  outcome (MetaScoringAggregator.aggregate_scores self v w) = Ok (Some (OResult r)) ->
  denotes w v = Some (ODict d) ->
  w.(heap) !! self = Some (OAggregator (Some cfg)) ->
  cfg.(thresholds) = Some th ->
  th !! "toxicity" = Some c ->
  c.(override_models) = Some ov ->
  In m ov ->
  In m (get (get (d !! "toxicity") empty_record).(high_risk_models) []) ->
  r.(go_decision) = "no-go" /\ length r.(failure_rationale) = 1%nat.
Proof.
  intros H Hd Hs Hth Hc Hov Hm Hin.
  apply aggregate_scores_outcome in H
    as (d' & cfg' & th' & rs & Hd' & Hs' & Hth' & Hrs & ->).
  rewrite Hd in Hd'. injection Hd' as <-.
  rewrite Hs in Hs'. injection Hs' as <-.
  rewrite Hth in Hth'. injection Hth' as <-.
  destruct Hrs as (_ & _ & (c' & Hc' & Htox) & _).
  rewrite Hc in Hc'. injection Hc' as <-.
  destruct (toxicity_hit _ c ov m _ _ Hov Hm Hin Htox) as (_ & Ht).
  rewrite go_decision_result_of, Ht, andb_false_r.
  unfold result_of, rationale_of. simpl. rewrite Ht. auto.
Qed.

Lemma override_model_forces_no_go_witness :
  poor_result.(go_decision) = "no-go" /\
  length poor_result.(failure_rationale) = 1%nat.
Proof.
  apply (override_model_forces_no_go aggregator poor (store_with 2) poor_result
           poor_bundle (config_with 2) (thresholds_with 2)
           (toxicity_thresholds 3 ["DILIrank"; "ProTox-II"])
           ["DILIrank"; "ProTox-II"] "ProTox-II");
    [vm_compute; reflexivity | reflexivity | reflexivity | reflexivity
    | vm_compute; reflexivity | reflexivity | simpl; tauto | vm_compute; tauto].
Defined.

(** X16. A result depends only on the records of the six modules and
    on the thresholds of the six modules: a call on another bundle with
    the same six records (and any further keys), by another aggregator
    with the same six threshold dictionaries (and any weights, which
    are never read), in any other store, returns a result with the same
    contents. *)
Theorem result_depends_on_six_records self v w r d cfg th self' v' w' d' cfg' th' :
  outcome (MetaScoringAggregator.aggregate_scores self v w) = Ok (Some (OResult r)) ->
  denotes w v = Some (ODict d) ->
  w.(heap) !! self = Some (OAggregator (Some cfg)) ->
  cfg.(thresholds) = Some th ->
  denotes w' v' = Some (ODict d') ->
  w'.(heap) !! self' = Some (OAggregator (Some cfg')) ->
  cfg'.(thresholds) = Some th' ->
  module_records d' = module_records d ->
  module_thresholds th' = module_thresholds th ->
  outcome (MetaScoringAggregator.aggregate_scores self' v' w') = Ok (Some (OResult r)).
Proof.
  intros H Hd Hs Hth Hd' Hs' Hth' Hrec Hthr.
  pose proof H as H0. apply aggregate_scores_outcome in H0
    as (d0 & cfg0 & th0 & rs & Hd0 & Hs0 & Hth0 & Hrs & ->).
  rewrite Hd in Hd0. injection Hd0 as <-.
  rewrite Hs in Hs0. injection Hs0 as <-.
  rewrite Hth in Hth0. injection Hth0 as <-.
  assert (Hkeys : forall m, In m required_modules -> is_Some (d !! m)).
  { destruct (MetaScoringAggregator.aggregate_scores self v w) as [[res|e] w1] eqn:E;
      [|discriminate].
    apply aggregate_scores_inv in E
      as (d1 & _ & _ & _ & Hd1 & Hk & _).
    rewrite Hd in Hd1. now injection Hd1 as <-. }
  assert (Hkeys' : forall m, In m required_modules -> is_Some (d' !! m)).
  { intros m Hin. specialize (Hkeys m Hin).
    assert (E : d' !! m = d !! m); [|now rewrite E].
    unfold module_records, required_modules in Hrec. simpl in Hrec.
    injection Hrec as E1 E2 E3 E4 E5 E6.
    unfold required_modules in Hin. simpl in Hin.
    destruct Hin as [<-|[<-|[<-|[<-|[<-|[<-|[]]]]]]]; assumption. }
  apply denotes_dict in Hd' as (bl' & -> & Hbl').
  eapply aggregate_scores_returns; eauto.
  eapply rules_return_ext; eauto.
Qed.

Lemma result_depends_on_six_records_witness :
  outcome (MetaScoringAggregator.aggregate_scores 1%nat (VRef 0%nat)
             MoreExamples.other_store) = Ok (Some (OResult good_result)).
Proof.
  apply (result_depends_on_six_records aggregator good (store_with 2) good_result
           good_bundle (config_with 2) (thresholds_with 2)
           1%nat (VRef 0%nat) MoreExamples.other_store
           MoreExamples.annotated_bundle MoreExamples.config_with_other_weights
           (thresholds_with 2));
    [vm_compute; reflexivity | reflexivity | reflexivity | reflexivity
    | reflexivity | reflexivity | reflexivity | vm_compute; reflexivity
    | reflexivity].
Defined.

(** X17. A call that returns hands the logger one INFO record, then
    one WARNING record for each entry of the result's
    [failure_rationale], with the entry as its text, and nothing else. *)
Theorem call_log_records self v w r :
  outcome (MetaScoringAggregator.aggregate_scores self v w) = Ok (Some (OResult r)) ->
  (snd (MetaScoringAggregator.aggregate_scores self v w)).(log) =
    (w.(log) ++ call_records r.(failure_rationale))%list.
Proof.
  intros H.
  destruct (MetaScoringAggregator.aggregate_scores self v w) as [[res|e] w1] eqn:E;
    [|discriminate].
  pose proof E as E0.
  apply aggregate_scores_inv in E0
    as (d & cfg & th & rs & Hd & Hk & Hs & Hth & Hrs & -> & Hh).
  rewrite (outcome_of_alloc w w1 _ Hh) in H. injection H as <-.
  apply denotes_dict in Hd as (bl & -> & Hbl).
  rewrite (aggregate_scores_run self bl w d cfg th rs Hbl Hk Hs Hth Hrs) in E.
  injection E as <-. reflexivity.
Qed.

Lemma call_log_records_witness :
  (snd poor_run).(log) =
    [("INFO", "Aggregating scores for compound.");
     ("WARNING", "Toxicity override triggered: >3 toxicity models flagged; " +:+
                 "High-risk models flagged: DILIrank, ProTox-II")].
Proof.
  apply (call_log_records aggregator poor (store_with 2) poor_result).
  vm_compute; reflexivity.
Defined.

End ValidCallOutcome.

Section RuleErrorsEscape.

Import Examples.







End RuleErrorsEscape.

(** * Further properties of construction and of the public function *)

Section ConstructionOutcome.

Import Examples.

Variable safe_load : string -> result yaml_doc.

(** The store a successful construction leaves. *)
Lemma new_run config_path w text cfg :
  w.(files) !! config_path = Some text ->
  safe_load text = Ok (YMapping cfg) ->
  first_unmet cfg = None ->
  new safe_load config_path w =
    (Ok (length w.(heap)),
     {| heap := w.(heap) ++ [OAggregator (Some cfg)];
        log := w.(log) ++
               [("INFO", "Initializing MetaScoringAggregator with config: "
                           +:+ config_path);
                ("INFO", "Configuration loaded successfully.")];
        files := w.(files);
        basic_config := w.(basic_config) |}).
Proof.
  intros Hf Hl Hu. unfold new, __init__, _load_config.
  unfold mbind, alloc, logger, try_except, read_file, lift, ret, raise, store.
  cbn [files with_log with_heap heap log basic_config].
  rewrite Hf, Hl.
  rewrite (_validate_config_eq _ cfg).
  - rewrite Hu. f_equal. unfold with_heap, with_log.
    cbn [files heap log basic_config].
    rewrite insert_app_r_alt by lia. rewrite Nat.sub_diag, <- app_assoc.
    reflexivity.
  - cbn [heap with_heap with_log]. apply list_lookup_insert_eq.
    rewrite length_app. simpl. lia.
Qed.




End ConstructionOutcome.

Section ConstructionWitness.

Import Examples.


End ConstructionWitness.

Section ConstructionFrame.

Variable safe_load : string -> result yaml_doc.

(** X20. A construction, whether it succeeds or fails, leaves every
    object of the store as it was, leaves the files and the logging
    configuration as they were, and only appends to the log, first of
    all the record that names the file; when the file does not exist the
    log gets one ERROR record after it and nothing else. *)
Theorem new_frame config_path w :
  let w' := snd (new safe_load config_path w) in
  (forall l o, w.(heap) !! l = Some o -> w'.(heap) !! l = Some o) /\
  w'.(files) = w.(files) /\
  w'.(basic_config) = w.(basic_config) /\
  (exists entries,
      w'.(log) =
        (w.(log) ++
           ("INFO", "Initializing MetaScoringAggregator with config: " +:+ config_path)
           :: entries)%list) /\
  (w.(files) !! config_path = None ->
   w'.(log) =
     (w.(log) ++
        [("INFO", "Initializing MetaScoringAggregator with config: " +:+ config_path);
         ("ERROR", "Configuration file not found: " +:+ config_path)])%list).
Proof.
  cbv zeta. unfold new, __init__, _load_config.
  unfold mbind, alloc, logger, try_except, read_file, lift, ret, raise, store.
  cbn [files with_log with_heap heap].
  assert (Hkeep : forall (l : nat) (o c : obj),
            heap w !! l = Some o ->
            (<[length (heap w) := c]> (heap w ++ [OAggregator None])%list) !! l
              = Some o).
  { intros l o c Hl. pose proof (lookup_lt_Some _ _ _ Hl) as Hlt.
    rewrite list_lookup_insert_ne by lia. now apply lookup_app_l_Some. }
  assert (Hold : forall (l : nat) (o c : obj),
            heap w !! l = Some o -> (heap w ++ [c])%list !! l = Some o).
  { intros l o c Hl. now apply lookup_app_l_Some. }
  destruct (files w !! config_path) as [text|] eqn:Hf.
  - destruct (safe_load text) as [[|c]|e].
    + simpl. split; [intros; now apply Hold|].
      split; [reflexivity|]. split; [reflexivity|].
      split; [exists []; reflexivity | discriminate].
    + rewrite (_validate_config_eq _ c).
      2:{ cbn [heap with_heap with_log]. apply list_lookup_insert_eq.
          rewrite length_app. simpl. lia. }
      destruct (first_unmet c); simpl;
        (split; [intros; now apply Hkeep|]);
        (split; [reflexivity|]); (split; [reflexivity|]);
        (split; [|discriminate]); eexists; rewrite <- !app_assoc; reflexivity.
    + simpl. split; [intros; now apply Hold|].
      split; [reflexivity|]. split; [reflexivity|].
      split; [exists []; reflexivity | discriminate].
  - simpl. split; [intros; now apply Hold|].
    split; [reflexivity|]. split; [reflexivity|].
    split; [eexists; rewrite <- app_assoc; reflexivity|].
    intros _. now rewrite <- app_assoc.
Qed.

(** X21. The public function is the method called on an aggregator
    built for this call alone: when the default configuration file
    parses to a configuration that passes validation, its outcome is the
    outcome of the method on a new aggregator with that configuration,
    placed after the objects of the store; the aggregator stays in the
    store, and the logging setup has run. *)
Theorem public_call_is_method_call v w text cfg :
  w.(files) !! "score_config.yaml" = Some text ->
  safe_load text = Ok (YMapping cfg) ->
  first_unmet cfg = None ->
  let call := scoring_aggregator.aggregate_scores safe_load v w in
  outcome call =
    outcome (MetaScoringAggregator.aggregate_scores (length w.(heap)) v
               (with_heap w (w.(heap) ++ [OAggregator (Some cfg)]))) /\
  (snd call).(heap) !! length w.(heap) = Some (OAggregator (Some cfg)) /\
  (snd call).(basic_config) = true.
Proof.
  intros Hf Hl Hu. cbv zeta.
  set (w2 := {| heap := heap w ++ [OAggregator (Some cfg)];
                log := log w ++
                       [("INFO", "Initializing MetaScoringAggregator with config: "
                                   +:+ "score_config.yaml");
                        ("INFO", "Configuration loaded successfully.")];
                files := files w; basic_config := true |}).
  assert (E : scoring_aggregator.aggregate_scores safe_load v w =
              MetaScoringAggregator.aggregate_scores (length (heap w)) v w2).
  { unfold scoring_aggregator.aggregate_scores.
    unfold mbind at 1. unfold basicConfig at 1.
    set (w1 := {| heap := heap w; log := log w; files := files w;
                  basic_config := true |}).
    now rewrite (mbind_step _ _ _ _ _
                   (new_run safe_load "score_config.yaml" w1 text cfg Hf Hl Hu)). }
  rewrite E. split; [|split].
  - apply (aggregate_scores_with_local (length (heap w)) (length (heap w)) v v
             scoring_functions).
    split; reflexivity.
  - destruct (aggregate_scores_keeps (length (heap w)) v w2) as (_ & Hs & _).
    cbv zeta in Hs. etransitivity; [exact Hs|]. simpl. now apply list_lookup_middle.
  - destruct (allocating_aggregate_scores_with scoring_functions (length (heap w)) v w2)
      as [(e & w3 & n & E' & L)|(r & w3 & n & E' & L)];
      fold (MetaScoringAggregator.aggregate_scores (length (heap w)) v w2) in E';
      rewrite E'; simpl; destruct L as (_ & _ & Hb & _); exact Hb.
Qed.

End ConstructionFrame.

Section PublicWitness.

Import Examples.

Lemma public_call_is_method_call_witness :
  let w := with_heap (disk "full") [ODict good_bundle] in
  let call := scoring_aggregator.aggregate_scores parse (VRef 0%nat) w in
  outcome call =
    outcome (MetaScoringAggregator.aggregate_scores 1%nat (VRef 0%nat)
               (with_heap w [ODict good_bundle; OAggregator (Some (config_with 2))])) /\
  (snd call).(heap) !! 1%nat = Some (OAggregator (Some (config_with 2))) /\
  (snd call).(basic_config) = true.
Proof.
  apply (public_call_is_method_call parse (VRef 0%nat)
           (with_heap (disk "full") [ODict good_bundle]) "full" (config_with 2));
    [reflexivity | reflexivity | vm_compute; reflexivity].
Defined.

End PublicWitness.

Section ResultShape.

Import Examples.

(** X22. Every result has the scores of the six modules in its
    breakdown, under the six module names in the order of the
    dispatcher; its total is between 0 and 100 and its decision is one
    of "go" and "no-go". *)
Theorem result_shape self v w r :
  outcome (MetaScoringAggregator.aggregate_scores self v w) = Ok (Some (OResult r)) ->
  r.(score_breakdown).*1 = required_modules /\
  0 <= r.(svs_score) <= 100 /\
  (r.(go_decision) = "go" \/ r.(go_decision) = "no-go").
Proof.
  intros H. apply aggregate_scores_outcome in H
    as (d & cfg & th & rs & _ & _ & _ & _ & ->).
  split; [reflexivity|]. split.
  - unfold result_of. cbn [svs_score]. lia.
  - rewrite go_decision_result_of. destruct (_ && _); auto.
Qed.

Lemma result_shape_witness :
  borderline_result.(score_breakdown).*1 = required_modules /\
  0 <= borderline_result.(svs_score) <= 100 /\
  (borderline_result.(go_decision) = "go" \/ borderline_result.(go_decision) = "no-go").
Proof.
  apply (result_shape aggregator borderline (store_with 2) borderline_result).
  vm_compute; reflexivity.
Defined.

End ResultShape.

(** * The wider model: scores that are not integers *)

Section GeneralMonad.

Import General.

Context {A B : Type}.


Lemma general_mbind_step (m : M A) (k : A -> M B) w a w1 :
  m w = (Ok a, w1) -> mbind m k w = k a w1.
Proof. unfold mbind. now intros ->. Qed.

End GeneralMonad.

Section GeneralLoop.

Import Number General.



Lemma general_sum_from_app start l1 l2 mid :
  sum_from start l1 = Ok mid -> sum_from start (l1 ++ l2) = sum_from mid l2.
Proof.
  revert start. induction l1 as [|x l1 IH]; intros start; simpl.
  - now intros [= ->].
  - unfold bind. destruct (add start x) as [s|]; [apply IH | discriminate].
Qed.






End GeneralLoop.

Section TruncatedSum.

Import PrimFloat.
Import Number General GeneralExamples.




End TruncatedSum.

(** * The wider model: configurations that are not mappings of mappings *)

Section GeneralChecks.

Import General GeneralSpec.

Lemma general_run_checks_app v : forall a b,
  run_checks v (a ++ b) =
    match run_checks v a with
    | Ok _ => run_checks v b
    | Err e => Err e
    end.
Proof.
  induction a as [|r a IH]; intros b; simpl; [reflexivity|].
  destruct (check v r) as [[|]|e]; [apply IH | reflexivity | reflexivity].
Qed.

Lemma general_check_sections_run v : forall sections,
  check_sections v sections = run_checks v (RSection <$> sections).
Proof.
  induction sections as [|s rest IH]; simpl; [reflexivity|].
  unfold bind. destruct (config_contains v s) as [[|]|e]; simpl; auto.
Qed.

Lemma general_check_modules_run v : forall modules,
  check_modules v modules =
    run_checks v (flat_map (fun m => [RWeight m; RThresholds m]) modules).
Proof.
  induction modules as [|m rest IH]; simpl; [reflexivity|].
  unfold bind.
  destruct (config_weights v) as [ws|e]; [|reflexivity].
  destruct (contains ws m) as [[|]|e]; simpl; [|reflexivity|reflexivity].
  destruct (config_thresholds v) as [ts|e]; [|reflexivity].
  destruct (contains ts m) as [[|]|e]; simpl; auto.
Qed.

(** The two loops of [_validate_config] make the checks of
    [validation_order], one after the other. *)
Lemma general_validate_config_eq self v w :
  w.(heap) !! self = Some (OAggregator (Some v)) ->
  _validate_config self w = (run_checks v validation_order, w).
Proof.
  intros Hself. unfold _validate_config, self_config, mbind, deref, ret, lift.
  rewrite Hself. unfold validation_order.
  rewrite general_run_checks_app, general_check_sections_run,
    general_check_modules_run.
  change (RSection <$> ["weights"; "thresholds"])
    with [RSection "weights"; RSection "thresholds"].
  destruct (run_checks v [RSection "weights"; RSection "thresholds"]) as [[]|e];
    reflexivity.
Qed.

(** The checks of the modules, when both sections are there. *)
Lemma general_module_checks c ws ts :
  c.(weights) = Some ws -> c.(thresholds) = Some ts ->
  forall modules,
    match run_checks (DMapping c)
            (flat_map (fun m => [RWeight m; RThresholds m]) modules) with
    | Ok _ =>
        forall m, In m modules -> contains ws m = Ok true /\ contains ts m = Ok true
    | Err (ScoringError _) =>
        exists m, In m modules /\
                  (contains ws m = Ok false \/ contains ts m = Ok false)
    | Err TypeError => ws = Scalar \/ ts = Scalar
    | Err _ => False
    end.
Proof.
  intros Hw Ht. induction modules as [|m rest IH]; simpl; [tauto|].
  rewrite Hw, Ht. simpl.
  destruct (contains ws m) as [[|]|e] eqn:Ew.
  - destruct (contains ts m) as [[|]|e] eqn:Et.
    + destruct (run_checks _ _) as [[]|e].
      * intros m' [<-|Hin]; auto.
      * destruct e; simpl in IH |- *; try exact IH.
        destruct IH as (m' & Hin & Hm'). eauto.
    + exists m. auto.
    + destruct ts; simpl in Et; try discriminate. injection Et as <-. auto.
  - exists m. auto.
  - destruct ws; simpl in Ew; try discriminate. injection Ew as <-. auto.
Qed.

(** Every way the checks can end, by the shape of the document. *)
Lemma general_run_checks_cases v :
  match run_checks v validation_order with
  | Ok _ =>
      exists c ws ts,
        v = DMapping c /\ c.(weights) = Some ws /\ c.(thresholds) = Some ts /\
        forall m, In m required_modules ->
                  contains ws m = Ok true /\ contains ts m = Ok true
  | Err (ScoringError _) =>
      match v with
      | DMapping c =>
          c.(weights) = None \/ c.(thresholds) = None \/
          exists m, In m required_modules /\
                    (lacks c.(weights) m \/ lacks c.(thresholds) m)
      | _ =>
          config_contains v "weights" = Ok false \/
          config_contains v "thresholds" = Ok false
      end
  | Err TypeError => ~ well_formed v
  | Err _ => False
  end.
Proof.
  unfold validation_order. rewrite general_run_checks_app.
  set (tail := run_checks v (flat_map _ required_modules)).
  destruct v as [c|items|s|].
  - cbn [run_checks check config_contains].
    change (String.eqb "weights" "weights") with true.
    change (String.eqb "thresholds" "weights") with false.
    change (String.eqb "thresholds" "thresholds") with true. cbv beta iota.
    destruct (weights c) as [ws|] eqn:Hw.
    2:{ rewrite bool_decide_eq_false_2 by (intros [x Hx]; discriminate). auto. }
    rewrite bool_decide_eq_true_2 by eauto.
    destruct (thresholds c) as [ts|] eqn:Ht.
    2:{ rewrite bool_decide_eq_false_2 by (intros [x Hx]; discriminate). auto. }
    rewrite bool_decide_eq_true_2 by eauto.
    pose proof (general_module_checks c ws ts Hw Ht required_modules) as H.
    fold tail in H. destruct tail as [[]|e].
    + exists c, ws, ts. auto.
    + destruct e; try exact H.
      * destruct H as (m & Hin & [Hm|Hm]); right; right; exists m;
          (split; [exact Hin|]); [left | right]; unfold lacks; eauto.
      * intros (c' & [= <-] & Hnw & Hnt). rewrite Hw in Hnw. rewrite Ht in Hnt.
        destruct H as [->| ->]; congruence.
  - cbn [run_checks check config_contains].
    destruct (str_in "weights" items); [|auto].
    destruct (str_in "thresholds" items); [|auto].
    subst tail. simpl. intros (c & [=] & _).
  - cbn [run_checks check config_contains].
    destruct (occurs_in "weights" s); [|auto].
    destruct (occurs_in "thresholds" s); [|auto].
    subst tail. simpl. intros (c & [=] & _).
  - simpl. intros (c & [=] & _).
Qed.

End GeneralChecks.

Section GeneralConstruction.

Import General GeneralSpec.

Variable safe_load : string -> result yaml_doc.

Lemma general_new_eq config_path w :
  fst (new safe_load config_path w) = construction_outcome safe_load w config_path.
Proof.
  unfold new, __init__, construction_outcome, _load_config, wrapped.
  unfold mbind, alloc, logger, try_except, lookup_file, lift, ret, raise, store.
  cbn [files with_log with_heap heap].
  destruct (files w !! config_path) as [[text|e]|]; [|destruct e; reflexivity|reflexivity].
  destruct (safe_load text) as [doc|e]; [|destruct e; reflexivity].
  destruct (true_value doc) as [v|]; [|reflexivity].
  rewrite (general_validate_config_eq _ v).
  - destruct (run_checks v validation_order) as [[]|e]; reflexivity.
  - cbn [heap with_heap with_log]. apply list_lookup_insert_eq.
    rewrite length_app. simpl. lia.
Qed.

End GeneralConstruction.

Section ConfigurationErrors.

Import General GeneralSpec GeneralExamples.

(** C6, as stated, fails: the validation is made outside the [try] of
    the loader and applies [in] to whatever the sections are.  When the
    file parses to a mapping with both sections whose [weights] is null,
    the construction raises [TypeError], which is not the configuration
    error. *)
Lemma null_section_raises_type_error :
  let made := fst (General.new parse "score_config.yaml" (disk "weights: null")) in
  (exists c ts,
      parse "weights: null" = Ok (YValue (DMapping c)) /\
      c.(weights) = Some Scalar /\ c.(thresholds) = Some (Mapping ts)) /\
  made = Err TypeError /\
  forall msg, made <> Err (ScoringError msg).
Proof.
  cbv zeta. split; [|split].
  - eexists _, _. split; [reflexivity|]. split; reflexivity.
  - vm_compute. reflexivity.
  - intros msg. vm_compute. discriminate.
Qed.

(** C6, amended.  Constructing an aggregator goes check by check:
    existence of the file, reading and parsing, emptiness, then the two
    sections and the six modules in [validation_order]; the first check
    that does not pass decides the error.  It is the configuration error
    when the file does not exist or cannot be read, when its text does
    not parse, when it parses to a false value, and when a section or a
    module name is absent; every configuration error comes from such a
    defect, and every such defect makes the construction fail.  It is
    [TypeError], raised outside the [try] of the loader, and nothing
    else, when the check that does not pass is made on a value that is
    no container or no mapping, which happens only if the document is
    not a mapping or one of its sections is no container.  For a
    document that is a mapping whose sections are containers the
    construction therefore fails exactly when the source is defective,
    and always with the configuration error.  The public function
    constructs its aggregator first, so it fails with the same error
    whatever the request is. *)
Theorem construction_error_cases safe_load config_path w :
  let made := fst (General.new safe_load config_path w) in
  made = construction_outcome safe_load w config_path /\
  (forall e, made = Err e -> (exists msg, e = ScoringError msg) \/ e = TypeError) /\
  ((exists msg, made = Err (ScoringError msg)) -> config_defect safe_load w config_path) /\
  (config_defect safe_load w config_path -> exists e, made = Err e) /\
  (made = Err TypeError ->
   exists text doc v,
     w.(files) !! config_path = Some (Readable text) /\
     safe_load text = Ok doc /\ true_value doc = Some v /\ ~ well_formed v) /\
  (forall text doc v,
      w.(files) !! config_path = Some (Readable text) ->
      safe_load text = Ok doc -> true_value doc = Some v -> well_formed v ->
      ((exists e, made = Err e) <-> config_defect safe_load w config_path) /\
      (forall e, made = Err e -> exists msg, e = ScoringError msg)) /\
  (forall v e,
      fst (General.new safe_load "score_config.yaml" w) = Err e ->
      fst (General.public_aggregate_scores safe_load v w) = Err e).
Proof.
  cbv zeta.
  assert (Hcases : forall e,
            construction_outcome safe_load w config_path = Err e ->
            ((exists msg, e = ScoringError msg) /\
             config_defect safe_load w config_path) \/
            (e = TypeError /\
             exists text doc v,
               w.(files) !! config_path = Some (Readable text) /\
               safe_load text = Ok doc /\ true_value doc = Some v /\
               ~ well_formed v)).
  { intros e. unfold construction_outcome, config_defect, wrapped.
    destruct (files w !! config_path) as [[text|e0]|] eqn:Hf.
    - destruct (safe_load text) as [doc|e0] eqn:Hl.
      + destruct (true_value doc) as [v|] eqn:Hv.
        * pose proof (general_run_checks_cases v) as H.
          destruct (run_checks v validation_order) as [[]|e1]; [discriminate|].
          intros [= <-].
          destruct e1; try contradiction.
          -- left. split; [eauto|]. destruct v; exact H.
          -- right. split; [reflexivity|]. exists text, doc, v. auto.
        * intros [= <-]. left. split; [eauto | exact I].
      + intros [= <-]. left. split; [destruct e0; eauto | exact I].
    - intros [= <-]. left. split; [destruct e0; eauto | exact I].
    - intros [= <-]. left. split; [eauto | exact I]. }
  assert (Hdefect : config_defect safe_load w config_path ->
                    exists e, construction_outcome safe_load w config_path = Err e).
  { unfold construction_outcome, config_defect.
    destruct (files w !! config_path) as [[text|e0]|]; [|eauto|eauto].
    destruct (safe_load text) as [doc|e0]; [|eauto].
    destruct (true_value doc) as [v|]; [|eauto].
    pose proof (general_run_checks_cases v) as H.
    destruct (run_checks v validation_order) as [[]|e1]; [|eauto].
    destruct H as (c & ws & ts & -> & Hw & Ht & Hall).
    intros [Hd|[Hd|(m & Hin & [(x & Hx & Hm)|(x & Hx & Hm)])]]; exfalso.
    - congruence.
    - congruence.
    - rewrite Hw in Hx. injection Hx as <-.
      destruct (Hall m Hin) as (Hm' & _). congruence.
    - rewrite Ht in Hx. injection Hx as <-.
      destruct (Hall m Hin) as (_ & Hm'). congruence. }
  rewrite general_new_eq.
  split; [reflexivity|]. split; [|split; [|split; [|split; [|split]]]].
  - intros e He. destruct (Hcases e He) as [(Hs & _)|(-> & _)]; auto.
  - intros (msg & He). destruct (Hcases _ He) as [(_ & Hd)|([=] & _)]. exact Hd.
  - exact Hdefect.
  - intros He. destruct (Hcases _ He) as [((msg & [=]) & _)|(_ & H)]. exact H.
  - intros text doc v Hf Hl Hv Hwf. split; [split|].
    + intros (e & He). destruct (Hcases e He) as [(_ & Hd)|(_ & H)]; [exact Hd|].
      destruct H as (text' & doc' & v' & Hf' & Hl' & Hv' & Hn).
      rewrite Hf in Hf'. injection Hf' as <-.
      rewrite Hl in Hl'. injection Hl' as <-.
      rewrite Hv in Hv'. injection Hv' as <-. contradiction.
    + exact Hdefect.
    + intros e He. destruct (Hcases e He) as [(Hs & _)|(_ & H)]; [exact Hs|].
      destruct H as (text' & doc' & v' & Hf' & Hl' & Hv' & Hn).
      rewrite Hf in Hf'. injection Hf' as <-.
      rewrite Hl in Hl'. injection Hl' as <-.
      rewrite Hv in Hv'. injection Hv' as <-. contradiction.
  - intros v e H. unfold General.public_aggregate_scores.
    unfold mbind at 1. unfold basicConfig at 1.
    set (w1 := {| heap := heap w; log := log w; files := files w;
                  basic_config := true |}).
    assert (H1 : fst (new safe_load "score_config.yaml" w1) = Err e)
      by (rewrite general_new_eq in *; exact H).
    unfold mbind.
    destruct (new safe_load "score_config.yaml" w1) as [[a|e1] w2];
      simpl in H1; [discriminate | injection H1 as ->; reflexivity].
Qed.

End ConfigurationErrors.

(** * The typed program inside the wider one

    On a store whose configurations have integer entries and mapping
    sections, and whose files can be read, the wider program does what
    the typed program does. *)

Section WidenedRules.

Import Number.

Lemma max_int_zero z : Number.max (Int z) (Int 0) = Int (Z.max z 0).
Proof.
  unfold Number.max, Number.gtb, Number.ltb.
  destruct (Z.ltb_spec z 0); f_equal; lia.
Qed.

Lemma widen_score_docking data c :
  General._score_docking data (widen_config c) = _score_docking data c.
Proof. reflexivity. Qed.

Lemma widen_score_toxicity data c :
  General._score_toxicity data (widen_config c) = _score_toxicity data c.
Proof. reflexivity. Qed.

Ltac widen_cases :=
  repeat first
    [ reflexivity
    | rewrite max_int_zero
    | match goal with
      | |- context [match ?x with _ => _ end] =>
          lazymatch x with
          | context [match _ with _ => _ end] => fail
          | _ => destruct x; cbv beta iota
          end
      end ].

Lemma widen_score_adme_pk data c :
  General._score_adme_pk data (widen_config c) =
    let* s := _score_adme_pk data c in Ok (Int s).
Proof.
  unfold General._score_adme_pk, _score_adme_pk, bind, item, index, add.
  cbn [widen_config General.logP_range General.half_life_min
       General.clearance_acceptable General.cyp_inhibition_penalty].
  unfold option_map.
  widen_cases.
Qed.

Lemma widen_score_druggability data c :
  General._score_druggability data (widen_config c) =
    let* s := _score_druggability data c in Ok (Int s).
Proof.
  unfold General._score_druggability, _score_druggability, bind, item, add.
  cbn [widen_config General.high_score General.mid_score General.bonus_volume_min
       General.bonus_hydrophobicity_min General.volume_hydrophobicity_bonus].
  unfold option_map.
  widen_cases.
Qed.

Lemma widen_score_off_target data c :
  General._score_off_target data (widen_config c) =
    let* s := _score_off_target data c in Ok (Int s).
Proof.
  unfold General._score_off_target, _score_off_target, bind, item, index, add.
  cbn [widen_config General.si_thresholds General.low_target_bonus_threshold
       General.low_target_bonus].
  unfold option_map.
  widen_cases.
Qed.

Lemma widen_max_key (tbl : gmap Z Z) :
  General.max_key (Int <$> tbl) = max_key tbl.
Proof.
  destruct (max_key tbl) as [K|e] eqn:HK.
  - apply max_key_largest in HK as [HK Hmax].
    unfold General.max_key.
    assert (Hkeys : forall k, k ∈ (map_to_list (Int <$> tbl)).*1 <-> is_Some (tbl !! k)).
    { intros k. rewrite list_elem_of_fmap. split.
      - intros ([k' v] & -> & Hin). apply elem_of_map_to_list in Hin.
        rewrite lookup_fmap in Hin. simpl. destruct (tbl !! k'); [eauto | discriminate].
      - intros [v Hv]. exists (k, Int v). split; [reflexivity|].
        apply elem_of_map_to_list. now rewrite lookup_fmap, Hv. }
    destruct ((map_to_list (Int <$> tbl)).*1) as [|k ks] eqn:Hl.
    + apply Hkeys in HK. inversion HK.
    + destruct (foldl_max_spec ks k) as [Hin Hle]. f_equal.
      apply Z.le_antisymm.
      * apply Hmax, Hkeys, Hin.
      * apply Hle, Hkeys, HK.
  - unfold max_key in HK.
    destruct ((map_to_list tbl).*1) as [|k ks] eqn:Hl; [|discriminate].
    injection HK as <-. apply fmap_nil_inv in Hl.
    apply map_to_list_empty_iff in Hl. subst tbl.
    unfold General.max_key. now rewrite fmap_empty, map_to_list_empty.
Qed.

Lemma widen_score_drug_likeness data c :
  General._score_drug_likeness data (widen_config c) =
    let* s := _score_drug_likeness data c in Ok (Int s).
Proof.
  unfold General._score_drug_likeness, _score_drug_likeness. cbv zeta. simpl.
  destruct (score_by_violations c) as [tbl|]; [|reflexivity]. simpl.
  rewrite widen_max_key. destruct (max_key tbl) as [K|]; [|reflexivity]. simpl.
  f_equal. unfold General.table_get, table_get.
  destruct (to_key _) as [k|]; [|reflexivity].
  rewrite lookup_fmap. destruct (tbl !! k); reflexivity.
Qed.

End WidenedRules.

Section Refinement.

Import Number.

Lemma refines_ret {A B} (R : A -> B -> Prop) a b :
  R a b -> refines R (ret a) (General.ret b).
Proof. intros H w. split; [reflexivity | exact H]. Qed.

Lemma refines_raise {A B} (R : A -> B -> Prop) e :
  refines R (raise e) (General.raise e).
Proof. intros w. split; reflexivity. Qed.

Lemma refines_lift {A B} (R : A -> B -> Prop) r r' :
  result_rel R r r' -> refines R (lift r) (General.lift r').
Proof. intros H w. split; [reflexivity | exact H]. Qed.

Lemma refines_mbind {A B A' B'} (R : A -> A' -> Prop) (S : B -> B' -> Prop)
    (m : M A) (g : General.M A') (k : A -> M B) (k' : A' -> General.M B') :
  refines R m g -> (forall a a', R a a' -> refines S (k a) (k' a')) ->
  refines S (mbind m k) (General.mbind g k').
Proof.
  intros Hm Hk w. unfold mbind, General.mbind.
  destruct (Hm w) as [Hw Hr].
  destruct (m w) as [[a|e] w1], (g (widen_world w)) as [[a'|e'] w1'];
    simpl in Hw, Hr; try contradiction; subst w1'.
  - apply (Hk a a' Hr w1).
  - subst e'. split; reflexivity.
Qed.

Lemma refines_logger level msg :
  refines eq (logger level msg) (General.logger level msg).
Proof. intros w. split; reflexivity. Qed.

Lemma refines_deref l :
  refines (fun o o' => o' = option_map widen_obj o) (deref l) (General.deref l).
Proof.
  intros w. split; [reflexivity|].
  unfold deref, General.deref, widen_world. cbn [fst General.heap result_rel].
  rewrite list_lookup_fmap. unfold loc in *. now destruct (heap w !! l).
Qed.

Lemma refines_alloc o :
  refines eq (alloc o) (General.alloc (widen_obj o)).
Proof.
  intros w. unfold alloc, General.alloc, widen_world. simpl. split.
  - unfold General.with_heap. simpl. now rewrite fmap_app.
  - now rewrite length_fmap.
Qed.

Lemma refines_target v :
  refines (fun o o' => o' = option_map widen_obj o) (target v) (General.target v).
Proof.
  destruct v; simpl; try (apply refines_ret; reflexivity). apply refines_deref.
Qed.

Lemma refines_validate_input v :
  refines eq (_validate_input v) (General._validate_input v).
Proof.
  unfold _validate_input, General._validate_input.
  apply refines_mbind with (R := fun o o' => o' = option_map widen_obj o);
    [apply refines_target|].
  intros o o' ->.
  assert (Hd : General.is_dict (option_map widen_obj o) = is_dict o)
    by (destruct o as [[]|]; reflexivity).
  assert (Hl : General.dict_len (option_map widen_obj o) = dict_len o)
    by (destruct o as [[]|]; reflexivity).
  assert (Hc : forall m, General.dict_contains (option_map widen_obj o) m
                         = dict_contains o m)
    by (intros m; destruct o as [[]|]; reflexivity).
  rewrite Hd, Hl.
  destruct (negb (is_dict o)); [apply refines_raise|].
  destruct (Nat.eqb (dict_len o) 0); [apply refines_raise|].
  rewrite (filter_ext (fun m => negb (General.dict_contains (option_map widen_obj o) m))
             (fun m => negb (dict_contains o m)))
    by (intros m; now rewrite Hc).
  destruct (List.filter _ required_modules);
    [apply refines_ret; reflexivity | apply refines_raise].
Qed.

Lemma refines_get_record v name :
  refines eq (get_record v name) (General.get_record v name).
Proof.
  unfold get_record, General.get_record.
  apply refines_mbind with (R := fun o o' => o' = option_map widen_obj o);
    [apply refines_target|].
  intros o o' ->. destruct o as [[]|]; simpl;
    first [apply refines_raise | apply refines_ret; reflexivity].
Qed.

Lemma refines_self_config self :
  refines (fun c v => v = widen c) (self_config self) (General.self_config self).
Proof.
  unfold self_config, General.self_config.
  apply refines_mbind with (R := fun o o' => o' = option_map widen_obj o);
    [apply refines_deref|].
  intros o o' ->. destruct o as [[[c|]| | |]|]; simpl;
    first [apply refines_raise | apply refines_ret; reflexivity].
Qed.

Lemma widen_dict_set bd k s :
  General.dict_set ((fun p : string * Z => (p.1, Int p.2)) <$> bd) k (Int s) =
    (fun p : string * Z => (p.1, Int p.2)) <$> dict_set bd k s.
Proof.
  induction bd as [|[k' s'] bd IH]; [reflexivity|].
  rewrite fmap_cons. cbn [General.dict_set dict_set fst snd].
  destruct (String.eqb k' k); rewrite fmap_cons; cbn [fst snd];
    [reflexivity | now rewrite IH].
Qed.

(** One iteration, for a typed rule and a wider rule with the same
    outputs. *)
Lemma refines_score_module v th name f g vars vars' :
  (forall data c, th !! name = Some c ->
     result_rel same_output (f data c) (g data (widen_config c))) ->
  same_locals vars vars' ->
  refines same_locals
    (score_module v th (name, f) vars)
    (General.score_module v (General.Mapping (widen_config <$> th)) (name, g) vars').
Proof.
  intros Hfg Hvars. destruct vars as [[bd fr] tot]. unfold same_locals in Hvars.
  simpl in Hvars. subst vars'.
  unfold score_module, General.score_module.
  apply refines_mbind with (R := eq); [apply refines_get_record|].
  intros data ? <-.
  apply refines_mbind with (R := fun c c' => th !! name = Some c /\ c' = widen_config c).
  { apply refines_lift. simpl. rewrite lookup_fmap.
    destruct (th !! name); simpl; auto. }
  intros c ? [Hc ->]. specialize (Hfg data c Hc).
  apply refines_mbind
    with (R := fun (p : Z * list string) (p' : number * list string) =>
                 p' = (Int p.1, p.2)).
  { destruct (String.eqb name "toxicity").
    - apply refines_mbind with (R := same_output); [now apply refines_lift|].
      intros [s|s fl] [s'|s' fl'] Ho; simpl in Ho; try contradiction.
      + apply refines_raise.
      + destruct Ho as [-> ->]. destruct (truthy fl).
        * apply refines_mbind with (R := eq); [apply refines_logger|].
          intros _ _ _. now apply refines_ret.
        * now apply refines_ret.
    - apply refines_mbind with (R := same_output); [now apply refines_lift|].
      intros [s|s fl] [s'|s' fl'] Ho; simpl in Ho; try contradiction.
      + subst s'. now apply refines_ret.
      + apply refines_raise. }
  intros [s fr1] ? ->. cbn [fst snd].
  unfold General.mbind, General.lift. simpl add. cbv beta iota.
  apply refines_ret. unfold same_locals. simpl. now rewrite widen_dict_set.
Qed.

Lemma same_output_as_int rule rule' data c :
  rule' data (widen_config c) = rule data c ->
  result_rel same_output (MetaScoringAggregator.as_score rule data c)
    (General.as_int_score rule' data (widen_config c)).
Proof.
  intros H. unfold MetaScoringAggregator.as_score, General.as_int_score.
  rewrite H. destruct (rule data c); reflexivity.
Qed.

Lemma same_output_as_score rule rule' data c :
  rule' data (widen_config c) = (let* s := rule data c in Ok (Int s)) ->
  result_rel same_output (MetaScoringAggregator.as_score rule data c)
    (General.as_score rule' data (widen_config c)).
Proof.
  intros H. unfold MetaScoringAggregator.as_score, General.as_score.
  rewrite H. destruct (rule data c); reflexivity.
Qed.

Lemma same_output_as_pair rule rule' data c :
  rule' data (widen_config c) = rule data c ->
  result_rel same_output (MetaScoringAggregator.as_pair rule data c)
    (General.as_pair rule' data (widen_config c)).
Proof.
  intros H. unfold MetaScoringAggregator.as_pair, General.as_pair.
  rewrite H. destruct (rule data c) as [[s fl]|]; simpl; auto.
Qed.

(** The loop over the six rules. *)
Lemma refines_score_modules v th vars vars' :
  same_locals vars vars' ->
  refines same_locals
    (score_modules v th scoring_functions vars)
    (General.score_modules v (General.Mapping (widen_config <$> th))
       General.scoring_functions vars').
Proof.
  intros Hvars. unfold scoring_functions, General.scoring_functions.
  cbn [score_modules General.score_modules].
  apply refines_mbind with (R := same_locals).
  { apply refines_score_module; [|exact Hvars]. intros data c _.
    apply same_output_as_int, widen_score_docking. }
  intros vars1 vars1' H1. apply refines_mbind with (R := same_locals).
  { apply refines_score_module; [|exact H1]. intros data c _.
    apply same_output_as_score, widen_score_adme_pk. }
  intros vars2 vars2' H2. apply refines_mbind with (R := same_locals).
  { apply refines_score_module; [|exact H2]. intros data c _.
    apply same_output_as_pair, widen_score_toxicity. }
  intros vars3 vars3' H3. apply refines_mbind with (R := same_locals).
  { apply refines_score_module; [|exact H3]. intros data c _.
    apply same_output_as_score, widen_score_druggability. }
  intros vars4 vars4' H4. apply refines_mbind with (R := same_locals).
  { apply refines_score_module; [|exact H4]. intros data c _.
    apply same_output_as_score, widen_score_drug_likeness. }
  intros vars5 vars5' H5. apply refines_mbind with (R := same_locals).
  { apply refines_score_module; [|exact H5]. intros data c _.
    apply same_output_as_score, widen_score_off_target. }
  intros vars6 vars6' H6. now apply refines_ret.
Qed.

(** On the widened store a scoring call of the wider program ends as
    the call of the typed program does: with the same exception, or with
    the same reference, in the widened store that the typed call
    leaves. *)
Lemma general_call_refines self v :
  refines eq (MetaScoringAggregator.aggregate_scores self v)
    (General.aggregate_scores self v).
Proof.
  unfold MetaScoringAggregator.aggregate_scores, aggregate_scores_with.
  unfold General.aggregate_scores, General.aggregate_scores_with.
  apply refines_mbind with (R := eq); [apply refines_logger | intros _ _ _].
  apply refines_mbind with (R := eq); [apply refines_validate_input | intros _ _ _].
  apply refines_mbind with (R := fun c v => v = widen c);
    [apply refines_self_config | intros cfg ? ->].
  apply refines_mbind
    with (R := fun th th' => th' = General.Mapping (widen_config <$> th)).
  { apply refines_lift. simpl. destruct (thresholds cfg); reflexivity. }
  intros th ? ->.
  apply refines_mbind with (R := same_locals).
  { apply refines_score_modules. reflexivity. }
  intros [[bd fr] tot] ? ->. cbn [fst snd].
  unfold General.mbind at 1. unfold General.lift at 1. simpl Number.int.
  cbv beta iota. unfold int.
  apply refines_mbind with (R := eq); [|intros l ? <-; now apply refines_ret].
  apply (refines_alloc
           (OResult {| svs_score := Z.min (Z.max tot 0) 100;
                       go_decision :=
                         if (70 <=? Z.min (Z.max tot 0) 100)%Z
                            && Nat.eqb (length fr) 0
                         then "go" else "no-go";
                       score_breakdown := bd;
                       failure_rationale := fr |})).
Qed.

End Refinement.

Section ConstructionRefinement.

Variable safe_load : string -> result yaml_doc.

Lemma refines_try_except {A B} (R : A -> B -> Prop) m g h :
  refines R m g -> refines R (try_except m h) (General.try_except g h).
Proof.
  intros Hm w. unfold try_except, General.try_except.
  destruct (Hm w) as [Hw Hr].
  destruct (m w) as [[a|e] w1], (g (widen_world w)) as [[a'|e'] w1'];
    simpl in Hw, Hr; try contradiction; subst w1'.
  - split; [reflexivity | exact Hr].
  - subst e'. split; reflexivity.
Qed.

Lemma refines_read_file path :
  refines (fun f f' => f' = option_map General.Readable f)
    (read_file path) (General.lookup_file path).
Proof.
  intros w. split; [reflexivity|].
  unfold read_file, General.lookup_file, widen_world.
  cbn [fst General.files result_rel]. rewrite lookup_fmap.
  now destruct (files w !! path).
Qed.

Lemma refines_store l o :
  refines eq (store l o) (General.store l (widen_obj o)).
Proof.
  intros w. unfold store, General.store, widen_world, General.with_heap. simpl.
  split; [|reflexivity]. now rewrite list_fmap_insert.
Qed.

Lemma refines_load_config path :
  refines (fun c v => v = widen c)
    (_load_config safe_load path)
    (General._load_config (widen_loader safe_load) path).
Proof.
  unfold _load_config, General._load_config. apply refines_try_except.
  apply refines_mbind with (R := fun f f' => f' = option_map General.Readable f);
    [apply refines_read_file|].
  intros f ? ->. destruct f as [text|]; simpl.
  - apply refines_mbind with (R := fun d d' => d' = widen_doc d).
    { apply refines_lift. unfold widen_loader. destruct (safe_load text); reflexivity. }
    intros doc ? ->. destruct doc as [|c]; simpl; [apply refines_raise|].
    apply refines_mbind with (R := eq); [apply refines_logger|].
    intros _ _ _. now apply refines_ret.
  - apply refines_mbind with (R := eq); [apply refines_logger|].
    intros _ _ _. apply refines_raise.
Qed.

Lemma widen_check_sections c : forall sections,
  General.check_sections (widen c) sections = check_sections c sections.
Proof.
  induction sections as [|s rest IH]; simpl; [reflexivity|].
  unfold has_section.
  assert (Hw : bool_decide (is_Some (option_map General.Mapping (weights c)))
               = bool_decide (is_Some (weights c)))
    by (destruct (weights c); reflexivity).
  assert (Ht : bool_decide
                 (is_Some
                    (option_map
                       (fun th : gmap string module_config =>
                          General.Mapping (widen_config <$> th)) (thresholds c)))
               = bool_decide (is_Some (thresholds c)))
    by (destruct (thresholds c); reflexivity).
  rewrite Hw, Ht.
  destruct (String.eqb s "weights");
    [destruct (bool_decide (is_Some (weights c))); simpl; auto|].
  destruct (String.eqb s "thresholds"); [|reflexivity].
  destruct (bool_decide (is_Some (thresholds c))); simpl; auto.
Qed.

Lemma widen_check_modules c : forall modules,
  General.check_modules (widen c) modules = check_modules c modules.
Proof.
  induction modules as [|m rest IH]; simpl; [reflexivity|].
  destruct (weights c) as [wt|]; simpl; [|reflexivity].
  destruct (bool_decide (is_Some (wt !! m))); simpl; [|reflexivity].
  destruct (thresholds c) as [th|]; simpl; [|reflexivity].
  assert (Ht : bool_decide (is_Some ((widen_config <$> th) !! m))
               = bool_decide (is_Some (th !! m))).
  { apply bool_decide_ext. rewrite lookup_fmap. now rewrite fmap_is_Some. }
  rewrite Ht. destruct (bool_decide (is_Some (th !! m))); simpl; auto.
Qed.

Lemma refines_validate_config self :
  refines eq (_validate_config self) (General._validate_config self).
Proof.
  unfold _validate_config, General._validate_config.
  apply refines_mbind with (R := fun c v => v = widen c);
    [apply refines_self_config|].
  intros c ? ->.
  apply refines_mbind with (R := eq).
  { apply refines_lift. rewrite widen_check_sections.
    destruct (check_sections c _) as [[]|]; reflexivity. }
  intros _ _ _. apply refines_lift. rewrite widen_check_modules.
  destruct (check_modules c _) as [[]|]; reflexivity.
Qed.

(** On the widened store, with the widened parser, a construction of
    the wider program ends as the construction of the typed program
    does. *)
Lemma general_new_refines path :
  refines eq (new safe_load path) (General.new (widen_loader safe_load) path).
Proof.
  unfold new, General.new, __init__, General.__init__.
  apply refines_mbind with (R := eq); [apply (refines_alloc (OAggregator None))|].
  intros self ? <-.
  apply refines_mbind with (R := eq); [|intros _ _ _; now apply refines_ret].
  apply refines_mbind with (R := eq); [apply refines_logger | intros _ _ _].
  apply refines_mbind with (R := fun c v => v = widen c);
    [apply refines_load_config | intros c ? ->].
  apply refines_mbind with (R := eq);
    [apply (refines_store self (OAggregator (Some c))) | intros _ _ _].
  apply refines_validate_config.
Qed.

End ConstructionRefinement.
